(* ===== verification/_CoqProject ===== *)
-Q . S2P
Prelude.v
PyString.v
PyValue.v
Json.v
JsonFacts.v
Schema.v
ModelsPy.v
Store.v
SetupDb.v
Services.v
Startup.v
Analyze.v
Http.v
