(* ===== verification/Prelude.v ===== *)
(** * CodeSense backend: a verification development

    The repository (Sai290307/CodeSense) is a small FastAPI relay between
    a code editor, the Groq chat-completion API and a Supabase (PostgREST
    over Postgres) store:
    - [src/main.py]: the HTTP surface.  [analyze_code] (POST
      /api/v1/analyze) rejects blank code (400), builds a fixed system
      prompt and a user prompt, calls the provider once, decodes the first
      choice with [json.loads], saves the analysis through
      [SupabaseService] inside its own [try] (best effort) and answers with
      an [APIResponse] whose [issues_count] is recomputed as [len(issues)];
      [JSONDecodeError] becomes 500 "AI returned invalid JSON format.",
      any other exception 500 "Analysis failed: ...".  [get_history] (GET
      /api/v1/history) constructs the service and returns the caller's
      rows; [read_root] (GET /) is a liveness probe.  The caller is the
      [X-User-ID] header, ["demo-user"] when absent.  The file declares its
      own pydantic models ([CodeAnalysisRequest], [Issue], [AnalysisData],
      [APIResponse]).
    - [src/services.py]: [SupabaseService]: [__init__] reads
      SUPABASE_URL/SUPABASE_KEY (ValueError when missing) and calls
      [create_client], which checks the URL and the key;
      [save_analysis] inserts one [analyses] row, returns
      ["error-saving-db"] when the insert hands back no row, and then, in a
      separate statement whose failure is only printed, one
      [analysis_results] row per issue; [get_history] selects the user's
      rows ordered by [created_at] desc and degrades every failure to [[]].
    - [src/models.py]: the pydantic model of a history row
      ([DBAnalysisRecord]) and its own copies of the request and response
      models.
    - [src/setup_db.py]: the DDL of the two tables (column types,
      defaults, NOT NULL, the cascading foreign key, two indexes) and
      [setup_database], which runs it over psycopg2.

    The request flow is: [Http.handle] routes to [Http.analyze_route] or
    [Http.history_route]; the first validates the body and runs
    [Analyze.analyze_code], which calls the provider (a function of the
    world), then [Services.save_analysis], which issues
    [Store.insert_stmt] statements; the second runs
    [Services.get_history], which issues [Store.select_history], and
    validates its rows with [Schema.Models.validate_records].

    Files, in dependency order (_CoqProject):
    - [Prelude] (this file): the [PyM] state-and-exception monad for the
      sequential Python control flow ([try]/[except] as [ptry], [raise] as
      [praise], the world passed explicitly and kept when an exception
      escapes), its notations [let*] and [;;;] in [py_scope], the pure
      [outcome] monad with [let?], the monad laws, the invariant
      combinators [preserves_*], the [pyrw] and [pyinv] hint databases.
    - [PyString]: [str.isspace]/[str.strip] on ASCII and [str(int)] with
      pydantic's int-from-str parser; the parse/print round trip.
    - [PyValue]: the values [json.loads] yields, truthiness, [len],
      iteration, [dict.get], [d[k]], and the exception type of the program.
    - [Json]: the standard-library [json.loads] that main.py applies to the
      model's reply (line 123) and [json.dumps], modelled from the JSON
      grammar: a mutual [Fixpoint] parser on fuel with an explicit
      out-of-fuel result, objects built with [dict(pairs)] semantics, and
      the encoder with the default separators and [ensure_ascii].
    - [JsonFacts]: the parser's fuel bound and fuel independence, and the
      encode/decode round trip.
    - [Schema]: [Module Main] (main.py's models: the [IssueType] and
      [Severity] literals, validators in lax mode collecting every field
      error, dumps) and [Module Models] ([DBAnalysisRecord]).
    - [ModelsPy]: models.py's own [CodeAnalysisRequest], [Issue],
      [AnalysisData] (optional [optimized_code] and [summary]) and
      [APIResponse], related to main.py's copies.
    - [Store]: the two tables of setup_db.py and the store state (rows,
      uuid counter, clock, availability, row-level-security policy per
      table); INSERT with defaults, NOT NULL, the conversion of JSON values
      to TEXT and to the 32-bit INTEGER (with [int4in] on strings), the
      foreign key, primary-key uniqueness and statement atomicity;
      SELECT ... WHERE user_id ORDER BY created_at DESC; the
      referential-integrity invariant [db_wf].
    - [SetupDb]: [setup_db.setup_database]: the Postgres catalog, the
      psycopg2 connection held by the call's frame (closed by
      [conn.close()] or, at the return, by the deallocator), the four DDL
      statements (CREATE privilege first, then IF NOT EXISTS) run as one
      transaction, the printed lines and the [except] clause.
    - [Services]: [SupabaseService_init] with [create_client]'s checks,
      [analysis_payload], [insert_parent], [result_item], [insert_issues],
      [save_analysis], [get_history] in [PyM] over the world (environment,
      store, provider, event log).
    - [Startup]: the import of main.py (lines 15-45): [load_dotenv()]
      without override, the two API-key warnings, the CORS configuration
      and the [Groq] client, which raises when no key is found.
    - [Analyze]: [analyze_code] and its parts ([system_prompt],
      [user_prompt], [completion_args], [call_provider],
      [first_content_o], [json_loads_o], [save_best_effort],
      [assemble_response], [analyze_except]), its contract
      [analyze_spec], and concrete runs with the decoder of [Json].
    - [Http]: the routes, the header lookup, the exception-to-response
      mapping and the dispatcher [handle].

    What the theorems show (claim ids of the manifest):
    - the endpoint: it refines the pure contract [analyze_spec], so the
      answer depends only on the request and the provider's reply (C2);
      the answer's [issues_count] is [len(issues)] (C1); blank code is 400
      with nothing done (C3), a non-JSON reply the invalid-JSON 500 (C4),
      an explicit null [optimized_code] a validation 500 (C20); the
      analysis is persisted before the reply is validated, with the
      model's own count (C6);
    - persistence: a save is read back as the newest history row (C5); a
      history read never fails (C11); a store that returns no data is not
      reported as a failure (C19); the parent/child writes are not atomic
      (C21); a self-reported count beyond 32 bits aborts the save (C15,
      C16);
    - the store: INSERT keeps the keys and the foreign key (C12); SELECT
      implements its ordering contract, and its order is the only one the
      contract admits (C13, C14);
    - the models: the [Literal] of [issue_type] rejects other strings
      (C17); every stored row passes [DBAnalysisRecord] (C18); main.py's
      [AnalysisData] refines models.py's, not conversely, and every
      response validates as models.py's [APIResponse] (C22-C24);
    - the HTTP layer: history without configuration (C8) or with a URL
      [create_client] rejects (C7) is 500, a blank submission is 400
      (C9), a configured service answers 200 with the rows (C10);
    - the schema script: on a fresh database it creates exactly the two
      tables and two indexes (C25), a rerun with the CREATE privilege
      changes nothing (C26), and it never raises, printing what the server
      decides (C27);
    - start-up: the warnings and the [GroqError] against the effective
      environment (C28).

    Modelling choices.  The JSON parser is the one recursion that is not
    structural: it runs on fuel, [json_fuel l = 3 * length l + 3].  Every
    parser function either consumes a character or passes the same input
    one step down the chain value, elements, element (members, member), so
    three units per character and three for the end are enough; this is
    proved ([JsonFacts.fuel_enough]), and any larger fuel gives the same
    answer ([JsonFacts.p_value_mono]); [JsonFacts] also proves the
    encode/decode round trip.  Every other recursion is structural on a
    list.  [gen_random_uuid()] is a counter and [now()] a clock that
    advances at each committed statement, so timestamps are integers and
    the history order is decidable.  Integers are [Z] with the INTEGER
    column's range [-2^31, 2^31-1] checked where Postgres checks it.
    Strings are sequences of code points below 256 (one [ascii] each), so
    [str.strip] knows NEXT LINE and NO-BREAK SPACE.  In the handler's
    theorems [json.loads] is a section variable and the provider a
    function in the world, so they hold for any decoder and any reply.
    The [.env] file is taken already parsed, as [dotenv_values] returns
    it.  Python's string and dict built-ins, pydantic's lax validation,
    supabase-py's [create_client] checks and the PostgREST semantics are
    library behaviour the sources only call; they are written as small
    executable definitions and documented where they are declared.

    Not modelled: the Groq service itself (a function of the world),
    CORS request handling (only the middleware's configuration is
    recorded), the syntax of the [.env] file, network transport and
    timeouts, code points above 255 (the decoder reads [\u00xx] escapes
    only), [float.__repr__] and NaN/Infinity (floats are parsed to exact
    rationals and not encoded), the JSON text a TEXT column receives for
    a float, list or dict, the [ON DELETE CASCADE] the program never
    triggers, concurrent requests (the spec has no shared in-process
    state).

    Plan for later work: the HTTP round trip of an analysis (request body
    to JSON response through [json.dumps]); that the provider is called
    exactly once per non-blank request.
*)

From stdpp Require Import base list strings.
From Stdlib Require Import ZArith.

Declare Scope py_scope.
Delimit Scope py_scope with py.

(** ** The outcome of a Python statement: a value or a raised exception *)

Inductive outcome (E A : Type) : Type :=
| Ret (a : A)
| Raise (e : E).
Arguments Ret {E A} a.
Arguments Raise {E A} e.

(** A Python computation threads a world [S] and may raise an [E].  The
    world is returned also when an exception escapes: side effects
    performed before the [raise] (a row inserted, a line logged) stay. *)
Definition PyM (E S A : Type) : Type := S -> outcome E A * S.

Section Monad.
Context {E S : Type}.

Definition pret {A} (a : A) : PyM E S A := fun s => (Ret a, s).

Definition pbind {A B} (m : PyM E S A) (k : A -> PyM E S B) : PyM E S B :=
  fun s =>
    match m s with
    | (Ret a, s') => k a s'
    | (Raise e, s') => (Raise e, s')
    end.

Definition praise {A} (e : E) : PyM E S A := fun s => (Raise e, s).

(** [try: m except e: h e] *)
Definition ptry {A} (m : PyM E S A) (h : E -> PyM E S A) : PyM E S A :=
  fun s =>
    match m s with
    | (Ret a, s') => (Ret a, s')
    | (Raise e, s') => h e s'
    end.

Definition pget : PyM E S S := fun s => (Ret s, s).
Definition pmodify (f : S -> S) : PyM E S unit := fun s => (Ret tt, f s).
Definition plift {A} (r : outcome E A) : PyM E S A := fun s => (r, s).

(** Run a computation on one component of the world. *)
Definition pzoom {T A} (get : S -> T) (set : T -> S -> S) (m : PyM E T A) : PyM E S A :=
  fun s => let '(r, t') := m (get s) in (r, set t' s).

(** [for x in xs: f x], collecting the results. *)
Fixpoint pmapM {A B} (f : A -> PyM E S B) (xs : list A) : PyM E S (list B) :=
  match xs with
  | [] => pret []
  | x :: xs' => pbind (f x) (fun b => pbind (pmapM f xs') (fun bs => pret (b :: bs)))
  end.
End Monad.

(** The pure error monad on [outcome], for computations without a world. *)
Definition obind {E A B} (m : outcome E A) (k : A -> outcome E B) : outcome E B :=
  match m with
  | Ret a => k a
  | Raise e => Raise e
  end.

Notation "'let?' x ':=' m 'in' k" := (obind m (fun x => k))
  (at level 10, x name, m at level 100, k at level 200,
   format "'[v' 'let?'  x  ':='  m  'in' '/' k ']'") : py_scope.

Notation "'let*' x ':=' m 'in' k" := (pbind m (fun x => k))
  (at level 10, x name, m at level 100, k at level 200,
   format "'[v' 'let*'  x  ':='  m  'in' '/' k ']'") : py_scope.
Notation "m ';;;' k" := (pbind m (fun _ => k))
  (at level 100, right associativity) : py_scope.

Open Scope py_scope.

(** ** Monad laws and running lemmas *)

Create Rewrite HintDb pyrw.

Section MonadLaws.
Context {E S : Type}.

Lemma pbind_pret_l {A B} (a : A) (k : A -> PyM E S B) s :
  pbind (pret a) k s = k a s.
Proof. reflexivity. Qed.

Lemma pbind_pret_r {A} (m : PyM E S A) s : pbind m pret s = m s.
Proof. unfold pbind, pret. by destruct (m s) as [[] ?]. Qed.

Lemma pbind_assoc {A B C} (m : PyM E S A) (k1 : A -> PyM E S B)
      (k2 : B -> PyM E S C) s :
  pbind (pbind m k1) k2 s = pbind m (fun a => pbind (k1 a) k2) s.
Proof. unfold pbind. by destruct (m s) as [[] ?]. Qed.

Lemma pbind_plift_Ret {A B} (a : A) (k : A -> PyM E S B) s :
  pbind (plift (Ret a)) k s = k a s.
Proof. reflexivity. Qed.

Lemma pbind_plift_Raise {A B} (e : E) (k : A -> PyM E S B) s :
  pbind (plift (Raise e)) k s = (Raise e, s).
Proof. reflexivity. Qed.

Lemma pbind_praise {A B} (e : E) (k : A -> PyM E S B) s :
  pbind (praise e) k s = (Raise e, s).
Proof. reflexivity. Qed.

Lemma pbind_run_ret {A B} (m : PyM E S A) (k : A -> PyM E S B) s a s' :
  m s = (Ret a, s') -> pbind m k s = k a s'.
Proof. unfold pbind. by intros ->. Qed.

Lemma pbind_run_raise {A B} (m : PyM E S A) (k : A -> PyM E S B) s e s' :
  m s = (Raise e, s') -> pbind m k s = (Raise e, s').
Proof. unfold pbind. by intros ->. Qed.

Lemma ptry_run_ret {A} (m : PyM E S A) h s a s' :
  m s = (Ret a, s') -> ptry m h s = (Ret a, s').
Proof. unfold ptry. by intros ->. Qed.

Lemma ptry_run_raise {A} (m : PyM E S A) h s e s' :
  m s = (Raise e, s') -> ptry m h s = h e s'.
Proof. unfold ptry. by intros ->. Qed.

(** A world predicate preserved by every step of a computation. *)
Definition preserves {A} (P : S -> Prop) (m : PyM E S A) : Prop :=
  forall s, P s -> P (snd (m s)).

Lemma preserves_pret {A} P (a : A) : preserves P (pret a).
Proof. by intros s. Qed.

Lemma preserves_praise {A} P (e : E) : preserves P (praise (A:=A) e).
Proof. by intros s. Qed.

Lemma preserves_pbind {A B} P (m : PyM E S A) (k : A -> PyM E S B) :
  preserves P m -> (forall a, preserves P (k a)) -> preserves P (pbind m k).
Proof.
  intros Hm Hk s Hs. unfold pbind.
  specialize (Hm s Hs). destruct (m s) as [[a|e] s'] eqn:E'; simpl in *;
    [by apply Hk | done].
Qed.

Lemma preserves_ptry {A} P (m : PyM E S A) h :
  preserves P m -> (forall e, preserves P (h e)) -> preserves P (ptry m h).
Proof.
  intros Hm Hh s Hs. unfold ptry.
  specialize (Hm s Hs). destruct (m s) as [[a|e] s'] eqn:E'; simpl in *;
    [done | by apply Hh].
Qed.

Lemma preserves_pmapM {A B} P (f : A -> PyM E S B) xs :
  (forall x, preserves P (f x)) -> preserves P (pmapM f xs).
Proof.
  intros Hf. induction xs as [|x xs IH]; simpl.
  - apply preserves_pret.
  - apply preserves_pbind; [done|]. intros b.
    apply preserves_pbind; [done|]. intros bs. apply preserves_pret.
Qed.
End MonadLaws.

(** A computation that leaves the world as it found it. *)
Lemma preserves_frame {E S A} (P : S -> Prop) (m : PyM E S A) :
  (forall s, snd (m s) = s) -> preserves P m.
Proof. intros H s Hs. by rewrite H. Qed.

#[export] Hint Rewrite @pbind_pret_l @pbind_plift_Ret @pbind_plift_Raise @pbind_praise : pyrw.

Create HintDb pyinv discriminated.
#[export] Hint Resolve preserves_pret preserves_praise preserves_pbind
  preserves_ptry preserves_pmapM : pyinv.

(** Unfold the monad and compute; the workhorse of the component files. *)
Ltac py_run :=
  repeat (unfold pbind, pret, praise, ptry, pget, pmodify, plift in *);
  simpl in *.

(** ** Shared lemmas on options and lists *)

Lemma obind_Ret_inv {E A B} (m : outcome E A) (k : A -> outcome E B) b :
  obind m k = Ret b -> exists a, m = Ret a /\ k a = Ret b.
Proof. destruct m; simpl; intros; simplify_eq; eauto. Qed.

Lemma obind_Raise_of {E A B} (m : outcome E A) (k : A -> outcome E B) :
  (forall a, exists e, k a = Raise e) -> exists e, obind m k = Raise e.
Proof. intros Hk. destruct m as [a|e]; simpl; [apply Hk | by exists e]. Qed.

Lemma fmap_Some_inv {A B} (f : A -> B) (o : option A) b :
  f <$> o = Some b -> exists a, o = Some a /\ b = f a.
Proof. destruct o; simpl; intros; simplify_eq; eauto. Qed.
