(* ===== verification/PyString.v ===== *)
(** * Python string built-ins used by the program

    [str.isspace] and [str.strip] on strings of code points below 256
    (each [ascii] is one Latin-1 code point; main.py line 79:
    [if not request.code.strip()]), and the decimal rendering of integers
    ([str(int)]) with the strict decimal parser that pydantic's lax mode
    applies to a string given for an [int] field.  These are library
    behaviour, not code of the repository: the map does not list them. *)

From S2P Require Import Prelude.
From stdpp Require Import base list strings.
From Stdlib Require Import ZArith Ascii String DecimalString DecimalPos DecimalN.

Open Scope string_scope.

(** ** Whitespace and strip *)

(** CPython's [Py_UNICODE_ISSPACE] on the code points below 256: \t \n
    \v \f \r (9-13), the separators \x1c-\x1f (28-31), the space (32),
    NEXT LINE (133) and NO-BREAK SPACE (160). *)
Definition py_isspace (c : ascii) : bool :=
  let n := nat_of_ascii c in
  ((9 <=? n) && (n <=? 13) || (28 <=? n) && (n <=? 32) || (n =? 133) || (n =? 160))%nat.

Fixpoint lstrip_chars (l : list ascii) : list ascii :=
  match l with
  | [] => []
  | c :: l' => if py_isspace c then lstrip_chars l' else l
  end.

(** [str.strip()]: CPython's [do_strip] advances [i] over leading
    whitespace and moves [j] back over trailing whitespace, then returns
    [s[i:j]]; stripping the reversed list from the front is the same. *)
Definition py_strip (s : string) : string :=
  string_of_list_ascii
    (rev (lstrip_chars (rev (lstrip_chars (list_ascii_of_string s))))).

Definition all_space (l : list ascii) : Prop := Forall (fun c => py_isspace c = true) l.

Lemma lstrip_chars_nil_iff l : lstrip_chars l = [] <-> all_space l.
Proof.
  unfold all_space. induction l as [|c l IH]; simpl.
  - split; [constructor | done].
  - destruct (py_isspace c) eqn:Hc.
    + rewrite IH, Forall_cons. tauto.
    + split; [done|]. intros Hf. apply Forall_cons in Hf. destruct Hf; congruence.
Qed.

Lemma lstrip_chars_all_space l : all_space l -> lstrip_chars l = [].
Proof. apply lstrip_chars_nil_iff. Qed.

Lemma all_space_rev l : all_space (rev l) <-> all_space l.
Proof. unfold all_space. split; [intros H; rewrite <- (rev_involutive l); by apply Forall_rev | by apply Forall_rev]. Qed.

Lemma lstrip_chars_all_space_nil l : all_space (lstrip_chars l) -> lstrip_chars l = [].
Proof.
  unfold all_space. induction l as [|c l IH]; simpl; [done|].
  destruct (py_isspace c) eqn:Hc; [done|].
  intros Hf. apply Forall_cons in Hf. destruct Hf; congruence.
Qed.

Lemma string_of_list_ascii_nil_iff l : string_of_list_ascii l = "" <-> l = [].
Proof. destruct l; simpl; split; done. Qed.

(** The string is blank for [strip] exactly when every character is
    whitespace. *)
Lemma py_strip_empty_iff s :
  py_strip s = "" <-> all_space (list_ascii_of_string s).
Proof.
  unfold py_strip. rewrite string_of_list_ascii_nil_iff.
  split.
  - intros H. apply (f_equal (@rev ascii)) in H. rewrite rev_involutive in H.
    simpl in H. apply lstrip_chars_nil_iff in H. apply all_space_rev in H.
    rewrite rev_involutive in H.
    apply lstrip_chars_nil_iff. by apply lstrip_chars_all_space_nil.
  - intros H. rewrite (lstrip_chars_all_space _ H). done.
Qed.

(** ** Decimal integers *)

(** [str(z)] for a Python [int]. *)
Definition py_str_of_int (z : Z) : string :=
  match z with
  | Z0 => "0"
  | Zpos p => NilEmpty.string_of_uint (Pos.to_uint p)
  | Zneg p => String "-" (NilEmpty.string_of_uint (Pos.to_uint p))
  end.

(** An optional sign followed by at least one decimal digit. *)
Definition parse_int_str (s : string) : option Z :=
  let '(neg, digits) :=
    match s with
    | String "-" r => (true, r)
    | String "+" r => (false, r)
    | _ => (false, s)
    end in
  match digits with
  | EmptyString => None
  | _ =>
      match NilEmpty.uint_of_string digits with
      | Some u => let n := Z.of_N (N.of_uint u) in Some (if neg then (- n)%Z else n)
      | None => None
      end
  end.

Definition is_digit (c : ascii) : bool :=
  let n := nat_of_ascii c in ((48 <=? n) && (n <=? 57))%nat.

Lemma string_of_uint_first u c r :
  NilEmpty.string_of_uint u = String c r -> is_digit c = true.
Proof. destruct u; simpl; intros; simplify_eq; reflexivity. Qed.

Lemma string_of_pos_nonempty p : NilEmpty.string_of_uint (Pos.to_uint p) <> "".
Proof.
  intros H. apply (f_equal NilEmpty.uint_of_string) in H.
  rewrite NilEmpty.usu in H. simpl in H. injection H as H.
  apply (f_equal Pos.of_uint) in H. rewrite DecimalPos.Unsigned.of_to in H.
  discriminate.
Qed.

Lemma parse_digits_pos p :
  parse_int_str (NilEmpty.string_of_uint (Pos.to_uint p)) = Some (Zpos p).
Proof.
  unfold parse_int_str.
  destruct (NilEmpty.string_of_uint (Pos.to_uint p)) as [|c r] eqn:Hs.
  { by apply string_of_pos_nonempty in Hs. }
  pose proof (string_of_uint_first _ _ _ Hs) as Hd.
  assert (Hu : NilEmpty.uint_of_string (String c r) = Some (Pos.to_uint p))
    by (rewrite <- Hs; apply NilEmpty.usu).
  assert (Hn : N.of_uint (Pos.to_uint p) = Npos p).
  { unfold N.of_uint. by rewrite DecimalPos.Unsigned.of_to. }
  destruct c as [[] [] [] [] [] [] [] []]; simpl in Hd; try discriminate;
    rewrite Hu; by rewrite Hn.
Qed.

(** Round trip: the parser reads back every rendering of an [int]. *)
Theorem parse_py_str_of_int z : parse_int_str (py_str_of_int z) = Some z.
Proof.
  destruct z as [|p|p]; [reflexivity | apply parse_digits_pos |].
  unfold py_str_of_int, parse_int_str.
  destruct (NilEmpty.string_of_uint (Pos.to_uint p)) as [|c r] eqn:Hs.
  { by apply string_of_pos_nonempty in Hs. }
  rewrite <- Hs, NilEmpty.usu. unfold N.of_uint.
  by rewrite DecimalPos.Unsigned.of_to.
Qed.

Lemma py_str_of_int_inj z1 z2 : py_str_of_int z1 = py_str_of_int z2 -> z1 = z2.
Proof.
  intros H. apply (f_equal parse_int_str) in H.
  rewrite !parse_py_str_of_int in H. congruence.
Qed.
