(* ===== verification/PyValue.v ===== *)
(** * Python values and exceptions

    The values the program manipulates without a declared type: what
    [json.loads] returns for the model's reply (main.py line 123), the
    dicts [save_analysis] builds as insert payloads (services.py lines
    19-27, 51-61) and the rows the store hands back.  A JSON object becomes
    a Python dict with string keys, kept as an association list in
    insertion order.  The built-ins the code applies to them ([dict.get],
    truthiness in [if issues:], [len], [for ... in ...]) are written here
    as they behave in CPython; they are library behaviour and not in the
    map.  The exception type lists every exception the program raises or
    catches. *)

From S2P Require Import Prelude PyString.
From stdpp Require Import base list strings.
From Stdlib Require Import ZArith QArith String.

Open Scope string_scope.
Local Set Warnings "-register-all".

Inductive pyval : Type :=
| PNone
| PBool (b : bool)
| PInt (z : Z)
| PFloat (q : Q)
| PStr (s : string)
| PList (l : list pyval)
| PDict (d : list (string * pyval)).

Abbreviation pydict := (list (string * pyval)).

(** ** Built-ins on values *)

Fixpoint dict_lookup (d : pydict) (k : string) : option pyval :=
  match d with
  | [] => None
  | (k', v) :: d' => if String.eqb k k' then Some v else dict_lookup d' k
  end.

(** [bool(v)]: None, False, 0, 0.0 and empty containers are false. *)
Definition py_truthy (v : pyval) : bool :=
  match v with
  | PNone => false
  | PBool b => b
  | PInt z => negb (Z.eqb z 0)
  | PFloat q => negb (Qeq_bool q 0)
  | PStr s => negb (String.eqb s "")
  | PList l => negb (Nat.eqb (List.length l) 0)
  | PDict d => negb (Nat.eqb (List.length d) 0)
  end.

(** [len(v)]: [None] stands for the [TypeError] of a value without [len]. *)
Definition py_len (v : pyval) : option nat :=
  match v with
  | PStr s => Some (String.length s)
  | PList l => Some (List.length l)
  | PDict d => Some (List.length d)
  | _ => None
  end.

(** [iter(v)]: a list yields its items, a dict its keys, a str its
    one-character strings; other values are not iterable. *)
Definition py_iter (v : pyval) : option (list pyval) :=
  match v with
  | PList l => Some l
  | PDict d => Some (map (fun kv => PStr kv.1) d)
  | PStr s => Some (map (fun c => PStr (String c EmptyString)) (list_ascii_of_string s))
  | _ => None
  end.

(** ** Exceptions *)

Inductive loc_item : Type :=
| LocKey (s : string)
| LocIdx (n : nat).

(** pydantic's error types, as far as the models of the program can
    produce them. *)
Inductive verr_kind : Type :=
| Missing
| StringType
| IntType
| IntFromFloat
| IntParsing
| LiteralError
| ListType
| ModelType.

Record verr : Type := mk_verr { ve_loc : list loc_item; ve_kind : verr_kind }.

Inductive py_exc : Type :=
| ValueError (msg : string)
| TypeError (msg : string)
| AttributeError (msg : string)
| KeyError (k : string)
| IndexError
| JSONDecodeError
| ValidationError (model : string) (errs : list verr)
| APIError (code : string)
| ConnectError
| SupabaseException (msg : string)
| ProviderError (msg : string)
| HTTPException (status : Z) (detail : http_detail)
with http_detail : Type :=
| DetailText (s : string)
| DetailExcStr (e : py_exc)
| DetailAnalysisFailed (e : py_exc).

(** [v.get(k, default)]: only a dict has [get]. *)
Definition py_get_o (v : pyval) (k : string) (dflt : pyval) : outcome py_exc pyval :=
  match v with
  | PDict d => Ret (default dflt (dict_lookup d k))
  | _ => Raise (AttributeError "get")
  end.

(** [v[k]] on a dict. *)
Definition py_getitem_key_o (v : pyval) (k : string) : outcome py_exc pyval :=
  match v with
  | PDict d =>
      match dict_lookup d k with
      | Some x => Ret x
      | None => Raise (KeyError k)
      end
  | _ => Raise (TypeError "subscript")
  end.

(** [len(v)] *)
Definition py_len_o (v : pyval) : outcome py_exc nat :=
  match py_len v with
  | Some n => Ret n
  | None => Raise (TypeError "len")
  end.

(** [iter(v)] *)
Definition py_iter_o (v : pyval) : outcome py_exc (list pyval) :=
  match py_iter v with
  | Some l => Ret l
  | None => Raise (TypeError "not iterable")
  end.

(** The same built-ins as statements of a computation on any world. *)
Definition py_get {S} (v : pyval) (k : string) (dflt : pyval) : PyM py_exc S pyval :=
  plift (py_get_o v k dflt).
Definition py_getitem_key {S} (v : pyval) (k : string) : PyM py_exc S pyval :=
  plift (py_getitem_key_o v k).
Definition py_len_m {S} (v : pyval) : PyM py_exc S nat := plift (py_len_o v).
Definition py_iter_m {S} (v : pyval) : PyM py_exc S (list pyval) := plift (py_iter_o v).

Definition opt_str (o : option string) : pyval :=
  match o with Some s => PStr s | None => PNone end.

Definition opt_int (o : option Z) : pyval :=
  match o with Some z => PInt z | None => PNone end.

(** ** Facts on the built-ins *)

(** The built-ins do not touch the world. *)
Lemma plift_state {E S A} (r : outcome E A) (s : S) : snd (plift r s) = s.
Proof. reflexivity. Qed.

Lemma py_get_dict {S} (d : pydict) k dflt (s : S) :
  py_get (PDict d) k dflt s = (Ret (default dflt (dict_lookup d k)), s).
Proof. reflexivity. Qed.

Lemma py_len_truthy v n : py_len v = Some n -> py_truthy v = negb (Nat.eqb n 0).
Proof.
  destruct v as [| | | |s|l|d]; simpl; intros H; simplify_eq; try done.
  destruct s; simpl; done.
Qed.

Lemma dict_lookup_app_l (d1 d2 : pydict) k v :
  dict_lookup d1 k = Some v -> dict_lookup (d1 ++ d2) k = Some v.
Proof.
  induction d1 as [|[k' v'] d1 IH]; simpl; [done|].
  by destruct (String.eqb k k').
Qed.
