(* ===== verification/Json.v ===== *)
(** * JSON text: [json.loads] and [json.dumps]

    main.py decodes the model's reply with [json.loads(response_content)]
    (line 123); FastAPI encodes the response with the same grammar.  This
    file gives CPython's decoder and its default encoder on the values of
    [PyValue], as a recursive-descent parser over the characters of the
    text:
    - whitespace is space, tab, newline and carriage return; the value may
      be surrounded by whitespace and nothing else ("Extra data");
    - objects build a dict with [dict(pairs)] semantics: a repeated key
      keeps its first position and takes its last value; arrays; strings
      with the two-character escapes (quote, backslash, slash, b, f, n, r,
      t) and the six-character [\uXXXX]; [true], [false], [null];
    - numbers are an optional minus, [0] or digits not starting with [0],
      an optional fraction (a dot and digits) and an optional exponent
      ([e] or [E], an optional sign, digits): no fraction and no exponent
      give an [int], otherwise a float, here the exact rational of the
      decimal literal;
    - strict mode: a control character inside a string is an error.

    The parser is a [Fixpoint] on a fuel argument, with an explicit
    out-of-fuel outcome so that exhaustion cannot pass for an error of
    the text.  [json_loads] runs it with [3 * length + 3] units, which
    [Json_facts] proves is always enough.

    Outside the model: characters beyond one byte ([\uXXXX] above 255,
    and the surrogate pairs), and the non-standard literals [NaN],
    [Infinity], [-Infinity] that CPython accepts as floats: they are
    decoding errors here, as are values [PFloat] cannot hold. *)

From S2P Require Import Prelude PyString PyValue.
From stdpp Require Import base list strings.
From Stdlib Require Import ZArith QArith Ascii String DecimalString DecimalN.

Open Scope string_scope.
Open Scope char_scope.

(** ** Characters *)

Definition is_json_ws (c : ascii) : bool :=
  match c with " " | "009" | "010" | "013" => true | _ => false end.

Fixpoint skip_ws (l : list ascii) : list ascii :=
  match l with
  | c :: l' => if is_json_ws c then skip_ws l' else l
  | [] => []
  end.

Fixpoint take_digits (l : list ascii) : list ascii * list ascii :=
  match l with
  | c :: l' => if is_digit c then let '(ds, r) := take_digits l' in (c :: ds, r) else ([], l)
  | [] => ([], [])
  end.

Definition hex_val (c : ascii) : option N :=
  let n := N_of_ascii c in
  if ((48 <=? n) && (n <=? 57))%N then Some (n - 48)%N
  else if ((97 <=? n) && (n <=? 102))%N then Some (n - 87)%N
  else if ((65 <=? n) && (n <=? 70))%N then Some (n - 55)%N
  else None.

(** [\uXXXX] for a code point that fits a byte. *)
Definition unicode_escape (h1 h2 h3 h4 : ascii) : option ascii :=
  match hex_val h1, hex_val h2, hex_val h3, hex_val h4 with
  | Some a, Some b, Some c, Some d =>
      let n := (((a * 16 + b) * 16 + c) * 16 + d)%N in
      if (n <? 256)%N then Some (ascii_of_N n) else None
  | _, _, _, _ => None
  end.

Definition simple_escape (c : ascii) : option ascii :=
  match c with
  | "034" => Some "034" | "\" => Some "\" | "/" => Some "/"
  | "b" => Some "008" | "f" => Some "012" | "n" => Some "010"
  | "r" => Some "013" | "t" => Some "009"
  | _ => None
  end.

(** The body of a string after its opening quote: the characters and
    what follows the closing quote. *)
Fixpoint p_string_body (l : list ascii) : option (list ascii * list ascii) :=
  match l with
  | [] => None
  | c :: r =>
      if Ascii.eqb c "034" then Some ([], r)
      else if Ascii.eqb c "092" then
        match r with
        | [] => None
        | e :: r' =>
            if Ascii.eqb e "u" then
              match r' with
              | h1 :: h2 :: h3 :: h4 :: r'' =>
                  match unicode_escape h1 h2 h3 h4 with
                  | Some c' => (fun '(cs, t) => (c' :: cs, t)) <$> p_string_body r''
                  | None => None
                  end
              | _ => None
              end
            else
              match simple_escape e with
              | Some c' => (fun '(cs, t) => (c' :: cs, t)) <$> p_string_body r'
              | None => None
              end
        end
      else if (nat_of_ascii c <? 32)%nat then None
      else (fun '(cs, t) => (c :: cs, t)) <$> p_string_body r
  end.

(** ** Numbers *)

(** The value of a run of digits, when it is written without leading
    zeros ([0|[1-9][0-9]*]). *)
Definition canonical_digits (ds : list ascii) : option N :=
  match NilEmpty.uint_of_string (string_of_list_ascii ds) with
  | Some u =>
      let n := N.of_uint u in
      if String.eqb (NilEmpty.string_of_uint (N.to_uint n)) (string_of_list_ascii ds)
      then Some n else None
  | None => None
  end.

Definition digits_Z (ds : list ascii) : option Z :=
  (fun u => Z.of_N (N.of_uint u)) <$> NilEmpty.uint_of_string (string_of_list_ascii ds).

(** [m * 10^e] as an exact rational. *)
Definition decimal_Q (m : Z) (e : Z) : Q :=
  if (0 <=? e)%Z then inject_Z (m * 10 ^ e) else Qmake m (Z.to_pos (10 ^ (- e))).

Definition p_fraction (l : list ascii) : option (option (list ascii) * list ascii) :=
  match l with
  | c :: r =>
      if Ascii.eqb c "." then
        let '(fd, r') := take_digits r in
        match fd with [] => None | _ => Some (Some fd, r') end
      else Some (None, l)
  | [] => Some (None, [])
  end.

Definition exp_digits (neg : bool) (r : list ascii) : option (option Z * list ascii) :=
  let '(ed, r') := take_digits r in
  match ed, digits_Z ed with
  | _ :: _, Some z => Some (Some (if neg then (- z)%Z else z), r')
  | _, _ => None
  end.

Definition p_exponent (l : list ascii) : option (option Z * list ascii) :=
  match l with
  | c :: r =>
      if Ascii.eqb c "e" || Ascii.eqb c "E" then
        match r with
        | s :: r' =>
            if Ascii.eqb s "-" then exp_digits true r'
            else if Ascii.eqb s "+" then exp_digits false r'
            else exp_digits false r
        | [] => exp_digits false []
        end
      else Some (None, l)
  | [] => Some (None, [])
  end.

Definition p_number (l : list ascii) : option (pyval * list ascii) :=
  let '(neg, l1) :=
    match l with c :: r => if Ascii.eqb c "-" then (true, r) else (false, l) | [] => (false, []) end in
  let '(ip, l2) := take_digits l1 in
  match ip with
  | [] => None
  | _ =>
      match canonical_digits ip with
      | None => None
      | Some n =>
          let i := if neg then (- Z.of_N n)%Z else Z.of_N n in
          match p_fraction l2 with
          | None => None
          | Some (fr, l3) =>
              match p_exponent l3 with
              | None => None
              | Some (ex, l4) =>
                  match fr, ex with
                  | None, None => Some (PInt i, l4)
                  | _, _ =>
                      let fd := default [] fr in
                      match digits_Z (ip ++ fd)%list with
                      | None => None
                      | Some m =>
                          let m := if neg then (- m)%Z else m in
                          Some (PFloat (decimal_Q m (default 0%Z ex - Z.of_nat (List.length fd))),
                                l4)
                      end
                  end
              end
          end
      end
  end.

(** ** Objects: [dict(pairs)] *)

Fixpoint dict_set (d : pydict) (k : string) (v : pyval) : pydict :=
  match d with
  | [] => [(k, v)]
  | (k', v') :: d' => if String.eqb k k' then (k', v) :: d' else (k', v') :: dict_set d' k v
  end.

Definition dict_of_pairs (ps : pydict) : pydict := fold_left (fun d kv => dict_set d kv.1 kv.2) ps [].

(** ** The decoder *)

Fixpoint strip_word (p l : list ascii) : option (list ascii) :=
  match p, l with
  | [], _ => Some l
  | c :: p', d :: l' => if Ascii.eqb c d then strip_word p' l' else None
  | _ :: _, [] => None
  end.

(** What the first character of a value announces. *)
Inductive lead : Type :=
| LObject (rest : list ascii)
| LArray (rest : list ascii)
| LString (rest : list ascii)
| LLiteral (v : pyval) (rest : list ascii)
| LOther.

Definition literal (word : string) (v : pyval) (l : list ascii) (k : lead) : lead :=
  match strip_word (list_ascii_of_string word) l with Some r => LLiteral v r | None => k end.

Definition classify (l : list ascii) : lead :=
  match l with
  | [] => LOther
  | c :: r =>
      if Ascii.eqb c "{" then LObject r
      else if Ascii.eqb c "[" then LArray r
      else if Ascii.eqb c "034" then LString r
      else literal "true" (PBool true) l
             (literal "false" (PBool false) l (literal "null" PNone l LOther))
  end.

(** The separator after an item: the character and what follows it. *)
Definition next_char (l : list ascii) : option (ascii * list ascii) :=
  match skip_ws l with c :: r => Some (c, r) | [] => None end.

Inductive pres : Type :=
| POk (v : pyval) (rest : list ascii)
| PFail
| PNoFuel.

Fixpoint p_value (n : nat) (l : list ascii) : pres :=
  match n with
  | O => PNoFuel
  | S n' =>
      match classify (skip_ws l) with
      | LObject r => p_members_start n' (skip_ws r)
      | LArray r => p_elems_start n' (skip_ws r)
      | LString r =>
          match p_string_body r with
          | Some (cs, r') => POk (PStr (string_of_list_ascii cs)) r'
          | None => PFail
          end
      | LLiteral v r => POk v r
      | LOther => match p_number (skip_ws l) with Some (v, r) => POk v r | None => PFail end
      end
  end
with p_elems_start (n : nat) (l : list ascii) : pres :=
  match n with
  | O => PNoFuel
  | S n' =>
      match l with
      | c :: r => if Ascii.eqb c "]" then POk (PList []) r else p_elems n' [] l
      | [] => p_elems n' [] l
      end
  end
with p_elems (n : nat) (acc : list pyval) (l : list ascii) : pres :=
  match n with
  | O => PNoFuel
  | S n' =>
      match p_value n' l with
      | POk v r =>
          match next_char r with
          | Some (c, r') =>
              if Ascii.eqb c "," then p_elems n' (acc ++ [v])%list r'
              else if Ascii.eqb c "]" then POk (PList (acc ++ [v])%list) r'
              else PFail
          | None => PFail
          end
      | e => e
      end
  end
with p_members_start (n : nat) (l : list ascii) : pres :=
  match n with
  | O => PNoFuel
  | S n' =>
      match l with
      | c :: r => if Ascii.eqb c "}" then POk (PDict []) r else p_members n' [] l
      | [] => p_members n' [] l
      end
  end
with p_members (n : nat) (acc : pydict) (l : list ascii) : pres :=
  match n with
  | O => PNoFuel
  | S n' =>
      match l with
      | c :: r =>
          if negb (Ascii.eqb c "034") then PFail else
          match p_string_body r with
          | None => PFail
          | Some (ks, r1) =>
              match next_char r1 with
              | Some (colon, r2) =>
                  if negb (Ascii.eqb colon ":") then PFail else
                  match p_value n' r2 with
                  | POk v r3 =>
                      let acc' := (acc ++ [(string_of_list_ascii ks, v)])%list in
                      match next_char r3 with
                      | Some (d, r4) =>
                          if Ascii.eqb d "," then p_members n' acc' (skip_ws r4)
                          else if Ascii.eqb d "}" then POk (PDict (dict_of_pairs acc')) r4
                          else PFail
                      | None => PFail
                      end
                  | e => e
                  end
              | None => PFail
              end
          end
      | [] => PFail
      end
  end.

Definition json_fuel (l : list ascii) : nat := 3 * List.length l + 3.

(** [json.loads(s)]: [None] is [JSONDecodeError]. *)
Definition json_loads (s : string) : option pyval :=
  let l := list_ascii_of_string s in
  match p_value (json_fuel l) l with
  | POk v r => match skip_ws r with [] => Some v | _ => None end
  | _ => None
  end.

(** ** The encoder *)

Definition hex_digit (n : N) : ascii :=
  if (n <? 10)%N then ascii_of_N (48 + n) else ascii_of_N (87 + n).

(** [ensure_ascii=True]: the quote and the backslash, the five short
    escapes, and [\u00xx] (lowercase) for every other character outside
    space to tilde. *)
Definition escape_char (c : ascii) : list ascii :=
  if Ascii.eqb c "034" then ["092"; "034"]
  else if Ascii.eqb c "092" then ["092"; "092"]
  else if Ascii.eqb c "010" then ["092"; "n"]
  else if Ascii.eqb c "013" then ["092"; "r"]
  else if Ascii.eqb c "009" then ["092"; "t"]
  else if Ascii.eqb c "008" then ["092"; "b"]
  else if Ascii.eqb c "012" then ["092"; "f"]
  else
    let n := N_of_ascii c in
    if ((32 <=? n) && (n <=? 126))%N then [c]
    else ["092"; "u"; "0"; "0"; hex_digit (n / 16); hex_digit (n mod 16)].

Definition quote_chars (cs : list ascii) : list ascii :=
  ("034" :: flat_map escape_char cs ++ ["034"])%list.

(** [json.dumps(v)] with the default separators [", "] and [": "].
    [float.__repr__] is not modelled: a float gives [None]. *)
Fixpoint dumps_l (v : pyval) : option (list ascii) :=
  match v with
  | PNone => Some (list_ascii_of_string "null")
  | PBool true => Some (list_ascii_of_string "true")
  | PBool false => Some (list_ascii_of_string "false")
  | PInt z => Some (list_ascii_of_string (py_str_of_int z))
  | PFloat _ => None
  | PStr s => Some (quote_chars (list_ascii_of_string s))
  | PList l =>
      let fix items (l : list pyval) : option (list ascii) :=
        match l with
        | [] => Some []
        | [x] => dumps_l x
        | x :: l' =>
            match dumps_l x, items l' with
            | Some a, Some b => Some (a ++ [","; " "] ++ b)%list
            | _, _ => None
            end
        end in
      (fun b => ("[" :: b ++ ["]"])%list) <$> items l
  | PDict d =>
      let fix members (d : pydict) : option (list ascii) :=
        match d with
        | [] => Some []
        | [(k, x)] => (fun a => quote_chars (list_ascii_of_string k) ++ [":"; " "] ++ a)%list <$> dumps_l x
        | (k, x) :: d' =>
            match dumps_l x, members d' with
            | Some a, Some b =>
                Some (quote_chars (list_ascii_of_string k) ++ [":"; " "] ++ a ++ [","; " "] ++ b)%list
            | _, _ => None
            end
        end in
      (fun b => ("{" :: b ++ ["}"])%list) <$> members d
  end.

Definition json_dumps (v : pyval) : option string := string_of_list_ascii <$> dumps_l v.

(** The values JSON carries exactly: no float, and no repeated key in a
    dict (a Python dict has none). *)
Fixpoint json_ok (v : pyval) : bool :=
  match v with
  | PFloat _ => false
  | PList l => forallb json_ok l
  | PDict d => bool_decide (NoDup (map fst d)) && forallb (fun kv => json_ok kv.2) d
  | _ => true
  end.
