(* ===== verification/JsonFacts.v ===== *)
(** * Facts on the JSON decoder and encoder

    Termination: with the fuel [json_loads] gives ([3 * length + 3]) the
    parser never runs out, and any larger fuel gives the same answer.
    Each function of the parser either consumes a character or hands the
    same input to a function one step lower in the chain
    value, elements, element; members, member.  So [3] units per
    character are enough.  The fuel bound is proved by induction on the
    fuel, with one step lemma per function, and the independence from
    larger fuel by a monotonicity lemma.  Round trip: the decoder reads
    back what the encoder writes, for every value JSON can carry. *)

From S2P Require Import Prelude PyString PyValue Json.
From stdpp Require Import base list strings.
From Stdlib Require Import ZArith Ascii String Lia DecimalString DecimalPos DecimalN.

Open Scope string_scope.

(** ** Lengths *)

Lemma skip_ws_len l : List.length (skip_ws l) <= List.length l.
Proof. induction l as [|c l IH]; simpl; [lia|]. destruct (is_json_ws c); simpl; lia. Qed.

Lemma strip_word_len (p l r : list ascii) : strip_word p l = Some r -> List.length r + List.length p = List.length l.
Proof.
  revert l. induction p as [|c p IH]; intros [|d l]; simpl; intros H; try discriminate.
  - by simplify_eq.
  - by simplify_eq.
  - destruct (Ascii.eqb c d); [apply IH in H; lia | discriminate].
Qed.

(** What [classify] hands on is shorter than its input. *)
Definition lead_shorter (l : list ascii) (k : lead) : Prop :=
  match k with
  | LObject r | LArray r | LString r | LLiteral _ r => List.length r < List.length l
  | LOther => True
  end.

Lemma literal_shorter w v l k :
  w <> "" -> lead_shorter l k -> lead_shorter l (literal w v l k).
Proof.
  intros Hw Hk. unfold literal. destruct (strip_word _ l) eqn:E; [|done].
  apply strip_word_len in E. destruct w; [done|]. simpl in *. lia.
Qed.

Lemma classify_shorter l : lead_shorter l (classify l).
Proof.
  destruct l as [|c r]; [done|]. unfold classify.
  destruct (Ascii.eqb c "{"); [simpl; lia|].
  destruct (Ascii.eqb c "["); [simpl; lia|].
  destruct (Ascii.eqb c "034"); [simpl; lia|].
  by repeat apply literal_shorter.
Qed.

Lemma next_char_len l c r : next_char l = Some (c, r) -> List.length r < List.length l.
Proof.
  unfold next_char. pose proof (skip_ws_len l).
  destruct (skip_ws l); intros; simplify_eq. simpl in *. lia.
Qed.

Lemma p_string_body_len l cs r : p_string_body l = Some (cs, r) -> List.length r < List.length l.
Proof.
  revert cs r. induction l as [l IH] using (induction_ltof1 _ (@List.length ascii)).
  unfold ltof in IH. intros cs r H. destruct l as [|c l]; simpl in H; [discriminate|].
  destruct (Ascii.eqb c "034"); [simplify_eq; simpl; lia|].
  destruct (Ascii.eqb c "092").
  - destruct l as [|e l']; [discriminate|]. destruct (Ascii.eqb e "u").
    + destruct l' as [|h1 [|h2 [|h3 [|h4 l'']]]]; try discriminate.
      destruct (unicode_escape h1 h2 h3 h4); [|discriminate].
      destruct (p_string_body l'') as [[cs' t]|] eqn:E; cbn in H; simplify_eq.
      apply IH in E; simpl in *; lia.
    + destruct (simple_escape e); [|discriminate].
      destruct (p_string_body l') as [[cs' t]|] eqn:E; cbn in H; simplify_eq.
      apply IH in E; simpl in *; lia.
  - destruct (nat_of_ascii c <? 32)%nat; [discriminate|].
    destruct (p_string_body l) as [[cs' t]|] eqn:E; cbn in H; simplify_eq.
    apply IH in E; simpl in *; lia.
Qed.

Lemma take_digits_app l : ((take_digits l).1 ++ (take_digits l).2)%list = l.
Proof.
  induction l as [|c l IH]; simpl; [done|].
  destruct (is_digit c); simpl; [|done].
  destruct (take_digits l) as [ds r]. simpl in *. by rewrite IH.
Qed.

Lemma take_digits_len l ds r : take_digits l = (ds, r) -> List.length ds + List.length r = List.length l.
Proof.
  intros H. pose proof (take_digits_app l) as E. rewrite H in E. simpl in E.
  rewrite <- E, length_app. lia.
Qed.

Lemma p_fraction_len l fr r : p_fraction l = Some (fr, r) -> List.length r <= List.length l.
Proof.
  unfold p_fraction. destruct l as [|c l]; [intros; simplify_eq; simpl; lia|].
  destruct (Ascii.eqb c "."); [|intros; simplify_eq; lia].
  destruct (take_digits l) as [fd r'] eqn:E. apply take_digits_len in E.
  destruct fd; intros; simplify_eq; simpl; lia.
Qed.

Lemma exp_digits_len neg l ex r : exp_digits neg l = Some (ex, r) -> List.length r <= List.length l.
Proof.
  unfold exp_digits. destruct (take_digits l) as [ed r'] eqn:E. apply take_digits_len in E.
  destruct ed as [|d ed]; [by intros|].
  destruct (digits_Z (d :: ed)); intros; simplify_eq; simpl in *; lia.
Qed.

Lemma p_exponent_len l ex r : p_exponent l = Some (ex, r) -> List.length r <= List.length l.
Proof.
  unfold p_exponent. destruct l as [|c l].
  - intros H. simplify_eq. simpl. lia.
  - destruct (Ascii.eqb c "e" || Ascii.eqb c "E"); [|intros; simplify_eq; lia].
    destruct l as [|d l]; [intros H; apply exp_digits_len in H; simpl in *; lia|].
    destruct (Ascii.eqb d "-"); [intros H; apply exp_digits_len in H; simpl in *; lia|].
    destruct (Ascii.eqb d "+"); intros H; apply exp_digits_len in H; simpl in *; lia.
Qed.

Lemma p_number_len l v r : p_number l = Some (v, r) -> List.length r < List.length l.
Proof.
  unfold p_number.
  assert (Hs : exists neg l1, (match l with c :: r => if Ascii.eqb c "-" then (true, r)
                 else (false, l) | [] => (false, []) end) = (neg, l1) /\
                 List.length l1 <= List.length l).
  { destruct l as [|c l]; [by exists false, []|].
    destruct (Ascii.eqb c "-"); eexists _, _; split; [reflexivity| simpl; lia | reflexivity | lia]. }
  destruct Hs as (neg & l1 & -> & Hl1).
  destruct (take_digits l1) as [ip l2] eqn:Et. apply take_digits_len in Et.
  destruct ip as [|d ip]; [discriminate|].
  destruct (canonical_digits _); [|discriminate].
  destruct (p_fraction l2) as [[fr l3]|] eqn:Ef; [|discriminate]. apply p_fraction_len in Ef.
  destruct (p_exponent l3) as [[ex l4]|] eqn:Ee; [|discriminate]. apply p_exponent_len in Ee.
  simpl in Et. destruct fr, ex; try destruct (digits_Z _); intros; simplify_eq; lia.
Qed.

(** ** Enough fuel *)

(** A parser result that did not run out of fuel, and whose rest is
    shorter than the input. *)
Definition progress (l : list ascii) (r : pres) : Prop :=
  match r with
  | POk _ r' => List.length r' < List.length l
  | PFail => True
  | PNoFuel => False
  end.

Lemma progress_weaken l l' r :
  List.length l' <= List.length l -> progress l' r -> progress l r.
Proof. destruct r; simpl; lia || done. Qed.

Section Steps.
Variable n : nat.
Hypothesis IHvalue : forall l, 3 * List.length l < n -> progress l (p_value n l).
Hypothesis IHestart : forall l, 3 * List.length l + 2 < n -> progress l (p_elems_start n l).
Hypothesis IHelems : forall acc l, 3 * List.length l + 1 < n -> progress l (p_elems n acc l).
Hypothesis IHmstart : forall l, 3 * List.length l + 2 < n -> progress l (p_members_start n l).
Hypothesis IHmembers : forall acc l, 3 * List.length l + 1 < n -> progress l (p_members n acc l).

Lemma value_step l : 3 * List.length l < S n -> progress l (p_value (S n) l).
Proof.
  intros Hn. cbn [p_value]. pose proof (skip_ws_len l) as Hs.
  pose proof (classify_shorter (skip_ws l)) as Hc.
  destruct (classify (skip_ws l)) as [r|r|r|v r|]; simpl in Hc.
  - pose proof (skip_ws_len r). apply (progress_weaken _ (skip_ws r)); [lia|]. apply IHmstart. lia.
  - pose proof (skip_ws_len r). apply (progress_weaken _ (skip_ws r)); [lia|]. apply IHestart. lia.
  - destruct (p_string_body r) as [[cs r']|] eqn:E; simpl; [|done].
    apply p_string_body_len in E. lia.
  - simpl. lia.
  - destruct (p_number (skip_ws l)) as [[v r]|] eqn:E; simpl; [|done].
    apply p_number_len in E. lia.
Qed.

Lemma elems_start_step l : 3 * List.length l + 2 < S n -> progress l (p_elems_start (S n) l).
Proof.
  intros Hn. cbn [p_elems_start].
  destruct l as [|c r]; [apply IHelems; simpl; lia|].
  destruct (Ascii.eqb c "]"); [simpl; lia | apply IHelems; lia].
Qed.

Lemma members_start_step l : 3 * List.length l + 2 < S n -> progress l (p_members_start (S n) l).
Proof.
  intros Hn. cbn [p_members_start].
  destruct l as [|c r]; [apply IHmembers; simpl; lia|].
  destruct (Ascii.eqb c "}"); [simpl; lia | apply IHmembers; lia].
Qed.

Lemma elems_step acc l : 3 * List.length l + 1 < S n -> progress l (p_elems (S n) acc l).
Proof.
  intros Hn. cbn [p_elems]. pose proof (IHvalue l ltac:(lia)) as Hv.
  destruct (p_value n l) as [v r| |]; simpl in Hv; [|done|done].
  destruct (next_char r) as [[c r']|] eqn:E; [|done]. apply next_char_len in E.
  destruct (Ascii.eqb c ",").
  - apply (progress_weaken _ r'); [lia|]. apply IHelems. lia.
  - destruct (Ascii.eqb c "]"); simpl; lia || done.
Qed.

Lemma members_step acc l : 3 * List.length l + 1 < S n -> progress l (p_members (S n) acc l).
Proof.
  intros Hn. cbn [p_members]. destruct l as [|c r]; [done|].
  destruct (negb (Ascii.eqb c "034")); [done|].
  destruct (p_string_body r) as [[ks r1]|] eqn:E1; [|done]. apply p_string_body_len in E1.
  destruct (next_char r1) as [[colon r2]|] eqn:E2; [|done]. apply next_char_len in E2.
  destruct (negb (Ascii.eqb colon ":")); [done|].
  pose proof (IHvalue r2 ltac:(simpl in *; lia)) as Hv.
  destruct (p_value n r2) as [v r3| |]; simpl in Hv; [|done|done].
  destruct (next_char r3) as [[d r4]|] eqn:E3; [|done]. apply next_char_len in E3.
  destruct (Ascii.eqb d ",").
  - pose proof (skip_ws_len r4). apply (progress_weaken _ (skip_ws r4)); [simpl in *; lia|].
    apply IHmembers. simpl in *; lia.
  - destruct (Ascii.eqb d "}"); simpl in *; lia || done.
Qed.
End Steps.

Lemma fuel_enough n :
  (forall l, 3 * List.length l < n -> progress l (p_value n l)) /\
  (forall l, 3 * List.length l + 2 < n -> progress l (p_elems_start n l)) /\
  (forall acc l, 3 * List.length l + 1 < n -> progress l (p_elems n acc l)) /\
  (forall l, 3 * List.length l + 2 < n -> progress l (p_members_start n l)) /\
  (forall acc l, 3 * List.length l + 1 < n -> progress l (p_members n acc l)).
Proof.
  induction n as [|n (IH1 & IH2 & IH3 & IH4 & IH5)]; [split_and!; intros; lia|].
  split_and!; intros.
  - by apply value_step.
  - by apply elems_start_step.
  - by apply elems_step.
  - by apply members_start_step.
  - by apply members_step.
Qed.

(** ** More fuel, same answer *)

Lemma fuel_mono n :
  (forall l, p_value n l <> PNoFuel -> p_value (S n) l = p_value n l) /\
  (forall l, p_elems_start n l <> PNoFuel -> p_elems_start (S n) l = p_elems_start n l) /\
  (forall acc l, p_elems n acc l <> PNoFuel -> p_elems (S n) acc l = p_elems n acc l) /\
  (forall l, p_members_start n l <> PNoFuel -> p_members_start (S n) l = p_members_start n l) /\
  (forall acc l, p_members n acc l <> PNoFuel -> p_members (S n) acc l = p_members n acc l).
Proof.
  induction n as [|n (IH1 & IH2 & IH3 & IH4 & IH5)]; [split_and!; intros; by exfalso|].
  split_and!.
  - intros l H. cbn [p_value] in *.
    destruct (classify (skip_ws l)); try reflexivity; auto.
  - intros l H. cbn [p_elems_start] in *.
    destruct l as [|c r]; [auto|]. destruct (Ascii.eqb c "]"); auto.
  - intros acc l H. cbn [p_elems] in *.
    destruct (p_value n l) as [v r| |] eqn:E; [| |done];
      rewrite IH1 by (rewrite E; discriminate); rewrite E; [|done].
    destruct (next_char r) as [[c r']|]; [|done].
    destruct (Ascii.eqb c ","); auto.
  - intros l H. cbn [p_members_start] in *.
    destruct l as [|c r]; [auto|]. destruct (Ascii.eqb c "}"); auto.
  - intros acc l H. cbn [p_members] in *.
    destruct l as [|c r]; [done|]. destruct (negb _); [done|].
    destruct (p_string_body r) as [[ks r1]|]; [|done].
    destruct (next_char r1) as [[colon r2]|]; [|done]. destruct (negb _); [done|].
    destruct (p_value n r2) as [v r3| |] eqn:E; [| |done];
      rewrite IH1 by (rewrite E; discriminate); rewrite E; [|done].
    destruct (next_char r3) as [[d r4]|]; [|done].
    destruct (Ascii.eqb d ","); auto.
Qed.

Lemma p_value_mono n m l :
  n <= m -> p_value n l <> PNoFuel -> p_value m l = p_value n l.
Proof.
  induction 1 as [|m Hm IH]; [done|]. intros H.
  rewrite (proj1 (fuel_mono m)); [by apply IH | by rewrite IH].
Qed.

(** The fuel [json_loads] gives is enough on every text, and more fuel
    changes nothing. *)
Lemma json_fuel_total l : p_value (json_fuel l) l <> PNoFuel.
Proof.
  pose proof (proj1 (fuel_enough (json_fuel l)) l ltac:(unfold json_fuel; lia)) as P.
  by destruct (p_value _ l).
Qed.

Lemma json_fuel_stable l m : json_fuel l <= m -> p_value m l = p_value (json_fuel l) l.
Proof. intros Hm. apply p_value_mono; [done | apply json_fuel_total]. Qed.

(** ** Round trip *)

(** A fuel family that keeps its answer one step up keeps it for any
    larger fuel. *)
Lemma fuel_mono_le (f : nat -> pres) :
  (forall n, f n <> PNoFuel -> f (S n) = f n) ->
  forall n m, n <= m -> f n <> PNoFuel -> f m = f n.
Proof.
  intros Hs n m Hle. induction Hle as [|m Hm IH]; [done|]. intros H.
  rewrite Hs; [by apply IH | by rewrite IH].
Qed.

Lemma hex_val_digit k : (k < 16)%N -> hex_val (hex_digit k) = Some k.
Proof.
  intros Hk.
  assert (k = 0 \/ k = 1 \/ k = 2 \/ k = 3 \/ k = 4 \/ k = 5 \/ k = 6 \/ k = 7 \/ k = 8 \/
          k = 9 \/ k = 10 \/ k = 11 \/ k = 12 \/ k = 13 \/ k = 14 \/ k = 15)%N as Hc by lia.
  repeat destruct Hc as [->|Hc]; try reflexivity. subst. reflexivity.
Qed.

Lemma unicode_escape_char c :
  unicode_escape "0" "0" (hex_digit (N_of_ascii c / 16)) (hex_digit (N_of_ascii c mod 16)) = Some c.
Proof.
  pose proof (N_ascii_bounded c) as Hb.
  unfold unicode_escape.
  rewrite !hex_val_digit by (apply N.mod_lt || apply N.Div0.div_lt_upper_bound; lia).
  change (hex_val "0") with (Some 0%N). cbv beta iota.
  assert (E : (((0 * 16 + 0) * 16 + N_of_ascii c / 16) * 16 + N_of_ascii c mod 16)%N =
              N_of_ascii c).
  { pose proof (N.div_mod (N_of_ascii c) 16 ltac:(lia)). lia. }
  rewrite E, (proj2 (N.ltb_lt _ _) Hb). by rewrite ascii_N_embedding.
Qed.

(** Each escaped character reads back as itself. *)
Lemma p_string_body_escape_char c t :
  p_string_body (escape_char c ++ t)%list =
    (fun '(cs, r) => (c :: cs, r)) <$> p_string_body t.
Proof.
  unfold escape_char.
  destruct (Ascii.eqb_spec c "034") as [->|H1]; [done|].
  destruct (Ascii.eqb_spec c "092") as [->|H2]; [done|].
  destruct (Ascii.eqb_spec c "010") as [->|H3]; [done|].
  destruct (Ascii.eqb_spec c "013") as [->|H4]; [done|].
  destruct (Ascii.eqb_spec c "009") as [->|H5]; [done|].
  destruct (Ascii.eqb_spec c "008") as [->|H6]; [done|].
  destruct (Ascii.eqb_spec c "012") as [->|H7]; [done|].
  destruct ((32 <=? N_of_ascii c) && (N_of_ascii c <=? 126))%N eqn:Hr.
  - cbn [app p_string_body].
    rewrite (proj2 (Ascii.eqb_neq _ _) H1), (proj2 (Ascii.eqb_neq _ _) H2).
    apply andb_true_iff in Hr as [Hlo _]. apply N.leb_le in Hlo.
    assert (Hn : (nat_of_ascii c <? 32)%nat = false).
    { apply Nat.ltb_ge. rewrite <- (N2Nat.id (N_of_ascii c)) in Hlo.
      unfold nat_of_ascii. lia. }
    by rewrite Hn.
  - cbn [app p_string_body Ascii.eqb]. simpl. by rewrite unicode_escape_char.
Qed.

Lemma p_string_body_quote cs rest :
  p_string_body (flat_map escape_char cs ++ "034"%char :: rest)%list = Some (cs, rest).
Proof.
  induction cs as [|c cs IH]; [reflexivity|].
  simpl. rewrite <- app_assoc, p_string_body_escape_char, IH. reflexivity.
Qed.

(** What may follow a number without extending it. *)
Definition num_end (rest : list ascii) : bool :=
  match rest with
  | [] => true
  | c :: _ => negb (is_digit c) && negb (Ascii.eqb c ".") && negb (Ascii.eqb c "e") &&
              negb (Ascii.eqb c "E")
  end.

Lemma take_digits_digits ds rest :
  Forall (fun c => is_digit c = true) ds -> num_end rest = true ->
  take_digits (ds ++ rest)%list = (ds, rest).
Proof.
  intros Hd He. induction Hd as [|c ds Hc _ IH]; simpl.
  - destruct rest as [|c r]; [done|]. simpl in He.
    simpl. destruct (is_digit c); simpl in He; [discriminate | done].
  - by rewrite Hc, IH.
Qed.

Lemma string_of_uint_digits u :
  Forall (fun c => is_digit c = true) (list_ascii_of_string (NilEmpty.string_of_uint u)).
Proof. induction u; simpl; constructor; auto. Qed.

Lemma num_end_cons c r :
  num_end (c :: r) = true ->
  is_digit c = false /\ Ascii.eqb c "." = false /\ Ascii.eqb c "e" = false /\ Ascii.eqb c "E" = false.
Proof.
  simpl. destruct (is_digit c), (Ascii.eqb c "."), (Ascii.eqb c "e"), (Ascii.eqb c "E"); done.
Qed.

Lemma p_fraction_end rest : num_end rest = true -> p_fraction rest = Some (None, rest).
Proof.
  destruct rest as [|c r]; [done|]. intros (_ & Hd & _ & _)%num_end_cons. simpl. by rewrite Hd.
Qed.

Lemma p_exponent_end rest : num_end rest = true -> p_exponent rest = Some (None, rest).
Proof.
  destruct rest as [|c r]; [done|]. intros (_ & _ & He & HE)%num_end_cons. simpl. by rewrite He, HE.
Qed.

Lemma canonical_pos p :
  canonical_digits (list_ascii_of_string (NilEmpty.string_of_uint (Pos.to_uint p))) = Some (Npos p).
Proof.
  unfold canonical_digits. rewrite string_of_list_ascii_of_string, NilEmpty.usu.
  assert (Hn : N.of_uint (Pos.to_uint p) = Npos p).
  { unfold N.of_uint. by rewrite DecimalPos.Unsigned.of_to. }
  rewrite Hn. simpl. by rewrite String.eqb_refl.
Qed.

Lemma digit_neq x c : is_digit x = false -> is_digit c = true -> Ascii.eqb x c = false.
Proof. intros Hx Hc. destruct (Ascii.eqb_spec x c); congruence. Qed.

(** A sign and a canonical run of digits, followed by a delimiter. *)
Lemma p_number_digits (neg : bool) ds n rest :
  Forall (fun c => is_digit c = true) ds -> ds <> [] -> canonical_digits ds = Some n ->
  num_end rest = true ->
  p_number ((if neg then ["-"%char] else []) ++ ds ++ rest)%list =
    Some (PInt (if neg then (- Z.of_N n)%Z else Z.of_N n), rest).
Proof.
  intros Hd Hne Hc He. destruct ds as [|c ds']; [done|].
  assert (Hcd : is_digit c = true) by (by inversion Hd).
  assert (Ht : take_digits (c :: ds' ++ rest)%list = (c :: ds', rest))
    by (apply (take_digits_digits (c :: ds')); done).
  unfold p_number. destruct neg; cbn [app].
  - cbn [Ascii.eqb Bool.eqb andb]. rewrite Ht. cbv iota. rewrite Hc.
    by rewrite p_fraction_end, p_exponent_end.
  - rewrite Ascii.eqb_sym, (digit_neq "-" c) by done. rewrite Ht. cbv iota. rewrite Hc.
    by rewrite p_fraction_end, p_exponent_end.
Qed.

(** [str(z)] followed by a delimiter reads back as [z]. *)
Lemma p_number_int z rest :
  num_end rest = true -> p_number (list_ascii_of_string (py_str_of_int z) ++ rest)%list = Some (PInt z, rest).
Proof.
  intros He. destruct z as [|p|p].
  - apply (p_number_digits false ["0"%char] 0%N); [repeat constructor | done | done | done].
  - apply (p_number_digits false _ (Npos p)); [apply string_of_uint_digits | | apply canonical_pos | done].
    intros H. apply (string_of_pos_nonempty p).
    apply (f_equal string_of_list_ascii) in H. by rewrite string_of_list_ascii_of_string in H.
  - apply (p_number_digits true _ (Npos p)); [apply string_of_uint_digits | | apply canonical_pos | done].
    intros H. apply (string_of_pos_nonempty p).
    apply (f_equal string_of_list_ascii) in H. by rewrite string_of_list_ascii_of_string in H.
Qed.

(** Induction on values through their lists and dicts. *)
Lemma pyval_nested_ind (P : pyval -> Prop) :
  P PNone -> (forall b, P (PBool b)) -> (forall z, P (PInt z)) -> (forall q, P (PFloat q)) ->
  (forall s, P (PStr s)) -> (forall l, Forall P l -> P (PList l)) ->
  (forall d, Forall (fun kv => P kv.2) d -> P (PDict d)) -> forall v, P v.
Proof.
  intros HN HB HI HF HS HL HD. fix F 1. intros [|b|z|q|s|l|d].
  - exact HN.
  - apply HB.
  - apply HI.
  - apply HF.
  - apply HS.
  - apply HL. revert l. fix G 1. intros [|x l]; constructor; [apply F | apply G].
  - apply HD. revert d. fix G 1. intros [|[k x] d]; constructor; [apply F | apply G].
Qed.

Lemma digit_not_ws c : is_digit c = true -> is_json_ws c = false.
Proof. destruct c as [[] [] [] [] [] [] [] []]; done. Qed.

(** The first character of an encoded value: not whitespace, not a
    closing bracket. *)
Definition value_head (c : ascii) : bool :=
  negb (is_json_ws c) && negb (Ascii.eqb c "]") && negb (Ascii.eqb c "}").

Lemma int_head z :
  exists c t, list_ascii_of_string (py_str_of_int z) = c :: t /\
              (c = "-"%char \/ is_digit c = true).
Proof.
  destruct z as [|p|p]; [by eexists _, _; split; [reflexivity | right] | |].
  - destruct (NilEmpty.string_of_uint (Pos.to_uint p)) as [|c t] eqn:E;
      [by apply string_of_pos_nonempty in E|].
    exists c, (list_ascii_of_string t). simpl. rewrite E. split; [done|].
    right. exact (string_of_uint_first (Pos.to_uint p) c t E).
  - by eexists _, _; split; [reflexivity | left].
Qed.

Lemma int_value_head z :
  exists c t, list_ascii_of_string (py_str_of_int z) = c :: t /\ value_head c = true /\
    forall rest, classify (c :: rest) = LOther.
Proof.
  destruct (int_head z) as (c & t & E & Hc). exists c, t. split; [done|].
  destruct Hc as [->|Hc]; [split; [done | intros; reflexivity]|]. unfold value_head, classify, literal.
  rewrite digit_not_ws, !(Ascii.eqb_sym c), !digit_neq by done. split; [done|]. intros rest. cbn [strip_word list_ascii_of_string].
  by rewrite !digit_neq by done.
Qed.

Lemma dumps_head v out :
  dumps_l v = Some out -> exists c t, out = c :: t /\ value_head c = true.
Proof.
  destruct v as [|[]|z|q|s|l|d]; simpl; intros H; simplify_eq; try by eexists _, _.
  - destruct (int_value_head z) as (c & t & -> & Hc & _). eauto.
  - apply fmap_Some_inv in H as (b & _ & ->). by eexists _, _.
  - apply fmap_Some_inv in H as (b & _ & ->). by eexists _, _.
Qed.

Lemma skip_ws_head c t : value_head c = true -> skip_ws (c :: t) = c :: t.
Proof. unfold value_head. simpl. destruct (is_json_ws c); done. Qed.

(** Spaces before a value are skipped. *)
Lemma p_value_space n t : p_value n (" "%char :: t) = p_value n t.
Proof. by destruct n. Qed.

Lemma p_elems_space n acc t : p_elems n acc (" "%char :: t) = p_elems n acc t.
Proof. destruct n as [|n]; [done|]. cbn [p_elems]. by rewrite p_value_space. Qed.

(** The encoding of a non-empty list, one item at a time. *)
Lemma dumps_list_cons x l out :
  dumps_l (PList (x :: l)) = Some out ->
  exists a, dumps_l x = Some a /\
    ((l = [] /\ out = ("["%char :: a ++ ["]"%char])%list) \/
     l <> [] /\ exists b, dumps_l (PList l) = Some ("["%char :: b ++ ["]"%char])%list /\
               out = ("["%char :: a ++ [","%char; " "%char] ++ b ++ ["]"%char])%list).
Proof.
  intros H. cbn [dumps_l] in H |- *. destruct l as [|y l].
  - apply fmap_Some_inv in H as (a & Ha & ->). exists a. split; [done|]. by left.
  - destruct (dumps_l x) as [a|]; [|discriminate]. exists a. split; [done|]. right. split; [done|].
    lazymatch type of H with
    | context [match ?I with Some _ => _ | None => _ end] => destruct I as [b|] eqn:EI
    end; [|discriminate].
    simpl in H. simplify_eq. exists b. split; [|by rewrite <- app_assoc].
    simpl. by rewrite ?EI.
Qed.

(** The encoding of a non-empty dict, one member at a time. *)
Lemma dumps_dict_cons k x d out :
  dumps_l (PDict ((k, x) :: d)) = Some out ->
  exists a, dumps_l x = Some a /\
    ((d = [] /\ out = ("{"%char :: quote_chars (list_ascii_of_string k) ++ [":"%char; " "%char] ++ a ++ ["}"%char])%list) \/
     d <> [] /\ exists b, dumps_l (PDict d) = Some ("{"%char :: b ++ ["}"%char])%list /\
               out = ("{"%char :: quote_chars (list_ascii_of_string k) ++ [":"%char; " "%char] ++ a ++
                      [","%char; " "%char] ++ b ++ ["}"%char])%list).
Proof.
  intros H. cbn [dumps_l] in H |- *. destruct d as [|[k' y] d].
  - apply fmap_Some_inv in H as (b & Hb & ->). apply fmap_Some_inv in Hb as (a & Ha & ->).
    exists a. split; [done|]. left. split; [done|]. by rewrite <- !app_assoc.
  - destruct (dumps_l x) as [a|]; [|discriminate]. exists a. split; [done|]. right. split; [done|].
    lazymatch type of H with
    | context [match ?I with Some _ => _ | None => _ end] => destruct I as [b|] eqn:EI
    end; [|discriminate].
    simpl in H. simplify_eq. exists b. split; [|unfold quote_chars; simpl; rewrite <- !app_assoc; simpl; by rewrite <- !app_assoc].
    simpl. by rewrite ?EI.
Qed.

(** The result a family of parser runs settles on from some fuel on. *)
Definition eventually (f : nat -> pres) (r : pres) : Prop :=
  exists N, forall n, N <= n -> f n = r.

Lemma dict_set_fresh d k v : k ∉ map fst d -> dict_set d k v = (d ++ [(k, v)])%list.
Proof.
  induction d as [|[k' v'] d IH]; simpl; [done|]. intros Hk.
  apply not_elem_of_cons in Hk as [Hne Hk].
  destruct (String.eqb_spec k k'); [congruence|]. by rewrite IH.
Qed.

Lemma fold_dict_set d0 ps :
  NoDup (map fst (d0 ++ ps)) -> fold_left (fun d kv => dict_set d kv.1 kv.2) ps d0 = (d0 ++ ps)%list.
Proof.
  revert d0. induction ps as [|[k v] ps IH]; intros d0 Hnd; simpl; [by rewrite app_nil_r|].
  rewrite dict_set_fresh.
  - rewrite IH; rewrite <- app_assoc; done.
  - rewrite map_app in Hnd. apply NoDup_app in Hnd as (_ & Hd & _).
    intros Hk. apply (Hd k Hk). simpl. left.
Qed.

(** Without repeated keys, [dict(pairs)] keeps the pairs as they are. *)
Lemma dict_of_pairs_nodup d : NoDup (map fst d) -> dict_of_pairs d = d.
Proof. intros Hnd. unfold dict_of_pairs. by rewrite fold_dict_set. Qed.

Lemma app_cons_tail {A} (b a xs : list A) (z : A) :
  (b ++ [z])%list = (a ++ xs ++ [z])%list -> b = (a ++ xs)%list.
Proof. intros E. rewrite app_assoc in E. by apply app_inj_tail in E as [-> _]. Qed.

(** The encoding of the items of a non-empty list, and of the members of
    a non-empty dict. *)
Lemma dumps_list_items x l b :
  dumps_l (PList (x :: l)) = Some ("["%char :: b ++ ["]"%char])%list ->
  exists a, dumps_l x = Some a /\
    ((l = [] /\ b = a) \/
     l <> [] /\ exists b', dumps_l (PList l) = Some ("["%char :: b' ++ ["]"%char])%list /\
               b = (a ++ [","%char; " "%char] ++ b')%list).
Proof.
  intros (a & Ha & [[-> E] | (Hl & b' & Hb' & E)])%dumps_list_cons; exists a; split; [done| |done|];
    injection E as E.
  - left. split; [done|]. by apply app_inj_tail in E as [-> _].
  - right. split; [done|]. exists b'. split; [done|].
    by apply (app_cons_tail _ _ ([","%char; " "%char] ++ b')) in E.
Qed.

Lemma dumps_dict_members k x d b :
  dumps_l (PDict ((k, x) :: d)) = Some ("{"%char :: b ++ ["}"%char])%list ->
  exists a, dumps_l x = Some a /\
    ((d = [] /\ b = (quote_chars (list_ascii_of_string k) ++ [":"%char; " "%char] ++ a)%list) \/
     d <> [] /\ exists b', dumps_l (PDict d) = Some ("{"%char :: b' ++ ["}"%char])%list /\
               b = (quote_chars (list_ascii_of_string k) ++ [":"%char; " "%char] ++ a ++
                    [","%char; " "%char] ++ b')%list).
Proof.
  intros (a & Ha & [[-> E] | (Hd & b' & Hb' & E)])%dumps_dict_cons; exists a; split; [done| |done|];
    injection E as E.
  - left. split; [done|]. by apply (app_cons_tail _ (quote_chars (list_ascii_of_string k)) ([":"%char; " "%char] ++ a)) in E.
  - right. split; [done|]. exists b'. split; [done|].
    assert (E' : (b ++ ["}"%char])%list =
                 ((quote_chars (list_ascii_of_string k) ++ [":"%char; " "%char] ++ a ++
                   [","%char; " "%char] ++ b') ++ ["}"%char])%list)
      by (rewrite E; unfold quote_chars; simpl; rewrite <- !app_assoc; simpl; by rewrite <- !app_assoc).
    by apply app_inj_tail in E' as [-> _].
Qed.

Lemma items_head l b :
  dumps_l (PList l) = Some ("["%char :: b ++ ["]"%char])%list -> l <> [] ->
  exists c t, b = c :: t /\ value_head c = true.
Proof.
  destruct l as [|x l]; [done|]. intros (a & Ha & [[_ ->] | (_ & b' & _ & ->)])%dumps_list_items _;
    destruct (dumps_head x a Ha) as (c & t & -> & Hc); by eexists _, _.
Qed.

Lemma members_head d b :
  dumps_l (PDict d) = Some ("{"%char :: b ++ ["}"%char])%list -> d <> [] ->
  exists t, b = "034"%char :: t.
Proof.
  destruct d as [|[k x] d]; [done|]. intros (a & _ & [[_ ->] | (_ & b' & _ & ->)])%dumps_dict_members _;
    by eexists.
Qed.

Lemma value_head_not_close c : value_head c = true -> Ascii.eqb c "]" = false /\ Ascii.eqb c "}" = false.
Proof. unfold value_head. destruct (is_json_ws c), (Ascii.eqb c "]"), (Ascii.eqb c "}"); done. Qed.

Lemma quote_text cs t :
  (quote_chars cs ++ t)%list = "034"%char :: (flat_map escape_char cs ++ "034"%char :: t)%list.
Proof. unfold quote_chars. simpl. by rewrite <- app_assoc. Qed.

Lemma member_text k a t :
  ((quote_chars (list_ascii_of_string k) ++ [":"%char; " "%char] ++ a) ++ t)%list =
    "034"%char :: (flat_map escape_char (list_ascii_of_string k) ++
                   "034"%char :: ":"%char :: " "%char :: a ++ t)%list.
Proof. by rewrite <- app_assoc, quote_text. Qed.

(** The property proved of every value: its encoding, followed by text
    that cannot extend a number, reads back as the value and leaves that
    text. *)
Definition reads_back (v : pyval) : Prop :=
  json_ok v = true -> forall out rest, dumps_l v = Some out -> num_end rest = true ->
  eventually (fun n => p_value n (out ++ rest)%list) (POk v rest).

Lemma elems_read l :
  Forall reads_back l -> forallb json_ok l = true -> l <> [] ->
  forall acc b rest, dumps_l (PList l) = Some ("["%char :: b ++ ["]"%char])%list ->
  num_end rest = true ->
  eventually (fun n => p_elems n acc (b ++ "]"%char :: rest)%list) (POk (PList (acc ++ l)) rest).
Proof.
  induction 1 as [|x l Hx Hl IH]; [done|]. cbn [forallb].
  intros [Hox Hol]%andb_prop _ acc b rest Hd He.
  apply dumps_list_items in Hd as (a & Ha & [[-> ->] | (Hne & b' & Hb' & ->)]).
  - destruct (Hx Hox a ("]"%char :: rest) Ha eq_refl) as [N HN].
    exists (S N). intros [|n] Hn; [lia|]. cbn [p_elems]. rewrite HN by lia. reflexivity.
  - destruct (Hx Hox a (","%char :: " "%char :: b' ++ "]"%char :: rest)%list Ha eq_refl) as [N1 H1].
    destruct (IH Hol Hne (acc ++ [x])%list b' rest Hb' He) as [N2 H2].
    exists (S (N1 `max` N2)). intros [|n] Hn; [lia|]. cbn [p_elems].
    rewrite <- !app_assoc. cbn [app]. rewrite H1 by lia. simpl.
    rewrite p_elems_space, H2 by lia. by rewrite <- app_assoc.
Qed.

Lemma members_read d :
  Forall (fun kv => reads_back kv.2) d -> forallb (fun kv => json_ok kv.2) d = true -> d <> [] ->
  forall acc b rest, dumps_l (PDict d) = Some ("{"%char :: b ++ ["}"%char])%list ->
  num_end rest = true ->
  eventually (fun n => p_members n acc (b ++ "}"%char :: rest)%list)
    (POk (PDict (dict_of_pairs (acc ++ d))) rest).
Proof.
  induction 1 as [|[k x] d Hx Hd IH]; [done|]. cbn [forallb].
  intros [Hox Hod]%andb_prop _ acc b rest Hb He.
  apply dumps_dict_members in Hb as (a & Ha & [[-> ->] | (Hne & b' & Hb' & ->)]).
  - destruct (Hx Hox a ("}"%char :: rest) Ha eq_refl) as [N HN].
    exists (S N). intros [|n] Hn; [lia|]. rewrite member_text. cbn [p_members].
    rewrite p_string_body_quote. simpl. rewrite p_value_space, HN by lia. simpl.
    by rewrite string_of_list_ascii_of_string.
  - destruct (members_head _ _ Hb' Hne) as [t Et].
    destruct (Hx Hox a (","%char :: " "%char :: b' ++ "}"%char :: rest)%list Ha eq_refl) as [N1 H1].
    destruct (IH Hod Hne (acc ++ [(k, x)])%list b' rest Hb' He) as [N2 H2].
    exists (S (N1 `max` N2)). intros [|n] Hn; [lia|].
    rewrite member_text. cbn [p_members].
    rewrite p_string_body_quote. simpl. rewrite p_value_space.
    rewrite <- !app_assoc. cbn [app]. rewrite H1 by lia. simpl.
    assert (Hs : skip_ws (b' ++ "}"%char :: rest)%list = (b' ++ "}"%char :: rest)%list)
      by (by rewrite Et).
    rewrite string_of_list_ascii_of_string, Hs, H2 by lia. by rewrite <- app_assoc.
Qed.

Lemma dumps_reads_back v : reads_back v.
Proof.
  induction v as [|b|z|q|s|l Hl|d Hd] using pyval_nested_ind;
    unfold reads_back; intros Hok out rest Hout He.
  - injection Hout as <-. exists 1. intros [|n] Hn; [lia | reflexivity].
  - destruct b; injection Hout as <-; exists 1; intros [|n] Hn; [lia | reflexivity | lia | reflexivity].
  - injection Hout as <-. destruct (int_value_head z) as (c & t & E & Hc & Hcl).
    exists 1. intros [|n] Hn; [lia|]. cbn [p_value]. rewrite E. cbn [app].
    rewrite skip_ws_head, Hcl by done. rewrite app_comm_cons, <- E, p_number_int by done.
    reflexivity.
  - discriminate.
  - injection Hout as <-. exists 1. intros [|n] Hn; [lia|]. rewrite quote_text. cbn [p_value].
    simpl. rewrite p_string_body_quote. by rewrite string_of_list_ascii_of_string.
  - destruct l as [|x l]; [injection Hout as <-; exists 2; intros [|[|n]] Hn; [lia | lia | reflexivity]|].
    pose proof Hout as H'. cbn [dumps_l] in H'. apply fmap_Some_inv in H' as (b & _ & ->).
    destruct (items_head _ _ Hout ltac:(done)) as (c & t & Eb & Hc).
    destruct (elems_read _ Hl Hok ltac:(done) [] b rest Hout He) as [N HN].
    exists (S (S N)). intros [|[|n]] Hn; [lia | lia|]. rewrite <- app_comm_cons, <- app_assoc.
    cbn [p_value app]. simpl. rewrite Eb. cbn [app]. rewrite skip_ws_head by done.
    cbn [p_elems_start]. rewrite (proj1 (value_head_not_close c Hc)).
    rewrite app_comm_cons, <- Eb, HN by lia. reflexivity.
  - destruct d as [|[k x] d]; [injection Hout as <-; exists 2; intros [|[|n]] Hn; [lia | lia | reflexivity]|].
    apply andb_prop in Hok as [Hnd Hok]. apply bool_decide_eq_true in Hnd.
    pose proof Hout as H'. cbn [dumps_l] in H'. apply fmap_Some_inv in H' as (b & _ & ->).
    destruct (members_head _ _ Hout ltac:(done)) as [t Eb].
    destruct (members_read _ Hd Hok ltac:(done) [] b rest Hout He) as [N HN].
    exists (S (S N)). intros [|[|n]] Hn; [lia | lia|]. rewrite <- app_comm_cons, <- app_assoc.
    cbn [p_value app]. simpl. rewrite Eb. cbn [app skip_ws is_json_ws p_members_start Ascii.eqb].
    rewrite app_comm_cons, <- Eb, HN by lia. simpl. by rewrite dict_of_pairs_nodup.
Qed.

Lemma dumps_list_some l :
  Forall (fun v => is_Some (dumps_l v)) l -> is_Some (dumps_l (PList l)).
Proof.
  induction 1 as [|x l [a Ha] _ IH]; [by eexists|]. destruct l as [|y l].
  - cbn [dumps_l]. by rewrite Ha.
  - cbn [dumps_l] in IH |- *. rewrite Ha.
    lazymatch goal with
    | |- context [match ?I with Some _ => _ | None => _ end] => destruct I eqn:EI
    end; [by eexists | by destruct IH].
Qed.

Lemma dumps_dict_some d :
  Forall (fun kv => is_Some (dumps_l kv.2)) d -> is_Some (dumps_l (PDict d)).
Proof.
  induction 1 as [|[k x] d [a Ha] _ IH]; [by eexists|]. simpl in Ha. destruct d as [|[k' y] d].
  - cbn [dumps_l]. by rewrite Ha.
  - cbn [dumps_l] in IH |- *. rewrite Ha.
    lazymatch goal with
    | |- context [match ?I with Some _ => _ | None => _ end] => destruct I eqn:EI
    end; [by eexists | by destruct IH].
Qed.

(** [json.dumps] succeeds on every value JSON carries. *)
Lemma dumps_total v : json_ok v = true -> is_Some (dumps_l v).
Proof.
  induction v as [|b| | |s|l Hl|d Hd] using pyval_nested_ind; intros Hok;
    try destruct b; try discriminate; try by eexists.
  - apply dumps_list_some. apply Forall_forall. intros x Hx.
    apply (proj1 (Forall_forall _ _) Hl x Hx).
    apply (proj1 (forallb_forall _ _) Hok). by apply list_elem_of_In.
  - apply andb_prop in Hok as [_ Hok]. apply dumps_dict_some. apply Forall_forall. intros kv Hkv.
    apply (proj1 (Forall_forall _ _) Hd kv Hkv).
    apply (proj1 (forallb_forall _ _) Hok kv). by apply list_elem_of_In.
Qed.

(** Round trip: every value JSON carries (no float, no repeated dict
    key) is encoded by [json.dumps], and [json.loads] of the text gives the
    value back. *)
Lemma json_dumps_loads v :
  json_ok v = true -> exists s, json_dumps v = Some s /\ json_loads s = Some v.
Proof.
  intros Hok. destruct (dumps_total v Hok) as [out Hout].
  exists (string_of_list_ascii out). unfold json_dumps. rewrite Hout. split; [done|].
  unfold json_loads. rewrite list_ascii_of_string_of_list_ascii.
  destruct (dumps_reads_back v Hok out [] Hout eq_refl) as [N HN]. rewrite app_nil_r in HN.
  rewrite <- (json_fuel_stable out (N `max` json_fuel out)) by lia. rewrite HN by lia. reflexivity.
Qed.
