(* ===== verification/Schema.v ===== *)
(** * The pydantic models (models.py and main.py)

    [Module Main] holds the models main.py declares and uses
    ([CodeAnalysisRequest], [Issue], [AnalysisData] with required
    [optimized_code] and [summary], [APIResponse]); [Module Models] holds
    [DBAnalysisRecord] of models.py, the response model of the history
    route.  Each model is a Record, each [Literal] an Inductive with its
    spelling, and each model has a validator from [pyval] that follows
    pydantic's lax Python mode: a missing required field is [Missing], an
    [Optional[...] = None] field defaults to [None], a [str] field takes
    only a str, an [int] field takes an int, a bool, an integral float or
    a decimal string, a [Literal] takes exactly one of its strings, extra
    keys are ignored, and the errors of all fields are collected in field
    order.  The dumps are the JSON FastAPI writes for a response model.
    The validators and dumps follow pydantic, the records and enums follow
    the source lines of the map. *)

From S2P Require Import Prelude PyString PyValue.
From stdpp Require Import base list strings.
From Stdlib Require Import ZArith QArith String.

Open Scope string_scope.

(** ** Validation results *)

Inductive vres (A : Type) : Type :=
| Valid (a : A)
| Invalid (errs : list verr).
Arguments Valid {A} a.
Arguments Invalid {A} errs.

(** Applicative combination: both sides are validated, errors add up. *)
Definition vap {A B} (f : vres (A -> B)) (x : vres A) : vres B :=
  match f, x with
  | Valid g, Valid a => Valid (g a)
  | Valid _, Invalid e => Invalid e
  | Invalid e, Valid _ => Invalid e
  | Invalid e1, Invalid e2 => Invalid (e1 ++ e2)%list
  end.
Infix "<**>" := vap (at level 50, left associativity) : py_scope.

Definition at_key (loc : list loc_item) (k : string) : list loc_item :=
  (loc ++ [LocKey k])%list.
Definition at_idx (loc : list loc_item) (i : nat) : list loc_item :=
  (loc ++ [LocIdx i])%list.

Definition verror {A} (loc : list loc_item) (k : verr_kind) : vres A :=
  Invalid [mk_verr loc k].

(** [fmap] on a validation result. *)
Definition vres_map {A B} (h : A -> B) (r : vres A) : vres B :=
  match r with Valid a => Valid (h a) | Invalid e => Invalid e end.

Definition vres_to_outcome {A} (model : string) (r : vres A) : outcome py_exc A :=
  match r with
  | Valid a => Ret a
  | Invalid errs => Raise (ValidationError model errs)
  end.

(** ** Field validators *)

Definition v_str (loc : list loc_item) (v : pyval) : vres string :=
  match v with
  | PStr s => Valid s
  | _ => verror loc StringType
  end.

Definition q_integral (q : Q) : bool := Z.eqb (Z.rem (Qnum q) (Zpos (Qden q))) 0.

Definition v_int (loc : list loc_item) (v : pyval) : vres Z :=
  match v with
  | PInt z => Valid z
  | PBool b => Valid (if b then 1%Z else 0%Z)
  | PFloat q =>
      if q_integral q then Valid (Z.quot (Qnum q) (Zpos (Qden q)))
      else verror loc IntFromFloat
  | PStr s =>
      match parse_int_str s with
      | Some z => Valid z
      | None => verror loc IntParsing
      end
  | _ => verror loc IntType
  end.

(** [Optional[T] = None]: absent or None gives [None]. *)
Definition v_optional {A} (f : list loc_item -> pyval -> vres A)
    (loc : list loc_item) (o : option pyval) : vres (option A) :=
  match o with
  | None | Some PNone => Valid None
  | Some v => match f loc v with Valid a => Valid (Some a) | Invalid e => Invalid e end
  end.

(** A required field. *)
Definition v_required {A} (f : list loc_item -> pyval -> vres A)
    (loc : list loc_item) (o : option pyval) : vres A :=
  match o with
  | None => verror loc Missing
  | Some v => f loc v
  end.

(** [List[T]]: every item is validated at its index. *)
Fixpoint v_items {A} (f : list loc_item -> pyval -> vres A)
    (loc : list loc_item) (i : nat) (l : list pyval) : vres (list A) :=
  match l with
  | [] => Valid []
  | x :: l' => Valid cons <**> f (at_idx loc i) x <**> v_items f loc (S i) l'
  end.

Definition v_list {A} (f : list loc_item -> pyval -> vres A)
    (loc : list loc_item) (v : pyval) : vres (list A) :=
  match v with
  | PList l => v_items f loc 0 l
  | _ => verror loc ListType
  end.

Definition field (d : pydict) (name : string) : option pyval := dict_lookup d name.

Module Main.

(** ** main.py's models *)

Inductive IssueType : Type :=
| Bug | Security | Performance | Style | Logic | BestPractice.

Definition issue_type_str (t : IssueType) : string :=
  match t with
  | Bug => "bug" | Security => "security" | Performance => "performance"
  | Style => "style" | Logic => "logic" | BestPractice => "best-practice"
  end.

Definition issue_type_of_str (s : string) : option IssueType :=
  if String.eqb s "bug" then Some Bug
  else if String.eqb s "security" then Some Security
  else if String.eqb s "performance" then Some Performance
  else if String.eqb s "style" then Some Style
  else if String.eqb s "logic" then Some Logic
  else if String.eqb s "best-practice" then Some BestPractice
  else None.

Inductive Severity : Type :=
| Critical | High | Medium | Low | Info.

Definition severity_str (v : Severity) : string :=
  match v with
  | Critical => "critical" | High => "high" | Medium => "medium"
  | Low => "low" | Info => "info"
  end.

Definition severity_of_str (s : string) : option Severity :=
  if String.eqb s "critical" then Some Critical
  else if String.eqb s "high" then Some High
  else if String.eqb s "medium" then Some Medium
  else if String.eqb s "low" then Some Low
  else if String.eqb s "info" then Some Info
  else None.

Record CodeAnalysisRequest : Type := mk_request {
  code : string;
  language : string;
  file_name : option string
}.

Record Issue : Type := mk_issue {
  issue_type : IssueType;
  severity : Severity;
  title : string;
  description : string;
  line_number : option Z;
  suggestion : option string
}.

Record AnalysisData : Type := mk_analysis_data {
  issues : list Issue;
  optimized_code : string;
  summary : string;
  issues_count : Z
}.

Record APIResponse : Type := mk_api_response {
  analysis : AnalysisData;
  code_snippet : option string
}.

(** ** Validators *)

Definition v_literal {A} (parse : string -> option A)
    (loc : list loc_item) (v : pyval) : vres A :=
  match v with
  | PStr s => match parse s with Some a => Valid a | None => verror loc LiteralError end
  | _ => verror loc LiteralError
  end.

Definition validate_issue (loc : list loc_item) (v : pyval) : vres Issue :=
  match v with
  | PDict d =>
      Valid mk_issue
      <**> v_required (v_literal issue_type_of_str) (at_key loc "issue_type") (field d "issue_type")
      <**> v_required (v_literal severity_of_str) (at_key loc "severity") (field d "severity")
      <**> v_required v_str (at_key loc "title") (field d "title")
      <**> v_required v_str (at_key loc "description") (field d "description")
      <**> v_optional v_int (at_key loc "line_number") (field d "line_number")
      <**> v_optional v_str (at_key loc "suggestion") (field d "suggestion")
  | _ => verror loc ModelType
  end.

(** [AnalysisData(issues=..., optimized_code=..., summary=...,
    issues_count=...)] called with keyword arguments: every field is
    given, so none is [Missing]. *)
Definition validate_analysis_data (issues_v optimized_v summary_v : pyval)
    (count : Z) : vres AnalysisData :=
  Valid mk_analysis_data
  <**> v_list validate_issue [LocKey "issues"] issues_v
  <**> v_str [LocKey "optimized_code"] optimized_v
  <**> v_str [LocKey "summary"] summary_v
  <**> Valid count.

(** The request body of POST /api/v1/analyze. *)
Definition validate_request (v : pyval) : vres CodeAnalysisRequest :=
  match v with
  | PDict d =>
      Valid mk_request
      <**> v_required v_str [LocKey "body"; LocKey "code"] (field d "code")
      <**> v_required v_str [LocKey "body"; LocKey "language"] (field d "language")
      <**> v_optional v_str [LocKey "body"; LocKey "file_name"] (field d "file_name")
  | _ => verror [LocKey "body"] ModelType
  end.

(** ** Dumps: the JSON of a response model *)

Definition dump_issue (i : Issue) : pyval :=
  PDict [("issue_type", PStr (issue_type_str (issue_type i)));
         ("severity", PStr (severity_str (severity i)));
         ("title", PStr (title i));
         ("description", PStr (description i));
         ("line_number", opt_int (line_number i));
         ("suggestion", opt_str (suggestion i))].

Definition dump_analysis_data (a : AnalysisData) : pyval :=
  PDict [("issues", PList (map dump_issue (issues a)));
         ("optimized_code", PStr (optimized_code a));
         ("summary", PStr (summary a));
         ("issues_count", PInt (issues_count a))].

Definition dump_api_response (r : APIResponse) : pyval :=
  PDict [("analysis", dump_analysis_data (analysis r));
         ("code_snippet", opt_str (code_snippet r))].

End Main.

Module Models.

(** ** models.py's [DBAnalysisRecord]: one row of [analyses] *)

Record DBAnalysisRecord : Type := mk_record {
  id : string;
  user_id : string;
  code_snippet : string;
  language : string;
  file_name : option string;
  summary : option string;
  optimized_code : option string;
  issues_count : option Z;
  created_at : string
}.

(** [issues_count: Optional[int] = 0]: absent gives 0, null gives None. *)
Definition v_count_default (loc : list loc_item) (o : option pyval) : vres (option Z) :=
  match o with
  | None => Valid (Some 0%Z)
  | Some _ => v_optional v_int loc o
  end.

Definition validate_record (loc : list loc_item) (v : pyval) : vres DBAnalysisRecord :=
  match v with
  | PDict d =>
      Valid mk_record
      <**> v_required v_str (at_key loc "id") (field d "id")
      <**> v_required v_str (at_key loc "user_id") (field d "user_id")
      <**> v_required v_str (at_key loc "code_snippet") (field d "code_snippet")
      <**> v_required v_str (at_key loc "language") (field d "language")
      <**> v_optional v_str (at_key loc "file_name") (field d "file_name")
      <**> v_optional v_str (at_key loc "summary") (field d "summary")
      <**> v_optional v_str (at_key loc "optimized_code") (field d "optimized_code")
      <**> v_count_default (at_key loc "issues_count") (field d "issues_count")
      <**> v_required v_str (at_key loc "created_at") (field d "created_at")
  | _ => verror loc ModelType
  end.

Definition validate_records (v : pyval) : vres (list DBAnalysisRecord) :=
  v_list validate_record [] v.

(** The JSON FastAPI writes for one record of the response model. *)
Definition dump_record (r : DBAnalysisRecord) : pyval :=
  PDict [("id", PStr (id r)); ("user_id", PStr (user_id r));
         ("code_snippet", PStr (code_snippet r)); ("language", PStr (language r));
         ("file_name", opt_str (file_name r)); ("summary", opt_str (summary r));
         ("optimized_code", opt_str (optimized_code r));
         ("issues_count", opt_int (issues_count r)); ("created_at", PStr (created_at r))].

End Models.

(** ** Properties of validation *)

Lemma vap_Valid_inv {A B} (f : vres (A -> B)) (x : vres A) b :
  vap f x = Valid b -> exists g a, f = Valid g /\ x = Valid a /\ b = g a.
Proof. destruct f, x; simpl; intros; simplify_eq; eauto. Qed.

(** [vres_map] moves into the function side of [<**>]: mapping the result
    of a constructor applied field by field is applying the mapped
    constructor. *)
Lemma vres_map_vap {A B C} (h : B -> C) (f : vres (A -> B)) (x : vres A) :
  vres_map h (vap f x) = vap (vres_map (fun g a => h (g a)) f) x.
Proof. by destruct f, x. Qed.

#[export] Hint Rewrite @vres_map_vap : pyrw.

Lemma v_items_length {A} (f : list loc_item -> pyval -> vres A) loc i l xs :
  v_items f loc i l = Valid xs -> List.length xs = List.length l.
Proof.
  revert i xs. induction l as [|x l IH]; cbn [v_items]; intros i xs H.
  - by simplify_eq.
  - apply vap_Valid_inv in H as (g & r & Hg & Hr & ->).
    apply vap_Valid_inv in Hg as (g' & a & Hg' & Ha & ->).
    simplify_eq. simpl. f_equal. by apply (IH (S i)).
Qed.

(** A validated list has the length [len] reports for its input. *)
Lemma v_list_len {A} (f : list loc_item -> pyval -> vres A) loc v xs :
  v_list f loc v = Valid xs -> py_len v = Some (List.length xs).
Proof.
  destruct v; simpl; try discriminate.
  intros H. by rewrite (v_items_length _ _ _ _ _ H).
Qed.

Lemma v_items_map {A} (f : list loc_item -> pyval -> vres A) (g : A -> pyval) loc i xs :
  (forall loc' x, f loc' (g x) = Valid x) -> v_items f loc i (map g xs) = Valid xs.
Proof.
  intros Hfg. revert i. induction xs as [|x xs IH]; intros i; simpl; [done|].
  by rewrite Hfg, IH.
Qed.

(** Validating a list of images [g x] item by item, when each image
    validates to [h x]. *)
Lemma v_items_map_with {A B} (f : list loc_item -> pyval -> vres A) (g : B -> pyval)
    (h : B -> A) loc i xs :
  (forall loc' x, f loc' (g x) = Valid (h x)) -> v_items f loc i (map g xs) = Valid (map h xs).
Proof.
  intros Hfg. revert i. induction xs as [|x xs IH]; intros i; simpl; [done|].
  by rewrite Hfg, IH.
Qed.

(** An error a validation result reports. *)
Definition vres_reports {A} (err : verr) (r : vres A) : Prop :=
  match r with Invalid errs => err ∈ errs | Valid _ => False end.

(** An error of either side of [<**>] is reported by the combination:
    pydantic collects the errors of every field. *)
Lemma vap_reports_l {A B} (f : vres (A -> B)) (x : vres A) err :
  vres_reports err f -> vres_reports err (vap f x).
Proof. destruct f, x; simpl; try done. intros; apply elem_of_app; by left. Qed.

Lemma vap_reports_r {A B} (f : vres (A -> B)) (x : vres A) err :
  vres_reports err x -> vres_reports err (vap f x).
Proof. destruct f, x; simpl; try done. intros; apply elem_of_app; by right. Qed.

Create HintDb schema discriminated.
#[export] Hint Resolve vap_reports_l vap_reports_r : schema.

(** Case analysis on the chain of string comparisons of a [Literal]
    parser. *)
Ltac literal_cases H :=
  repeat match type of H with
    | context [String.eqb ?s ?lit] =>
        destruct (String.eqb_spec s lit); [subst; simplify_eq; reflexivity|]
    end;
  discriminate.

Module MainFacts.
Import Main.

Lemma issue_type_of_str_str t : issue_type_of_str (issue_type_str t) = Some t.
Proof. by destruct t. Qed.

Lemma severity_of_str_str v : severity_of_str (severity_str v) = Some v.
Proof. by destruct v. Qed.

(** The issue_type Literal accepts exactly the six spellings of the enum. *)
Lemma issue_type_of_str_correct s t :
  issue_type_of_str s = Some t <-> issue_type_str t = s.
Proof.
  split.
  - unfold issue_type_of_str.
    intros H. literal_cases H.
  - intros <-. apply issue_type_of_str_str.
Qed.

Lemma severity_of_str_correct s v :
  severity_of_str s = Some v <-> severity_str v = s.
Proof.
  split.
  - unfold severity_of_str.
    intros H. literal_cases H.
  - intros <-. apply severity_of_str_str.
Qed.

(** C17: A value outside the [Literal] of [issue_type] fails validation. *)
Theorem validate_issue_rejects_type loc d s :
  dict_lookup d "issue_type" = Some (PStr s) -> issue_type_of_str s = None ->
  forall i, validate_issue loc (PDict d) <> Valid i.
Proof.
  intros Hd Hs i H. unfold validate_issue, field in H. rewrite Hd in H.
  do 5 (apply vap_Valid_inv in H as (? & ? & H & _ & _)).
  apply vap_Valid_inv in H as (? & ? & _ & Ht & _).
  simpl in Ht. by rewrite Hs in Ht.
Qed.

Lemma validate_issue_rejects_type_witness :
  dict_lookup [("issue_type", PStr "typo")] "issue_type" = Some (PStr "typo") /\
  issue_type_of_str "typo" = None /\
  forall i, validate_issue [] (PDict [("issue_type", PStr "typo")]) <> Valid i.
Proof.
  split; [reflexivity|]. split; [reflexivity|].
  apply validate_issue_rejects_type with (s := "typo"); reflexivity.
Defined.

Lemma vres_to_outcome_Ret {A} m (r : vres A) a :
  vres_to_outcome m r = Ret a -> r = Valid a.
Proof. destruct r; simpl; congruence. Qed.

(** What a successful [AnalysisData(...)] keeps of its arguments. *)
Lemma validate_analysis_data_Valid iv ov sv c a :
  validate_analysis_data iv ov sv c = Valid a ->
  v_list validate_issue [LocKey "issues"] iv = Valid (issues a) /\ issues_count a = c.
Proof.
  unfold validate_analysis_data. intros H.
  apply vap_Valid_inv in H as (g1 & c' & H1 & Hc & ->). simplify_eq.
  apply vap_Valid_inv in H1 as (g2 & sm & H2 & _ & ->).
  apply vap_Valid_inv in H2 as (g3 & oc & H3 & _ & ->).
  apply vap_Valid_inv in H3 as (g4 & iss & H4 & His & ->). simplify_eq. done.
Qed.

(** [AnalysisData.optimized_code: str]: any other value, [None] included,
    is reported as a string-type error at [optimized_code], whatever the
    other fields hold. *)
Lemma validate_analysis_data_optimized_not_str iv ov sv c :
  (forall s, ov <> PStr s) ->
  vres_reports (mk_verr [LocKey "optimized_code"] StringType)
    (validate_analysis_data iv ov sv c).
Proof.
  intros Hov. unfold validate_analysis_data.
  apply vap_reports_l, vap_reports_l, vap_reports_r.
  destruct ov; try (exfalso; by eapply Hov); simpl; by apply list_elem_of_singleton.
Qed.
End MainFacts.
