(* ===== verification/ModelsPy.v ===== *)
(** * The request and response models of models.py

    [src/models.py] declares, besides [DBAnalysisRecord] (in [Schema]),
    its own [CodeAnalysisRequest], [Issue], [AnalysisData] and
    [APIResponse] (lines 4-43).  [main.py] declares and uses its own
    copies; [services.py] names [models.CodeAnalysisRequest] only as the
    annotation of [save_analysis]'s [request].  The two families differ in
    one class: models.py's [AnalysisData] has [optimized_code] and
    [summary] as [Optional[str] = None], main.py's as required [str].

    The models are written as [Schema]'s are: records, and validators in
    pydantic's lax mode that collect the errors of every field.  The
    [Literal] types of [Issue] are the ones of [Schema.Main].  The theorems
    relate the two families: main.py's [AnalysisData] refines models.py's,
    the reverse fails on a null [optimized_code], and every response
    main.py sends validates as models.py's [APIResponse]; the lemma that
    both [Issue] classes validate alike carries the first and the last. *)

From S2P Require Import Prelude PyString PyValue Schema.
From stdpp Require Import base list strings.
From Stdlib Require Import ZArith String.

Open Scope string_scope.
Open Scope py_scope.

Module ModelsPy.

Record CodeAnalysisRequest : Type := mk_request {
  code : string;
  language : string;
  file_name : option string
}.

Record Issue : Type := mk_issue {
  issue_type : Main.IssueType;
  severity : Main.Severity;
  title : string;
  description : string;
  line_number : option Z;
  suggestion : option string
}.

Record AnalysisData : Type := mk_analysis_data {
  issues : list Issue;
  optimized_code : option string;
  summary : option string;
  issues_count : Z
}.

Record APIResponse : Type := mk_api_response {
  analysis : AnalysisData;
  code_snippet : option string
}.

(** [CodeAnalysisRequest.model_validate] at [loc]. *)
Definition validate_request (loc : list loc_item) (v : pyval) : vres CodeAnalysisRequest :=
  match v with
  | PDict d =>
      Valid mk_request
      <**> v_required v_str (at_key loc "code") (field d "code")
      <**> v_required v_str (at_key loc "language") (field d "language")
      <**> v_optional v_str (at_key loc "file_name") (field d "file_name")
  | _ => verror loc ModelType
  end.

Definition validate_issue (loc : list loc_item) (v : pyval) : vres Issue :=
  match v with
  | PDict d =>
      Valid mk_issue
      <**> v_required (Main.v_literal Main.issue_type_of_str) (at_key loc "issue_type")
             (field d "issue_type")
      <**> v_required (Main.v_literal Main.severity_of_str) (at_key loc "severity")
             (field d "severity")
      <**> v_required v_str (at_key loc "title") (field d "title")
      <**> v_required v_str (at_key loc "description") (field d "description")
      <**> v_optional v_int (at_key loc "line_number") (field d "line_number")
      <**> v_optional v_str (at_key loc "suggestion") (field d "suggestion")
  | _ => verror loc ModelType
  end.

(** [issues: List[Issue]] and [issues_count: int] are required; the two
    [Optional[str] = None] fields accept absence and null. *)
Definition validate_analysis_data (loc : list loc_item) (v : pyval) : vres AnalysisData :=
  match v with
  | PDict d =>
      Valid mk_analysis_data
      <**> v_required (v_list validate_issue) (at_key loc "issues") (field d "issues")
      <**> v_optional v_str (at_key loc "optimized_code") (field d "optimized_code")
      <**> v_optional v_str (at_key loc "summary") (field d "summary")
      <**> v_required v_int (at_key loc "issues_count") (field d "issues_count")
  | _ => verror loc ModelType
  end.

Definition validate_api_response (loc : list loc_item) (v : pyval) : vres APIResponse :=
  match v with
  | PDict d =>
      Valid mk_api_response
      <**> v_required validate_analysis_data (at_key loc "analysis") (field d "analysis")
      <**> v_optional v_str (at_key loc "code_snippet") (field d "code_snippet")
  | _ => verror loc ModelType
  end.

(** ** main.py's instances seen as models.py's *)

Definition request_of_main (r : Main.CodeAnalysisRequest) : CodeAnalysisRequest :=
  mk_request (Main.code r) (Main.language r) (Main.file_name r).

Definition issue_of_main (i : Main.Issue) : Issue :=
  mk_issue (Main.issue_type i) (Main.severity i) (Main.title i) (Main.description i)
    (Main.line_number i) (Main.suggestion i).

Definition analysis_of_main (a : Main.AnalysisData) : AnalysisData :=
  mk_analysis_data (map issue_of_main (Main.issues a)) (Some (Main.optimized_code a))
    (Some (Main.summary a)) (Main.issues_count a).

Definition response_of_main (r : Main.APIResponse) : APIResponse :=
  mk_api_response (analysis_of_main (Main.analysis r)) (Main.code_snippet r).

End ModelsPy.

Module ModelsPyFacts.
Import ModelsPy.

Lemma validate_issue_agrees loc v :
  validate_issue loc v = vres_map issue_of_main (Main.validate_issue loc v).
Proof.
  destruct v; try reflexivity.
  unfold validate_issue, Main.validate_issue. by rewrite !vres_map_vap.
Qed.

Lemma v_items_issue_agrees loc i l :
  v_items validate_issue loc i l =
    vres_map (map issue_of_main) (v_items Main.validate_issue loc i l).
Proof.
  revert i. induction l as [|x l IH]; intros i; [reflexivity|].
  cbn [v_items]. rewrite IH, validate_issue_agrees.
  destruct (Main.validate_issue _ x), (v_items Main.validate_issue _ _ l); reflexivity.
Qed.

Lemma v_list_issue_agrees loc v :
  v_list validate_issue loc v = vres_map (map issue_of_main) (v_list Main.validate_issue loc v).
Proof. destruct v; try reflexivity. apply v_items_issue_agrees. Qed.

(** C22: main.py's [AnalysisData] refines models.py's: whatever keyword
    arguments main.py's class accepts, models.py's accepts as a dict, with
    the same issues and count. *)
Theorem validate_analysis_data_refines iv ov sv c a :
  Main.validate_analysis_data iv ov sv c = Valid a ->
  validate_analysis_data []
    (PDict [("issues", iv); ("optimized_code", ov); ("summary", sv); ("issues_count", PInt c)]) =
  Valid (analysis_of_main a).
Proof.
  unfold Main.validate_analysis_data. intros H.
  apply vap_Valid_inv in H as (g1 & c' & H1 & Hc & ->). simplify_eq.
  apply vap_Valid_inv in H1 as (g2 & sm & H2 & Hs & ->).
  apply vap_Valid_inv in H2 as (g3 & oc & H3 & Ho & ->).
  apply vap_Valid_inv in H3 as (g4 & iss & H4 & Hi & ->). simplify_eq.
  destruct ov; try discriminate; destruct sv; try discriminate. simpl in Ho, Hs. simplify_eq.
  unfold validate_analysis_data. cbn -[v_list validate_issue].
  rewrite v_list_issue_agrees, Hi. reflexivity.
Qed.

(** C23: The converse fails on [null]: with [optimized_code: null] and
    otherwise valid fields, models.py's [AnalysisData] accepts (with
    [None]) what main.py's rejects with a string-type error at
    [optimized_code]. *)
Theorem validate_analysis_data_null_diverges iv iss s c :
  v_list Main.validate_issue [LocKey "issues"] iv = Valid iss ->
  validate_analysis_data []
    (PDict [("issues", iv); ("optimized_code", PNone); ("summary", PStr s);
            ("issues_count", PInt c)]) =
    Valid (mk_analysis_data (map issue_of_main iss) None (Some s) c) /\
  vres_reports (mk_verr [LocKey "optimized_code"] StringType)
    (Main.validate_analysis_data iv PNone (PStr s) c).
Proof.
  intros Hi. split.
  - unfold validate_analysis_data. cbn -[v_list validate_issue].
    rewrite v_list_issue_agrees, Hi. reflexivity.
  - apply MainFacts.validate_analysis_data_optimized_not_str. discriminate.
Qed.

Lemma validate_issue_dump_models loc i :
  validate_issue loc (Main.dump_issue i) = Valid (issue_of_main i).
Proof.
  destruct i as [t sv ti de ln su]. unfold validate_issue, Main.dump_issue. simpl.
  rewrite MainFacts.issue_type_of_str_str, MainFacts.severity_of_str_str. by destruct ln, su.
Qed.

(** C24: Every response main.py serialises is an instance of models.py's
    [APIResponse], the structure the docstring promises the frontend:
    validating the JSON of an [APIResponse] of main.py gives the same
    response as models.py's class. *)
Theorem dump_api_response_typed r :
  validate_api_response [] (Main.dump_api_response r) = Valid (response_of_main r).
Proof.
  destruct r as [[iss oc sm n] cs]. unfold validate_api_response, Main.dump_api_response.
  simpl. rewrite (v_items_map_with _ _ issue_of_main); [|apply validate_issue_dump_models].
  by destruct cs.
Qed.
Definition sample_issue_json : pyval :=
  PDict [("issue_type", PStr "style"); ("severity", PStr "low");
         ("title", PStr "t"); ("description", PStr "d")].

Definition sample_main_issue : Main.Issue :=
  Main.mk_issue Main.Style Main.Low "t" "d" None None.

Lemma validate_analysis_data_refines_witness :
  Main.validate_analysis_data (PList [sample_issue_json]) (PStr "x = 1") (PStr "ok") 1 =
    Valid (Main.mk_analysis_data [sample_main_issue] "x = 1" "ok" 1) /\
  validate_analysis_data []
    (PDict [("issues", PList [sample_issue_json]); ("optimized_code", PStr "x = 1");
            ("summary", PStr "ok"); ("issues_count", PInt 1)]) =
  Valid (analysis_of_main (Main.mk_analysis_data [sample_main_issue] "x = 1" "ok" 1)).
Proof.
  assert (H : Main.validate_analysis_data (PList [sample_issue_json]) (PStr "x = 1") (PStr "ok") 1 =
              Valid (Main.mk_analysis_data [sample_main_issue] "x = 1" "ok" 1))
    by reflexivity.
  split; [exact H | exact (validate_analysis_data_refines _ _ _ _ _ H)].
Defined.

Lemma validate_analysis_data_null_diverges_witness :
  v_list Main.validate_issue [LocKey "issues"] (PList [sample_issue_json]) = Valid [sample_main_issue] /\
  validate_analysis_data []
    (PDict [("issues", PList [sample_issue_json]); ("optimized_code", PNone);
            ("summary", PStr "ok"); ("issues_count", PInt 1)]) =
    Valid (mk_analysis_data (map issue_of_main [sample_main_issue]) None (Some "ok") 1) /\
  vres_reports (mk_verr [LocKey "optimized_code"] StringType)
    (Main.validate_analysis_data (PList [sample_issue_json]) PNone (PStr "ok") 1).
Proof.
  assert (H : v_list Main.validate_issue [LocKey "issues"] (PList [sample_issue_json]) =
              Valid [sample_main_issue]) by reflexivity.
  split; [exact H | exact (validate_analysis_data_null_diverges _ _ _ _ H)].
Defined.
End ModelsPyFacts.
