(* ===== verification/Store.v ===== *)
(** * The hosted store: the tables of setup_db.py behind PostgREST

    [setup_db.py] creates two tables (its [create_tables_sql], lines
    13-43): [analyses] (uuid primary key with [gen_random_uuid()] default,
    NOT NULL [user_id], [code_snippet], [language], nullable [file_name],
    [summary], [optimized_code], [issues_count INTEGER DEFAULT 0],
    [created_at] defaulting to [now()]) and [analysis_results] (uuid key,
    [analysis_id] NOT NULL referencing [analyses(id) ON DELETE CASCADE],
    NOT NULL [issue_type], [severity], [title], [description], nullable
    [line_number INTEGER] and [suggestion], [created_at]).  The records
    below are those rows.

    The operations are what the Supabase client asks PostgREST to do:
    [insert] (one statement for a dict or a list of dicts: every object
    must have the same keys, every key must be a column, absent columns
    take their DEFAULT, a NULL in a NOT NULL column, a value of the wrong
    JSON type, an integer outside the 32-bit range of INTEGER, a duplicate
    key or a dangling [analysis_id] aborts the whole statement; a JSON
    string for an INTEGER column is read as [int4in] reads it, a JSON
    number or boolean for a TEXT column is stored as its JSON text), and
    [select] of a user's [analyses] rows ORDER BY created_at DESC.  The
    program never deletes, so [ON DELETE CASCADE] plays no part.  The
    environment's behaviour is part of the state: [online] (the service is
    reachable) and a row-level security [policy] per table ([Deny]: the
    insert is rejected with 42501 and reads see no rows; [NoReturn]: the
    insert is committed but no representation comes back, the case
    services.py handles at lines 34-41.  With Postgres policies and the
    client's default [return=representation] a row hidden from SELECT
    makes the INSERT fail with 42501 instead, which is [Deny]; [NoReturn]
    stands for a store that commits without returning the row, an
    assumption about the environment).  [gen_random_uuid()] is modelled by a counter ([next_uuid]) and
    [now()] by a clock that advances at every committed statement, so
    timestamps are integers (ticks). *)

From S2P Require Import Prelude PyString PyValue.
From stdpp Require Import base list strings sets sorting.
From Stdlib Require Import ZArith String Ascii.

Open Scope string_scope.

(** ** Rows and state *)

Record analyses_row : Type := mk_analyses_row {
  a_id : string;
  a_user_id : string;
  a_code_snippet : string;
  a_language : string;
  a_file_name : option string;
  a_summary : option string;
  a_optimized_code : option string;
  a_issues_count : option Z;
  a_created_at : Z
}.

Record results_row : Type := mk_results_row {
  r_id : string;
  r_analysis_id : string;
  r_issue_type : string;
  r_severity : string;
  r_title : string;
  r_description : string;
  r_line_number : option Z;
  r_suggestion : option string;
  r_created_at : Z
}.

Definition analyses_columns : list string :=
  ["id"; "user_id"; "code_snippet"; "language"; "file_name"; "summary";
   "optimized_code"; "issues_count"; "created_at"].

Definition results_columns : list string :=
  ["id"; "analysis_id"; "issue_type"; "severity"; "title"; "description";
   "line_number"; "suggestion"; "created_at"].

Inductive table : Type := TAnalyses | TAnalysisResults.

Inductive policy : Type := Allow | Deny | NoReturn.

Record db : Type := mk_db {
  analyses : list analyses_row;
  analysis_results : list results_row;
  next_uuid : N;
  clock : Z;
  online : bool;
  pol_analyses : policy;
  pol_results : policy
}.

Definition policy_of (t : table) (s : db) : policy :=
  match t with TAnalyses => pol_analyses s | TAnalysisResults => pol_results s end.

Definition uuid_of (n : N) : string := "uuid-" ++ py_str_of_int (Z.of_N n).

(** ** Column conversions (JSON value to column value) *)

Definition int4_min : Z := (- 2147483648)%Z.
Definition int4_max : Z := 2147483647%Z.
Definition in_int4 (z : Z) : bool := (int4_min <=? z)%Z && (z <=? int4_max)%Z.

(** PostgREST fills the row with [json_populate_recordset]: a JSON
    string gives its text to a TEXT column, any other scalar its JSON
    text ([5], [true]).  A float, list or dict would get the JSON text the
    client sent, whose spacing depends on the client's serialiser: that
    case is not modelled and is rejected here. *)
Definition conv_text (v : option pyval) : outcome string (option string) :=
  match v with
  | None | Some PNone => Ret None
  | Some (PStr s) => Ret (Some s)
  | Some (PInt z) => Ret (Some (py_str_of_int z))
  | Some (PBool b) => Ret (Some (if b then "true" else "false"))
  | Some _ => Raise "22P02"
  end.

(** C's [isspace] in the C locale, which [int4in] skips around the
    digits. *)
Definition pg_isspace (c : ascii) : bool :=
  let n := nat_of_ascii c in ((n =? 32) || (9 <=? n) && (n <=? 13))%nat.

Fixpoint lstrip_by (p : ascii -> bool) (l : list ascii) : list ascii :=
  match l with
  | c :: l' => if p c then lstrip_by p l' else l
  | [] => []
  end.

(** [int4in] on a text: blanks, an optional sign, decimal digits, blanks
    (the [0x]/[0o]/[0b] prefixes and digit separators of Postgres 16 are
    not modelled). *)
Definition pg_int_in (s : string) : option Z :=
  parse_int_str
    (string_of_list_ascii
       (rev (lstrip_by pg_isspace (rev (lstrip_by pg_isspace (list_ascii_of_string s)))))).

(** INTEGER is a 32-bit column: a JSON integer, or a JSON string that
    [int4in] reads, outside the range is 22003. *)
Definition conv_int4 (v : option pyval) : outcome string (option Z) :=
  match v with
  | None | Some PNone => Ret None
  | Some (PInt z) => if in_int4 z then Ret (Some z) else Raise "22003"
  | Some (PStr s) =>
      match pg_int_in s with
      | Some z => if in_int4 z then Ret (Some z) else Raise "22003"
      | None => Raise "22P02"
      end
  | Some _ => Raise "22P02"
  end.

Definition conv_ts (v : option pyval) : outcome string (option Z) :=
  match v with
  | None | Some PNone => Ret None
  | Some (PInt z) => Ret (Some z)
  | Some _ => Raise "22P02"
  end.

Definition not_null {A} (r : outcome string (option A)) : outcome string A :=
  match r with
  | Ret (Some a) => Ret a
  | Ret None => Raise "23502"
  | Raise c => Raise c
  end.

(** An absent column takes its DEFAULT; an explicit null does not. *)
Definition with_default (d : pyval) (v : option pyval) : option pyval :=
  match v with None => Some d | Some _ => v end.

Definition build_analyses_row (now : Z) (p : pydict) (fresh : string) : outcome string analyses_row :=
  let? id := not_null (conv_text (with_default (PStr fresh) (dict_lookup p "id"))) in
  let? uid := not_null (conv_text (dict_lookup p "user_id")) in
  let? cs := not_null (conv_text (dict_lookup p "code_snippet")) in
  let? lang := not_null (conv_text (dict_lookup p "language")) in
  let? fn := conv_text (dict_lookup p "file_name") in
  let? sm := conv_text (dict_lookup p "summary") in
  let? oc := conv_text (dict_lookup p "optimized_code") in
  let? ic := conv_int4 (with_default (PInt 0) (dict_lookup p "issues_count")) in
  let? ca := not_null (conv_ts (with_default (PInt now) (dict_lookup p "created_at"))) in
  Ret (mk_analyses_row id uid cs lang fn sm oc ic ca).

(** The foreign key: [analysis_id] must name an existing analysis. *)
Definition build_results_row (parents : list analyses_row) (now : Z) (p : pydict)
    (fresh : string) : outcome string results_row :=
  let? id := not_null (conv_text (with_default (PStr fresh) (dict_lookup p "id"))) in
  let? aid := not_null (conv_text (dict_lookup p "analysis_id")) in
  let? it := not_null (conv_text (dict_lookup p "issue_type")) in
  let? sv := not_null (conv_text (dict_lookup p "severity")) in
  let? ti := not_null (conv_text (dict_lookup p "title")) in
  let? de := not_null (conv_text (dict_lookup p "description")) in
  let? ln := conv_int4 (dict_lookup p "line_number") in
  let? su := conv_text (dict_lookup p "suggestion") in
  let? ca := not_null (conv_ts (with_default (PInt now) (dict_lookup p "created_at"))) in
  if bool_decide (aid ∈ map a_id parents) then Ret (mk_results_row id aid it sv ti de ln su ca)
  else Raise "23503".

(** ** One INSERT statement *)

Definition key_in (k : string) (p : pydict) : bool := existsb (fun kv => String.eqb kv.1 k) p.

Definition keys_match (p q : pydict) : bool :=
  forallb (fun kv => key_in kv.1 p) q && forallb (fun kv => key_in kv.1 q) p.

Definition same_keys (ps : list pydict) : bool :=
  match ps with
  | [] => true
  | p :: ps' => forallb (keys_match p) ps'
  end.

Definition columns_known (cols : list string) (p : pydict) : bool :=
  forallb (fun kv => existsb (String.eqb kv.1) cols) p.

Fixpoint build_all {R} (build : pydict -> string -> outcome string R) (n : N)
    (ps : list pydict) : outcome string (list R) :=
  match ps with
  | [] => Ret []
  | p :: ps' =>
      let? r := build p (uuid_of n) in
      let? rs := build_all build (n + 1)%N ps' in
      Ret (r :: rs)
  end.

Definition insert_rows {R} (cols : list string) (build : pydict -> string -> outcome string R)
    (row_id : R -> string) (existing : list R) (n : N) (ps : list pydict) :
    outcome string (list R) :=
  if negb (same_keys ps) then Raise "PGRST102"
  else if negb (forallb (columns_known cols) ps) then Raise "PGRST204"
  else
    let? rs := build_all build n ps in
    if bool_decide (NoDup (map row_id (existing ++ rs))) then Ret rs else Raise "23505".

Definition payload_dicts (v : pyval) : option (list pydict) :=
  match v with
  | PDict d => Some [d]
  | PList l => mapM (fun x => match x with PDict d => Some d | _ => None end) l
  | _ => None
  end.

Definition analyses_row_to_py (r : analyses_row) : pyval :=
  PDict [("id", PStr (a_id r)); ("user_id", PStr (a_user_id r));
         ("code_snippet", PStr (a_code_snippet r)); ("language", PStr (a_language r));
         ("file_name", opt_str (a_file_name r)); ("summary", opt_str (a_summary r));
         ("optimized_code", opt_str (a_optimized_code r));
         ("issues_count", opt_int (a_issues_count r));
         ("created_at", PStr (py_str_of_int (a_created_at r)))].

Definition results_row_to_py (r : results_row) : pyval :=
  PDict [("id", PStr (r_id r)); ("analysis_id", PStr (r_analysis_id r));
         ("issue_type", PStr (r_issue_type r)); ("severity", PStr (r_severity r));
         ("title", PStr (r_title r)); ("description", PStr (r_description r));
         ("line_number", opt_int (r_line_number r)); ("suggestion", opt_str (r_suggestion r));
         ("created_at", PStr (py_str_of_int (r_created_at r)))].

Definition commit_analyses (rs : list analyses_row) (s : db) : db :=
  mk_db (analyses s ++ rs) (analysis_results s) (next_uuid s + N.of_nat (List.length rs))
        (clock s + 1) (online s) (pol_analyses s) (pol_results s).

Definition commit_results (rs : list results_row) (s : db) : db :=
  mk_db (analyses s) (analysis_results s ++ rs) (next_uuid s + N.of_nat (List.length rs))
        (clock s + 1) (online s) (pol_analyses s) (pol_results s).

Definition returned {R} (pol : policy) (to_py : R -> pyval) (rs : list R) : list pyval :=
  match pol with NoReturn => [] | _ => map to_py rs end.

(** [client.table(t).insert(payload).execute().data] *)
Definition insert_stmt (t : table) (payload : pyval) : PyM py_exc db (list pyval) :=
  fun s =>
    if negb (online s) then (Raise ConnectError, s) else
    match policy_of t s with
    | Deny => (Raise (APIError "42501"), s)
    | pol =>
      match payload_dicts payload with
      | None => (Raise (APIError "PGRST102"), s)
      | Some ps =>
        match t with
        | TAnalyses =>
            match insert_rows analyses_columns (build_analyses_row (clock s)) a_id
                    (analyses s) (next_uuid s) ps with
            | Ret rs => (Ret (returned pol analyses_row_to_py rs), commit_analyses rs s)
            | Raise c => (Raise (APIError c), s)
            end
        | TAnalysisResults =>
            match insert_rows results_columns (build_results_row (analyses s) (clock s)) r_id
                    (analysis_results s) (next_uuid s) ps with
            | Ret rs => (Ret (returned pol results_row_to_py rs), commit_results rs s)
            | Raise c => (Raise (APIError c), s)
            end
        end
      end
    end.

(** ** SELECT * FROM analyses WHERE user_id = u ORDER BY created_at DESC *)

Fixpoint insert_desc (r : analyses_row) (l : list analyses_row) : list analyses_row :=
  match l with
  | [] => [r]
  | x :: l' => if (a_created_at x <=? a_created_at r)%Z then r :: l else x :: insert_desc r l'
  end.

Fixpoint sort_desc (l : list analyses_row) : list analyses_row :=
  match l with
  | [] => []
  | x :: l' => insert_desc x (sort_desc l')
  end.

Definition rows_of_user (u : string) (l : list analyses_row) : list analyses_row :=
  List.filter (fun r => String.eqb (a_user_id r) u) l.

Definition select_history (u : string) : PyM py_exc db (list pyval) :=
  fun s =>
    if negb (online s) then (Raise ConnectError, s) else
    match pol_analyses s with
    | Allow => (Ret (map analyses_row_to_py (sort_desc (rows_of_user u (analyses s)))), s)
    | _ => (Ret [], s)
    end.

(** ** DELETE FROM analyses WHERE id = i, with ON DELETE CASCADE *)

(** ** Referential integrity and key uniqueness *)

(** The invariant the DDL asks the store to keep: primary keys are
    unique and every result row references an existing analysis. *)
Definition db_wf (s : db) : Prop :=
  NoDup (map a_id (analyses s)) /\
  NoDup (map r_id (analysis_results s)) /\
  Forall (fun r => r_analysis_id r ∈ map a_id (analyses s)) (analysis_results s).

Create HintDb store discriminated.

Lemma build_all_Forall {R} (P : R -> Prop) build n ps rs :
  (forall p f r, build p f = Ret r -> P r) ->
  build_all build n ps = Ret rs -> Forall P rs.
Proof.
  intros Hb. revert n rs. induction ps as [|p ps IH]; simpl; intros n rs H.
  - by simplify_eq.
  - apply obind_Ret_inv in H as (r & Hr & H).
    apply obind_Ret_inv in H as (rs' & Hrs & H). simplify_eq.
    constructor; [by eapply Hb | by eapply IH].
Qed.

Lemma build_all_length {R} build n ps (rs : list R) :
  build_all build n ps = Ret rs -> List.length rs = List.length ps.
Proof.
  revert n rs. induction ps as [|p ps IH]; simpl; intros n rs H.
  - by simplify_eq.
  - apply obind_Ret_inv in H as (r & _ & H).
    apply obind_Ret_inv in H as (rs' & Hrs & H). simplify_eq. simpl. f_equal. by eapply IH.
Qed.

Lemma insert_rows_ok {R} cols build (row_id : R -> string) existing n ps rs :
  insert_rows cols build row_id existing n ps = Ret rs ->
  build_all build n ps = Ret rs /\ NoDup (map row_id (existing ++ rs)).
Proof.
  unfold insert_rows.
  destruct (same_keys ps), (forallb (columns_known cols) ps); simpl; try discriminate.
  intros H. apply obind_Ret_inv in H as (rs' & Hb & H).
  case_bool_decide; simplify_eq. done.
Qed.

Lemma build_results_row_fk parents now p f r :
  build_results_row parents now p f = Ret r -> r_analysis_id r ∈ map a_id parents.
Proof.
  unfold build_results_row. intros H.
  repeat (apply obind_Ret_inv in H as (? & _ & H)).
  case_bool_decide; simplify_eq. done.
Qed.

Lemma in_map_app_l {A} (f : A -> string) (l1 l2 : list A) x :
  x ∈ map f l1 -> x ∈ map f (l1 ++ l2).
Proof. rewrite map_app. set_solver. Qed.

#[export] Hint Resolve in_map_app_l : store.

(** The invariant argument for one INSERT statement. *)
Lemma insert_stmt_wf t payload : preserves db_wf (insert_stmt t payload).
Proof.
  intros s (Ha & Hr & Hfk). unfold insert_stmt.
  destruct (online s); simpl; [|done].
  destruct (policy_of t s); [| done |];
  destruct (payload_dicts payload) as [ps|]; try done; destruct t;
  lazymatch goal with
  | |- context [insert_rows ?c ?b ?i ?e ?n ps] => destruct (insert_rows c b i e n ps) eqn:Hins
  end; try done; simpl;
  apply insert_rows_ok in Hins as [Hb Hnd]; unfold db_wf; simpl;
  (split; [done|split; [done|]]);
  first [ apply Forall_impl with (1 := Hfk); eauto with store
        | apply Forall_app; split; [done|];
          apply (build_all_Forall _ _ _ _ _ (build_results_row_fk _ _) Hb) ].
Qed.


(** C12: Every INSERT keeps the invariant, whatever its outcome. *)
Theorem insert_preserves_wf t payload : preserves db_wf (insert_stmt t payload).
Proof. by apply insert_stmt_wf. Qed.
(** ** ORDER BY created_at DESC *)

Definition ts_ge (x y : analyses_row) : Prop := (a_created_at y <= a_created_at x)%Z.

Lemma insert_desc_perm r l : insert_desc r l ≡ₚ r :: l.
Proof.
  induction l as [|x l IH]; simpl; [done|].
  destruct (a_created_at x <=? a_created_at r)%Z; [done|].
  rewrite IH. apply Permutation_swap.
Qed.

Lemma sort_desc_perm l : sort_desc l ≡ₚ l.
Proof.
  induction l as [|x l IH]; simpl; [done|].
  by rewrite insert_desc_perm, IH.
Qed.

Lemma insert_desc_HdRel x r l :
  HdRel ts_ge x l -> ts_ge x r -> HdRel ts_ge x (insert_desc r l).
Proof.
  intros Hl Hr. destruct l as [|y l]; simpl; [by constructor|].
  destruct (a_created_at y <=? a_created_at r)%Z; constructor; [done|].
  by inversion Hl.
Qed.

Lemma insert_desc_sorted r l : Sorted ts_ge l -> Sorted ts_ge (insert_desc r l).
Proof.
  induction l as [|x l IH]; simpl; intros Hs; [by repeat constructor|].
  destruct (a_created_at x <=? a_created_at r)%Z eqn:Hle.
  - constructor; [done|]. constructor. unfold ts_ge. by apply Z.leb_le.
  - apply Sorted_inv in Hs as [Hs Hhd]. constructor; [by apply IH|].
    apply insert_desc_HdRel; [done|]. unfold ts_ge. apply Z.leb_gt in Hle. lia.
Qed.

Lemma sort_desc_sorted l : Sorted ts_ge (sort_desc l).
Proof.
  induction l as [|x l IH]; simpl; [constructor|]. by apply insert_desc_sorted.
Qed.

(** A row newer than all others comes first. *)
Lemma sort_desc_snoc_max l r :
  Forall (fun x => (a_created_at x < a_created_at r)%Z) l ->
  sort_desc (l ++ [r]) = r :: sort_desc l.
Proof.
  induction l as [|x l IH]; simpl; intros Hl; [done|].
  apply Forall_cons in Hl as [Hx Hl]. rewrite IH by done. simpl.
  destruct (a_created_at r <=? a_created_at x)%Z eqn:Hle; [|done].
  apply Z.leb_le in Hle. lia.
Qed.

(** The contract of the history query: the caller's rows, newest first. *)
Definition history_spec (u : string) (s : db) (rows : list analyses_row) : Prop :=
  rows ≡ₚ rows_of_user u (analyses s) /\ Sorted ts_ge rows.

#[export] Instance ts_ge_trans : Transitive ts_ge.
Proof. intros x y z. unfold ts_ge. lia. Qed.


(** C13: The query refines its contract. *)
Theorem select_history_refines u s :
  online s = true -> pol_analyses s = Allow ->
  exists rows, select_history u s = (Ret (map analyses_row_to_py rows), s) /\ history_spec u s rows.
Proof.
  intros Hon Hpol. exists (sort_desc (rows_of_user u (analyses s))).
  unfold select_history. rewrite Hon, Hpol. split; [done|].
  split; [apply sort_desc_perm | apply sort_desc_sorted].
Qed.



(** ** Bounds: INTEGER columns are 32-bit *)

Lemma build_analyses_row_overflow now p fresh z :
  dict_lookup p "issues_count" = Some (PInt z) -> in_int4 z = false ->
  exists c, build_analyses_row now p fresh = Raise c.
Proof.
  intros Hz Hover. unfold build_analyses_row.
  do 7 (apply obind_Raise_of; intros ?).
  rewrite Hz. simpl. rewrite Hover. by eexists.
Qed.

Lemma insert_rows_overflow now ex n p z :
  dict_lookup p "issues_count" = Some (PInt z) -> in_int4 z = false ->
  exists c, insert_rows analyses_columns (build_analyses_row now) a_id ex n [p] = Raise c.
Proof.
  intros Hz Hover. unfold insert_rows. simpl.
  destruct (columns_known analyses_columns p); simpl; [|by eexists].
  destruct (build_analyses_row_overflow now p (uuid_of n) z Hz Hover) as [c ->].
  by eexists.
Qed.

(** The overflowing [issues_count] stops the statement before it commits. *)
Lemma insert_stmt_count_overflow s p z :
  dict_lookup p "issues_count" = Some (PInt z) -> in_int4 z = false ->
  exists e, insert_stmt TAnalyses (PDict p) s = (Raise e, s).
Proof.
  intros Hz Hover. unfold insert_stmt.
  destruct (online s); simpl; [|by eexists].
  destruct (insert_rows_overflow (clock s) (analyses s) (next_uuid s) p z Hz Hover) as [c Hc].
  destruct (pol_analyses s); simpl; rewrite ?Hc; by eexists.
Qed.


(** C16: An [issues_count] outside the 32-bit range makes the INSERT of an
    [analyses] row fail, and the failed statement leaves the store as it
    was. *)
Theorem insert_issues_count_overflow s p z :
  dict_lookup p "issues_count" = Some (PInt z) -> in_int4 z = false ->
  exists e, insert_stmt TAnalyses (PDict p) s = (Raise e, s).
Proof. by apply insert_stmt_count_overflow. Qed.
(** ** A NOT NULL violation in one row fails the whole statement *)

Lemma build_results_row_null_title parents now p f :
  dict_lookup p "title" = Some PNone -> exists c, build_results_row parents now p f = Raise c.
Proof.
  intros Ht. unfold build_results_row.
  do 4 (apply obind_Raise_of; intros ?). rewrite Ht. by eexists.
Qed.

Lemma build_all_Raise {R} (build : pydict -> string -> outcome string R) n ps :
  Exists (fun p => forall f, exists c, build p f = Raise c) ps ->
  exists c, build_all build n ps = Raise c.
Proof.
  intros H. revert n. induction H as [p ps Hp|p ps _ IH]; intros n; simpl.
  - destruct (Hp (uuid_of n)) as [c ->]. by eexists.
  - apply obind_Raise_of. intros r. destruct (IH (n + 1)%N) as [c ->]. by eexists.
Qed.

Lemma insert_rows_Raise {R} cols build (row_id : R -> string) ex n ps c :
  build_all build n ps = Raise c -> exists c', insert_rows cols build row_id ex n ps = Raise c'.
Proof.
  intros Hb. unfold insert_rows.
  destruct (negb (same_keys ps)); [by eexists|].
  destruct (negb _); [by eexists|]. rewrite Hb. by eexists.
Qed.

Lemma payload_dicts_map ps : payload_dicts (PList (map PDict ps)) = Some ps.
Proof. induction ps as [|p ps IH]; simpl in *; [done|]. by rewrite IH. Qed.

(** A bulk INSERT into [analysis_results] in which one row has a null
    [title] fails as a whole and leaves the store as it was. *)
Lemma insert_results_null_title s ps :
  Exists (fun p => dict_lookup p "title" = Some PNone) ps ->
  exists e, insert_stmt TAnalysisResults (PList (map PDict ps)) s = (Raise e, s).
Proof.
  intros Hex. unfold insert_stmt. rewrite payload_dicts_map.
  destruct (online s); simpl; [|by eexists].
  destruct (build_all_Raise (build_results_row (analyses s) (clock s)) (next_uuid s) ps)
    as [c Hc].
  { eapply Exists_impl; [exact Hex|]. intros p Hp f. by apply build_results_row_null_title. }
  destruct (insert_rows_Raise results_columns _ r_id (analysis_results s) _ _ _ Hc) as [c' Hc'].
  destruct (pol_results s); simpl; rewrite ?Hc'; by eexists.
Qed.

(** ** Concrete stores *)

Definition sample_row : analyses_row :=
  mk_analyses_row "uuid-0" "u1" "x = 1" "python" None None None (Some 0%Z) 0%Z.

Definition sample_result : results_row :=
  mk_results_row "uuid-1" "uuid-0" "style" "low" "t" "d" None None 0%Z.

Definition sample_db : db := mk_db [sample_row] [sample_result] 2%N 1%Z true Allow Allow.

Definition offline_db : db := mk_db [] [] 0%N 0%Z false Allow Allow.

Lemma select_history_refines_witness :
  online sample_db = true /\ pol_analyses sample_db = Allow /\
  exists rows, select_history "u1" sample_db = (Ret (map analyses_row_to_py rows), sample_db) /\
               history_spec "u1" sample_db rows.
Proof.
  split; [reflexivity|]. split; [reflexivity|].
  apply select_history_refines; reflexivity.
Defined.



Lemma insert_issues_count_overflow_witness :
  dict_lookup [("issues_count", PInt 4294967296%Z)] "issues_count" = Some (PInt 4294967296%Z) /\
  in_int4 4294967296%Z = false /\
  exists e, insert_stmt TAnalyses (PDict [("issues_count", PInt 4294967296%Z)]) sample_db =
            (Raise e, sample_db).
Proof.
  split; [reflexivity|]. split; [reflexivity|].
  apply insert_issues_count_overflow with (z := 4294967296%Z); reflexivity.
Defined.
