(* ===== verification/SetupDb.v ===== *)
(** * The schema script: setup_db.py

    [setup_database] (lines 48-65) connects to Postgres with psycopg2,
    sets autocommit, opens a cursor, runs [create_tables_sql] (lines
    13-43) in one [cursor.execute], prints a success line, then closes the
    cursor and the connection.  Any exception is caught: it prints the
    error and a tip about the password.

    The server is a record: the catalog of the relations of the public
    schema, whether it is reachable and accepts the credentials, whether
    the role may create relations, and the number of open connections.
    [create_tables_sql] is the list of its four statements.
    [CREATE TABLE IF NOT EXISTS] and [CREATE INDEX IF NOT EXISTS] first
    check the CREATE privilege on the schema (Postgres looks up the
    creation namespace with its ACL check before it tests for an existing
    name), then skip a name that is already a relation; otherwise they
    check the referenced table and key (the foreign key of
    [analysis_results]) or the indexed column.  psycopg2 sends the
    whole script as one simple query, which Postgres runs as one implicit
    transaction: a failing statement rolls back the earlier ones.  The
    connection string is not modelled: it only decides whether [connect]
    succeeds, which is the [reachable] and [auth_ok] state of the server.

    The local [conn] of the running call is a field of the state: [None]
    before [psycopg2.connect] returns, then open or closed.  When
    [setup_database] returns, on every path, the frame is freed and
    CPython's deallocator of the connection object closes it if
    [conn.close()] did not ([with_frame]).

    The theorems: the script creates the four relations on a fresh schema
    and prints the three progress lines; with the CREATE privilege a second
    run succeeds and changes nothing.  The DDL's column lists are the ones
    [Store] uses for INSERT. *)

From S2P Require Import Prelude Store.
From stdpp Require Import base list strings.
From Stdlib Require Import String.

Open Scope string_scope.
Open Scope py_scope.

(** ** The catalog *)

Inductive relation : Type :=
| RTable (name : string) (cols : list string) (pk : string)
| RIndex (name : string) (tbl : string) (col : string).

Definition rel_name (r : relation) : string :=
  match r with RTable n _ _ => n | RIndex n _ _ => n end.

Record pg_server : Type := mk_server {
  catalog : list relation;
  reachable : bool;
  auth_ok : bool;
  can_create : bool;
  open_conns : nat
}.

Inductive pg_error : Type :=
| OperationalError
| ProgrammingError (sqlstate : string).

(** ** create_tables_sql *)

Inductive ddl : Type :=
| CreateTable (name : string) (cols : list string) (pk : string)
    (fk : option (string * string))
| CreateIndex (name : string) (tbl : string) (col : string).

(** The four statements of lines 15-42, with the columns of each table,
    its primary key and the foreign key [analysis_id REFERENCES
    analyses(id)]. *)
Definition create_tables_sql : list ddl :=
  [CreateTable "analyses"
     ["id"; "user_id"; "code_snippet"; "language"; "file_name"; "summary";
      "optimized_code"; "issues_count"; "created_at"] "id" None;
   CreateTable "analysis_results"
     ["id"; "analysis_id"; "issue_type"; "severity"; "title"; "description";
      "line_number"; "suggestion"; "created_at"] "id" (Some ("analyses", "id"));
   CreateIndex "idx_analyses_user_id" "analyses" "user_id";
   CreateIndex "idx_results_analysis_id" "analysis_results" "analysis_id"].

Definition ddl_name (st : ddl) : string :=
  match st with CreateTable n _ _ _ => n | CreateIndex n _ _ => n end.

Definition rel_exists (n : string) (cat : list relation) : bool :=
  existsb (fun r => String.eqb (rel_name r) n) cat.

(** The columns of table [t], when [t] is a table of the catalog. *)
Fixpoint table_cols (t : string) (cat : list relation) : option (list string * string) :=
  match cat with
  | [] => None
  | RTable n cols pk :: cat' => if String.eqb n t then Some (cols, pk) else table_cols t cat'
  | RIndex _ _ _ :: cat' => table_cols t cat'
  end.

(** [REFERENCES t(c)]: [t] must be a table whose primary key is [c]. *)
Definition references_ok (cat : list relation) (t c : string) : outcome string unit :=
  match table_cols t cat with
  | None => Raise "42P01"
  | Some (_, pk) => if String.eqb pk c then Ret tt else Raise "42830"
  end.

Definition exec_stmt (can : bool) (cat : list relation) (st : ddl) : outcome string (list relation) :=
  match st with
  | CreateTable n cols pk fk =>
      if negb can then Raise "42501"
      else if rel_exists n cat then Ret cat
      else
        let? _ := match fk with Some (t, c) => references_ok cat t c | None => Ret tt end in
        Ret (cat ++ [RTable n cols pk])%list
  | CreateIndex n t c =>
      if negb can then Raise "42501"
      else if rel_exists n cat then Ret cat
      else
        match table_cols t cat with
        | None => Raise "42P01"
        | Some (cols, _) =>
            if existsb (String.eqb c) cols then Ret (cat ++ [RIndex n t c])%list
            else Raise "42703"
        end
  end.

Fixpoint exec_script (can : bool) (cat : list relation) (sts : list ddl) :
    outcome string (list relation) :=
  match sts with
  | [] => Ret cat
  | st :: sts' => let? cat' := exec_stmt can cat st in exec_script can cat' sts'
  end.

(** ** setup_database *)

Inductive setup_line : Type :=
| LogConnecting
| LogCreatingTables
| LogTablesCreated
| LogSetupError (e : pg_error)
| LogPasswordTip.

(** [conn_var]: the local [conn] of the running [setup_database]:
    unassigned, or a connection object that is open ([Some true]) or
    closed ([Some false]). *)
Record setup_world : Type := mk_setup_world {
  server : pg_server;
  stdout : list setup_line;
  conn_var : option bool
}.

Abbreviation SM := (PyM pg_error setup_world).

Definition set_server (s : pg_server) (w : setup_world) : setup_world :=
  mk_setup_world s (stdout w) (conn_var w).

Definition with_conn (s : pg_server) (c : option bool) (w : setup_world) : setup_world :=
  mk_setup_world s (stdout w) c.

Definition setup_print (l : setup_line) : SM unit :=
  pmodify (fun w => mk_setup_world (server w) (stdout w ++ [l])%list (conn_var w)).

(** [psycopg2.connect(DB_CONNECTION_STRING)] *)
Definition pg_connect : SM unit :=
  fun w =>
    let s := server w in
    if reachable s && auth_ok s then
      (Ret tt, with_conn (mk_server (catalog s) (reachable s) (auth_ok s) (can_create s)
                                    (S (open_conns s))) (Some true) w)
    else (Raise OperationalError, w).

(** [cursor.execute(create_tables_sql)]: the script in one implicit
    transaction. *)
Definition pg_execute (sts : list ddl) : SM unit :=
  fun w =>
    let s := server w in
    match exec_script (can_create s) (catalog s) sts with
    | Ret cat' =>
        (Ret tt, set_server (mk_server cat' (reachable s) (auth_ok s) (can_create s) (open_conns s)) w)
    | Raise c => (Raise (ProgrammingError c), w)
    end.

Definition release (s : pg_server) : pg_server :=
  mk_server (catalog s) (reachable s) (auth_ok s) (can_create s) (pred (open_conns s)).

(** [conn.close()] *)
Definition pg_close : SM unit :=
  pmodify (fun w =>
    match conn_var w with
    | Some true => with_conn (release (server w)) (Some false) w
    | _ => w
    end).

(** A call of [setup_database]: its frame starts with [conn] unassigned;
    at the return the frame is freed and an open connection object is
    deallocated, which closes it. *)
Definition with_frame (m : SM unit) : SM unit :=
  fun w =>
    let '(o, w') := m (mk_setup_world (server w) (stdout w) None) in
    let s' := match conn_var w' with Some true => release (server w') | _ => server w' end in
    (o, mk_setup_world s' (stdout w') (conn_var w)).

(** Lines 48-65.  [conn.autocommit = True], [conn.cursor()] and
    [cursor.close()] change nothing the model observes. *)
Definition setup_database : SM unit :=
  with_frame
    (ptry (setup_print LogConnecting ;;;
           pg_connect ;;;
           setup_print LogCreatingTables ;;;
           pg_execute create_tables_sql ;;;
           setup_print LogTablesCreated ;;;
           pg_close)
          (fun e => setup_print (LogSetupError e) ;;; setup_print LogPasswordTip)).

(** ** Facts on the catalog *)

Lemma rel_exists_app_l n cat extra :
  rel_exists n cat = true -> rel_exists n (cat ++ extra)%list = true.
Proof. unfold rel_exists. rewrite existsb_app. by intros ->. Qed.

Lemma rel_exists_snoc n cat r :
  rel_exists n (cat ++ [r])%list = rel_exists n cat || String.eqb (rel_name r) n.
Proof. unfold rel_exists. rewrite existsb_app. simpl. by rewrite orb_false_r. Qed.

(** With the privilege, a statement whose name is taken does nothing. *)
Lemma exec_stmt_existing cat st :
  rel_exists (ddl_name st) cat = true -> exec_stmt true cat st = Ret cat.
Proof. destruct st; simpl; by intros ->. Qed.

(** A statement that succeeds keeps every relation and leaves its name
    taken. *)
Lemma exec_stmt_names can cat st cat' :
  exec_stmt can cat st = Ret cat' ->
  (forall n, rel_exists n cat = true -> rel_exists n cat' = true) /\
  rel_exists (ddl_name st) cat' = true.
Proof.
  destruct can; [|destruct st; discriminate].
  destruct st as [n cols pk fk|n t c]; simpl;
    destruct (rel_exists n cat) eqn:He; intros H; [by simplify_eq| | by simplify_eq|].
  - apply obind_Ret_inv in H as (_ & _ & H). simplify_eq.
    split; [intros; by apply rel_exists_app_l|].
    rewrite rel_exists_snoc. simpl. by rewrite String.eqb_refl, orb_true_r.
  - destruct (table_cols t cat) as [[cols pk]|]; try discriminate.
    destruct (existsb _ cols); simplify_eq.
    split; [intros; by apply rel_exists_app_l|].
    rewrite rel_exists_snoc. simpl. by rewrite String.eqb_refl, orb_true_r.
Qed.

Lemma exec_script_names can cat sts cat' :
  exec_script can cat sts = Ret cat' ->
  (forall n, rel_exists n cat = true -> rel_exists n cat' = true) /\
  Forall (fun st => rel_exists (ddl_name st) cat' = true) sts.
Proof.
  revert cat. induction sts as [|st sts IH]; simpl; intros cat H; [by simplify_eq|].
  apply obind_Ret_inv in H as (c1 & H1 & H).
  apply exec_stmt_names in H1 as [Hk Hn]. apply IH in H as [Hk' Hf].
  split; [auto|]. constructor; auto.
Qed.

(** With the privilege, when every name is taken the script does
    nothing. *)
Lemma exec_script_noop cat sts :
  Forall (fun st => rel_exists (ddl_name st) cat = true) sts -> exec_script true cat sts = Ret cat.
Proof.
  induction 1 as [|st sts Hst _ IH]; simpl; [done|].
  by rewrite exec_stmt_existing.
Qed.

Lemma rel_exists_app n cat l : rel_exists n (cat ++ l)%list = rel_exists n cat || rel_exists n l.
Proof. unfold rel_exists. by rewrite existsb_app. Qed.

Lemma table_cols_app_fresh t cat l :
  rel_exists t cat = false -> table_cols t (cat ++ l)%list = table_cols t l.
Proof.
  induction cat as [|[n cols pk|n tb c] cat IH]; simpl; [done| |];
    intros H; apply orb_false_iff in H as [Hn Hc]; [|by apply IH].
  rewrite Hn. by apply IH.
Qed.

(** ** Running [setup_database] *)

Ltac setup_run :=
  unfold setup_database, with_frame, ptry, pbind, setup_print, pmodify, pg_connect, pg_execute,
    pg_close, release;
  cbn [server stdout conn_var catalog reachable auth_ok can_create open_conns set_server with_conn].

(** The connection is refused: the error and the tip are printed. *)
Lemma setup_database_no_connection w :
  reachable (server w) && auth_ok (server w) = false ->
  setup_database w =
    (Ret tt, mk_setup_world (server w)
               (stdout w ++ [LogConnecting; LogSetupError OperationalError; LogPasswordTip])%list
               (conn_var w)).
Proof.
  intros H. setup_run. rewrite H. cbn. by rewrite <- !app_assoc.
Qed.

(** The script fails after the connection was opened: the catalog is
    unchanged, and the connection object is closed when the frame is
    freed. *)
Lemma setup_database_script_fails w c :
  reachable (server w) && auth_ok (server w) = true ->
  exec_script (can_create (server w)) (catalog (server w)) create_tables_sql = Raise c ->
  setup_database w =
    (Ret tt, mk_setup_world
               (mk_server (catalog (server w)) (reachable (server w)) (auth_ok (server w))
                  (can_create (server w)) (open_conns (server w)))
               (stdout w ++ [LogConnecting; LogCreatingTables; LogSetupError (ProgrammingError c);
                             LogPasswordTip])%list
               (conn_var w)).
Proof.
  intros H Hx. setup_run. rewrite H. cbn -[exec_script]. rewrite Hx. cbn. by rewrite <- !app_assoc.
Qed.

(** The script succeeds: the catalog is the script's, the connection is
    closed again. *)
Lemma setup_database_script_ok w cat' :
  reachable (server w) && auth_ok (server w) = true ->
  exec_script (can_create (server w)) (catalog (server w)) create_tables_sql = Ret cat' ->
  setup_database w =
    (Ret tt, mk_setup_world
               (mk_server cat' (reachable (server w)) (auth_ok (server w))
                  (can_create (server w)) (open_conns (server w)))
               (stdout w ++ [LogConnecting; LogCreatingTables; LogTablesCreated])%list
               (conn_var w)).
Proof.
  intros H Hx. setup_run. rewrite H. cbn -[exec_script]. rewrite Hx. cbn. by rewrite <- !app_assoc.
Qed.

(** The relations [create_tables_sql] adds to a schema that has none of
    its four names: the tables carry exactly the columns [Store] inserts
    into. *)
Definition created_relations : list relation :=
  [RTable "analyses" analyses_columns "id"; RTable "analysis_results" results_columns "id";
   RIndex "idx_analyses_user_id" "analyses" "user_id";
   RIndex "idx_results_analysis_id" "analysis_results" "analysis_id"].

Lemma references_ok_app_fresh cat l t c :
  rel_exists t cat = false -> references_ok (cat ++ l)%list t c = references_ok l t c.
Proof. intros H. unfold references_ok. by rewrite table_cols_app_fresh. Qed.

(** One [CREATE TABLE] on a name free in [cat ++ l]. *)
Lemma exec_create_table_fresh cat l n cols pk fk :
  rel_exists n cat = false -> rel_exists n l = false ->
  match fk with Some (t, c) => references_ok (cat ++ l)%list t c | None => Ret tt end = Ret tt ->
  exec_stmt true (cat ++ l)%list (CreateTable n cols pk fk) =
    Ret (cat ++ (l ++ [RTable n cols pk]))%list.
Proof.
  intros Hc Hl Hfk. cbn [exec_stmt]. rewrite rel_exists_app, Hc, Hl. cbn [orb negb].
  rewrite Hfk. simpl. by rewrite app_assoc.
Qed.

(** One [CREATE INDEX] on a name free in [cat ++ l], for a table of [l]. *)
Lemma exec_create_index_fresh cat l n t c cols pk :
  rel_exists n cat = false -> rel_exists n l = false -> rel_exists t cat = false ->
  table_cols t l = Some (cols, pk) -> existsb (String.eqb c) cols = true ->
  exec_stmt true (cat ++ l)%list (CreateIndex n t c) = Ret (cat ++ (l ++ [RIndex n t c]))%list.
Proof.
  intros Hc Hl Ht Hcols Hin. cbn [exec_stmt]. rewrite rel_exists_app, Hc, Hl. cbn [orb negb].
  rewrite table_cols_app_fresh, Hcols, Hin by done. by rewrite app_assoc.
Qed.

Lemma exec_script_fresh cat :
  Forall (fun st => rel_exists (ddl_name st) cat = false) create_tables_sql ->
  exec_script true cat create_tables_sql = Ret (cat ++ created_relations)%list.
Proof.
  intros Hf. repeat (apply Forall_cons in Hf as [? Hf]). cbn [ddl_name] in *.
  rewrite <- (app_nil_r cat) at 1. unfold create_tables_sql. cbn [exec_script].
  rewrite exec_create_table_fresh by done. cbn [obind app].
  rewrite exec_create_table_fresh
    by (done || rewrite references_ok_app_fresh by done; reflexivity).
  cbn [obind app].
  rewrite (exec_create_index_fresh _ _ _ _ _ analyses_columns "id") by done. cbn [obind app].
  rewrite (exec_create_index_fresh _ _ _ _ _ results_columns "id") by done. cbn [obind app].
  reflexivity.
Qed.

(** C25: On a reachable server that accepts the credentials and lets the
    role create relations, and whose schema has none of the four names,
    [setup_database] adds the two tables (with the columns the store
    inserts into) and the two indexes, prints the three progress lines
    and closes its connection. *)
Theorem setup_database_fresh w :
  reachable (server w) = true -> auth_ok (server w) = true -> can_create (server w) = true ->
  Forall (fun st => rel_exists (ddl_name st) (catalog (server w)) = false) create_tables_sql ->
  setup_database w =
    (Ret tt, mk_setup_world
               (mk_server (catalog (server w) ++ created_relations)%list true true true
                  (open_conns (server w)))
               (stdout w ++ [LogConnecting; LogCreatingTables; LogTablesCreated])%list
               (conn_var w)).
Proof.
  intros Hr Ha Hc Hf. rewrite (setup_database_script_ok w (catalog (server w) ++ created_relations)%list).
  - by rewrite Hr, Ha, Hc.
  - by rewrite Hr, Ha.
  - rewrite Hc. by apply exec_script_fresh.
Qed.

(** C26: The script can be run again: for a role with the CREATE
    privilege, after a run that created the schema a second run succeeds
    as well, prints the same three progress lines and changes nothing,
    because every statement is [IF NOT EXISTS]. *)
Theorem setup_database_rerun w cat' :
  reachable (server w) && auth_ok (server w) = true -> can_create (server w) = true ->
  exec_script true (catalog (server w)) create_tables_sql = Ret cat' ->
  setup_database (snd (setup_database w)) =
    (Ret tt, mk_setup_world
               (mk_server cat' (reachable (server w)) (auth_ok (server w)) true
                  (open_conns (server w)))
               (stdout w ++ [LogConnecting; LogCreatingTables; LogTablesCreated;
                             LogConnecting; LogCreatingTables; LogTablesCreated])%list
               (conn_var w)).
Proof.
  intros Hra Hc Hx. rewrite <- Hc in Hx. rewrite (setup_database_script_ok w cat' Hra Hx).
  rewrite Hc in Hx. apply exec_script_names in Hx as [_ Hn].
  rewrite (setup_database_script_ok _ cat'); [| done | rewrite Hc; by apply exec_script_noop].
  cbn. rewrite Hc. by rewrite <- app_assoc.
Qed.

(** C27: [setup_database] never raises, and what it prints is decided by
    the server: the connection error and the tip when [connect] fails;
    the two progress lines, the SQL error and the tip when the script
    fails; the three progress lines when it succeeds. *)
Theorem setup_database_outcomes w :
  fst (setup_database w) = Ret tt /\
  stdout (snd (setup_database w)) =
    (stdout w ++
     if reachable (server w) && auth_ok (server w) then
       match exec_script (can_create (server w)) (catalog (server w)) create_tables_sql with
       | Ret _ => [LogConnecting; LogCreatingTables; LogTablesCreated]
       | Raise c => [LogConnecting; LogCreatingTables; LogSetupError (ProgrammingError c);
                     LogPasswordTip]
       end
     else [LogConnecting; LogSetupError OperationalError; LogPasswordTip])%list.
Proof.
  destruct (reachable (server w) && auth_ok (server w)) eqn:Hra.
  - destruct (exec_script _ _ _) as [cat'|c] eqn:Hx.
    + by rewrite (setup_database_script_ok w cat' Hra Hx).
    + by rewrite (setup_database_script_fails w c Hra Hx).
  - by rewrite (setup_database_no_connection w Hra).
Qed.

(** ** Concrete servers *)

Definition empty_server : pg_server := mk_server [] true true true 0.

Lemma setup_database_fresh_witness :
  setup_database (mk_setup_world empty_server [] None) =
    (Ret tt, mk_setup_world (mk_server created_relations true true true 0)
               [LogConnecting; LogCreatingTables; LogTablesCreated] None).
Proof.
  apply (setup_database_fresh (mk_setup_world empty_server [] None)); try reflexivity.
  repeat constructor.
Defined.

Lemma setup_database_rerun_witness :
  setup_database (snd (setup_database (mk_setup_world empty_server [] None))) =
    (Ret tt, mk_setup_world (mk_server created_relations true true true 0)
               [LogConnecting; LogCreatingTables; LogTablesCreated;
                LogConnecting; LogCreatingTables; LogTablesCreated] None).
Proof.
  apply (setup_database_rerun (mk_setup_world empty_server [] None) created_relations);
    reflexivity.
Defined.
