(* ===== verification/Services.v ===== *)
(** * SupabaseService (services.py) and the world it acts on

    The world of a request: the process environment (the variables
    [main.py] and [services.py] read), the store of [Store], the
    language-model provider (a function from the chat messages to its
    reply, so that theorems hold for every provider) and the log of
    observable events (calls to the provider and the store, and the
    [print] lines).  [SupabaseService.__init__] (with the argument checks
    of supabase-py's [create_client]), [save_analysis] and
    [get_history] are translated statement by statement into [PyM]:
    [try]/[except] blocks are [ptry], [raise e] re-raises, [print] appends
    to the log, and the store calls run [Store.insert_stmt] / [Store.select_history]
    on the world's store. *)

From S2P Require Import Prelude PyString PyValue Schema Store.
From stdpp Require Import base list strings sets.
From Stdlib Require Import ZArith QArith String Ascii.

Open Scope string_scope.

(** ** The world *)

Record env : Type := mk_env {
  SUPABASE_URL : option string;
  SUPABASE_KEY : option string;
  GROQ_API_KEY : option string
}.

Record message : Type := mk_message { role : string; content : string }.

(** The arguments of [client.chat.completions.create(...)]. *)
Record completion_request : Type := mk_completion_request {
  messages : list message;
  model : string;
  temperature : Q;
  response_format : string
}.

(** What the call gives: the [message.content] of each choice (which the
    API types as optional), or an exception. *)
Inductive provider_reply : Type :=
| Completion (choices : list (option string))
| ProviderFailure (e : py_exc).

(** The [print] lines of the program, with the exception they show. *)
Inductive log_line : Type :=
| LogNoDataReturned
| LogAnalysesError (e : py_exc)
| LogResultsError (e : py_exc)
| LogHistoryError (e : py_exc)
| LogSaved (user : string)
| LogSaveFailed (e : py_exc)
| LogAnalysisError (e : py_exc).

Inductive event : Type :=
| EvProvider (r : completion_request)
| EvInsert (t : table)
| EvSelect (user : string)
| EvPrint (l : log_line).

Record world : Type := mk_world {
  w_env : env;
  w_db : db;
  w_provider : completion_request -> provider_reply;
  w_log : list event
}.

Abbreviation M := (PyM py_exc world).

Definition set_db (d : db) (w : world) : world :=
  mk_world (w_env w) d (w_provider w) (w_log w).

Definition emit (ev : event) : M unit :=
  pmodify (fun w => mk_world (w_env w) (w_db w) (w_provider w) (w_log w ++ [ev])).

Definition print (l : log_line) : M unit := emit (EvPrint l).

(** [self.client.table(t).insert(payload).execute().data] *)
Definition store_insert (t : table) (payload : pyval) : M (list pyval) :=
  emit (EvInsert t) ;;; pzoom w_db set_db (insert_stmt t payload).

(** [self.client.table("analyses").select("*").eq("user_id", u)
    .order("created_at", desc=True).execute().data] *)
Definition store_select (u : string) : M (list pyval) :=
  emit (EvSelect u) ;;; pzoom w_db set_db (select_history u).

(** ** SupabaseService *)

Record SupabaseService : Type := mk_service { svc_url : string; svc_key : string }.

(** ** create_client (supabase-py, [SyncClient.__init__])

    The client checks its arguments before it builds the sub-clients,
    which open no connection: both must be non-empty, the URL must match
    [^(https?)://.+] and the key
    [^[A-Za-z0-9-_=]+\.[A-Za-z0-9-_=]+\.?[A-Za-z0-9-_.+/=]*$] (a JWT).
    [$] also matches before a final newline.  Releases that accept the
    newer key formats drop the key check; the theorems only use a key of
    the JWT shape, so they hold for both. *)

Fixpoint match_lit (p l : list ascii) : option (list ascii) :=
  match p, l with
  | [], _ => Some l
  | c :: p', d :: l' => if Ascii.eqb c d then match_lit p' l' else None
  | _ :: _, [] => None
  end.

(** [re.match(r"^(https?)://.+", url)] *)
Definition url_ok (url : string) : bool :=
  match match_lit (list_ascii_of_string "http") (list_ascii_of_string url) with
  | None => false
  | Some r =>
      let r' := match r with "s"%char :: r1 => r1 | _ => r end in
      match match_lit (list_ascii_of_string "://") r' with
      | Some (c :: _) => negb (Ascii.eqb c "010")
      | _ => false
      end
  end.

Definition is_alnum (c : ascii) : bool :=
  let n := nat_of_ascii c in
  ((48 <=? n) && (n <=? 57) || (65 <=? n) && (n <=? 90) || (97 <=? n) && (n <=? 122))%nat.

(** [[A-Za-z0-9-_=]] and [[A-Za-z0-9-_.+/=]] *)
Definition jwt_char (c : ascii) : bool :=
  is_alnum c || Ascii.eqb c "-" || Ascii.eqb c "_" || Ascii.eqb c "=".

Definition jwt_tail_char (c : ascii) : bool :=
  jwt_char c || Ascii.eqb c "." || Ascii.eqb c "+" || Ascii.eqb c "/".

Fixpoint span_jwt (l : list ascii) : list ascii * list ascii :=
  match l with
  | c :: l' => if jwt_char c then let '(a, r) := span_jwt l' in (c :: a, r) else ([], l)
  | [] => ([], [])
  end.

(** The pattern on the whole of [l]: a non-empty run of [jwt_char], a dot
    ([jwt_char] has none, so the run is the longest one), then a first
    [jwt_char] of the second run and [jwt_tail_char]s to the end (the
    optional dot and the last run are both made of them). *)
Definition jwt_shape (l : list ascii) : bool :=
  match span_jwt l with
  | (_ :: _, "."%char :: (c :: _) as r) => jwt_char c && forallb jwt_tail_char r
  | _ => false
  end.

Definition key_ok (key : string) : bool :=
  let l := list_ascii_of_string key in
  jwt_shape l ||
  match rev l with "010"%char :: l' => jwt_shape (rev l') | _ => false end.

Definition create_client (url key : string) : outcome py_exc unit :=
  if String.eqb url "" then Raise (SupabaseException "supabase_url is required")
  else if String.eqb key "" then Raise (SupabaseException "supabase_key is required")
  else if negb (url_ok url) then Raise (SupabaseException "Invalid URL")
  else if negb (key_ok key) then Raise (SupabaseException "Invalid API key")
  else Ret tt.

(** [SupabaseService.__init__] (lines 7-15): [if not url or not key:
    raise ValueError(...)] rejects an unset and an empty variable alike,
    then [create_client(url, key)]. *)
Definition SupabaseService_init : M SupabaseService :=
  let* w := pget in
  match SUPABASE_URL (w_env w), SUPABASE_KEY (w_env w) with
  | Some url, Some key =>
      if String.eqb url "" || String.eqb key "" then
        praise (ValueError "SUPABASE_URL and SUPABASE_KEY must be set in environment variables")
      else plift (create_client url key) ;;; pret (mk_service url key)
  | _, _ => praise (ValueError "SUPABASE_URL and SUPABASE_KEY must be set in environment variables")
  end.

(** A configuration [SupabaseService()] accepts: both variables set and
    non-empty, and passing [create_client]'s URL and key checks. *)
Definition env_ready (e : env) : Prop :=
  exists url key, SUPABASE_URL e = Some url /\ SUPABASE_KEY e = Some key /\
                  url <> "" /\ key <> "" /\ url_ok url = true /\ key_ok key = true.

(** On such a configuration the constructor succeeds and changes nothing. *)
Lemma SupabaseService_init_ok w :
  env_ready (w_env w) ->
  exists svc, SupabaseService_init w = (Ret svc, w).
Proof.
  intros (url & key & Hu & Hk & Hu' & Hk' & Hurl & Hkey). unfold SupabaseService_init, pbind, pget.
  rewrite Hu, Hk. apply String.eqb_neq in Hu', Hk'. rewrite Hu', Hk'. simpl.
  unfold create_client. rewrite Hu', Hk', Hurl, Hkey. simpl. by eexists.
Qed.

Definition analysis_payload (user_id : string) (request : Main.CodeAnalysisRequest)
    (summary optimized_code issues_count : pyval) : pyval :=
  PDict [("user_id", PStr user_id);
         ("code_snippet", PStr (Main.code request));
         ("language", PStr (Main.language request));
         ("file_name", opt_str (Main.file_name request));
         ("summary", summary);
         ("optimized_code", optimized_code);
         ("issues_count", issues_count)].

(** One element of [results_payload]: six [issue.get(...)] in order. *)
Definition result_item (analysis_id issue : pyval) : M pyval :=
  let* ti := py_get issue "title" PNone in
  let* de := py_get issue "description" PNone in
  let* sv := py_get issue "severity" PNone in
  let* it := py_get issue "issue_type" PNone in
  let* ln := py_get issue "line_number" PNone in
  let* su := py_get issue "suggestion" PNone in
  pret (PDict [("analysis_id", analysis_id); ("title", ti); ("description", de);
               ("severity", sv); ("issue_type", it); ("line_number", ln);
               ("suggestion", su)]).

(** Lines 29-46 of services.py: the [try] around the parent INSERT.  A
    returned row gives its id; no row prints a warning and makes
    [save_analysis] return ["error-saving-db"] ([None] here); an exception
    is printed and re-raised. *)
Definition insert_parent (payload : pyval) : M (option pyval) :=
  ptry (let* data := store_insert TAnalyses payload in
        match data with
        | row :: _ => let* aid := py_getitem_key row "id" in pret (Some aid)
        | [] => print LogNoDataReturned ;;; pret None
        end)
       (fun e => print (LogAnalysesError e) ;;; praise e).

(** Lines 48-66: when [issues] is truthy, one bulk INSERT of the issue
    rows; building the rows is outside the [try], the INSERT inside it,
    and its failure is only printed. *)
Definition insert_issues (analysis_data analysis_id : pyval) : M unit :=
  let* issues := py_get analysis_data "issues" (PList []) in
  if py_truthy issues then
    let* items := py_iter_m issues in
    let* results_payload := pmapM (result_item analysis_id) items in
    ptry (store_insert TAnalysisResults (PList results_payload) ;;; pret tt)
         (fun e => print (LogResultsError e))
  else pret tt.

(** [save_analysis]: the payload (lines 19-27), the parent row, then the
    issue rows; the function returns the new id. *)
Definition save_analysis (svc : SupabaseService) (user_id : string)
    (request : Main.CodeAnalysisRequest) (analysis_data : pyval) : M pyval :=
  let* summary := py_get analysis_data "summary" PNone in
  let* optimized := py_get analysis_data "optimized_code" PNone in
  let* count := py_get analysis_data "issues_count" (PInt 0) in
  let* inserted := insert_parent (analysis_payload user_id request summary optimized count) in
  match inserted with
  | None => pret (PStr "error-saving-db")
  | Some analysis_id => insert_issues analysis_data analysis_id ;;; pret analysis_id
  end.

(** [get_history]: any failure of the query degrades to [[]]. *)
Definition get_history (svc : SupabaseService) (user_id : string) : M pyval :=
  ptry (let* data := store_select user_id in
        pret (if py_truthy (PList data) then PList data else PList []))
       (fun e => print (LogHistoryError e) ;;; pret (PList [])).

(** ** What the steps of the service keep *)


Lemma emit_db ev w : w_db (snd (emit ev w)) = w_db w.
Proof. reflexivity. Qed.

Lemma preserves_db_emit (P : db -> Prop) ev : preserves (fun w => P (w_db w)) (emit ev).
Proof. intros w Hw. by rewrite emit_db. Qed.

Lemma preserves_db_pzoom {A} (P : db -> Prop) (m : PyM py_exc db A) :
  preserves P m -> preserves (fun w => P (w_db w)) (pzoom w_db set_db m).
Proof.
  intros Hm w Hw. unfold pzoom. specialize (Hm _ Hw).
  destruct (m (w_db w)) as [r d'] eqn:E. simpl in *. done.
Qed.


#[export] Hint Resolve preserves_db_emit preserves_db_pzoom insert_stmt_wf : pyinv.
#[export] Hint Extern 1 (preserves _ (py_get _ _ _)) =>
  apply preserves_frame; intros; apply plift_state : pyinv.
#[export] Hint Extern 1 (preserves _ (py_getitem_key _ _)) =>
  apply preserves_frame; intros; apply plift_state : pyinv.
#[export] Hint Extern 1 (preserves _ (py_iter_m _)) =>
  apply preserves_frame; intros; apply plift_state : pyinv.
#[export] Hint Extern 1 (preserves _ pget) =>
  apply preserves_frame; intros; reflexivity : pyinv.

(** Decompose a [preserves] goal along the structure of the code. *)
Ltac preserves_step :=
  match goal with
  | |- preserves _ (pbind _ _) => apply preserves_pbind; [|intros ?]
  | |- preserves _ (ptry _ _) => apply preserves_ptry; [|intros ?]
  | |- preserves _ (pmapM _ _) => apply preserves_pmapM; intros ?
  | |- preserves _ (match ?x with _ => _ end) => destruct x
  | |- preserves _ (if ?b then _ else _) => destruct b
  | |- preserves _ (print _) => apply preserves_db_emit
  | |- preserves _ (store_insert _ _) => unfold store_insert
  | |- preserves _ (store_select _) => unfold store_select
  | |- preserves _ (result_item _ _) => unfold result_item
  | |- preserves _ (insert_parent _) => unfold insert_parent
  | |- preserves _ (insert_issues _ _) => unfold insert_issues
  | |- preserves _ _ => solve [eauto with pyinv]
  end.

Lemma select_history_frame u (s : db) : snd (select_history u s) = s.
Proof. unfold select_history. destruct (online s); simpl; [|done]. by destruct (pol_analyses s). Qed.

#[export] Hint Extern 1 (preserves _ (select_history _)) =>
  apply preserves_frame; intros; apply select_history_frame : pyinv.

(** ** What [save_analysis] writes *)

(** Values the TEXT and INTEGER columns of [analyses] accept. *)
Definition text_ok (v : pyval) : bool :=
  match v with PNone | PStr _ => true | _ => false end.

Definition count_ok (v : pyval) : bool :=
  match v with PNone => true | PInt z => in_int4 z | _ => false end.

Definition text_cell (v : pyval) : option string :=
  match v with PStr s => Some s | _ => None end.

Definition int_cell (v : pyval) : option Z :=
  match v with PInt z => Some z | _ => None end.

(** The row the first INSERT of [save_analysis] adds. *)
Definition saved_row (s : db) (u : string) (req : Main.CodeAnalysisRequest)
    (sm oc ic : pyval) : analyses_row :=
  mk_analyses_row (uuid_of (next_uuid s)) u (Main.code req) (Main.language req)
    (Main.file_name req) (text_cell sm) (text_cell oc) (int_cell ic) (clock s).

Lemma NoDup_snoc_fresh (l : list string) x :
  NoDup l -> x ∉ l -> NoDup (l ++ [x]).
Proof.
  intros Hl Hx. apply NoDup_app. split; [done|]. split; [|apply NoDup_singleton].
  intros y Hy Hy'. apply list_elem_of_singleton in Hy'. subst. done.
Qed.

(** The parent INSERT on a reachable store whose policy lets the row in:
    the row is committed and the statement hands back what the policy
    returns of it. *)
Lemma insert_analysis_payload_commit s u req sm oc ic :
  online s = true -> pol_analyses s <> Deny ->
  text_ok sm = true -> text_ok oc = true -> count_ok ic = true ->
  NoDup (map a_id (analyses s)) -> uuid_of (next_uuid s) ∉ map a_id (analyses s) ->
  insert_stmt TAnalyses (analysis_payload u req sm oc ic) s =
    (Ret (returned (pol_analyses s) analyses_row_to_py [saved_row s u req sm oc ic]),
     commit_analyses [saved_row s u req sm oc ic] s).
Proof.
  intros Hon Hpol Hsm Hoc Hic Hnd Hfresh.
  unfold insert_stmt. rewrite Hon. unfold insert_rows. simpl.
  assert (Hb : build_analyses_row (clock s) (match analysis_payload u req sm oc ic with
               PDict d => d | _ => [] end) (uuid_of (next_uuid s))
               = Ret (saved_row s u req sm oc ic)).
  { unfold build_analyses_row, saved_row. simpl.
    destruct (Main.file_name req);
    destruct sm; try discriminate; destruct oc; try discriminate;
    destruct ic; try discriminate; simpl; try (simpl in Hic; rewrite Hic); reflexivity. }
  simpl in Hb.
  destruct (pol_analyses s); [|contradiction|]; simpl; rewrite Hb; simpl;
    (rewrite bool_decide_true; [done|]; rewrite map_app; by apply NoDup_snoc_fresh).
Qed.

Lemma insert_analysis_payload_ok s u req sm oc ic :
  online s = true -> pol_analyses s = Allow ->
  text_ok sm = true -> text_ok oc = true -> count_ok ic = true ->
  NoDup (map a_id (analyses s)) -> uuid_of (next_uuid s) ∉ map a_id (analyses s) ->
  insert_stmt TAnalyses (analysis_payload u req sm oc ic) s =
    (Ret [analyses_row_to_py (saved_row s u req sm oc ic)],
     commit_analyses [saved_row s u req sm oc ic] s).
Proof.
  intros Hon Hpol. intros. rewrite insert_analysis_payload_commit by (done || congruence).
  by rewrite Hpol.
Qed.

Lemma store_insert_run t p w :
  store_insert t p w =
    let '(r, d') := insert_stmt t p (w_db w) in
    (r, mk_world (w_env w) d' (w_provider w) (w_log w ++ [EvInsert t])).
Proof. reflexivity. Qed.

Definition after_insert (w : world) (d' : db) (t : table) : world :=
  mk_world (w_env w) d' (w_provider w) (w_log w ++ [EvInsert t]).

(** The parent INSERT succeeds and hands back the new row's id. *)
Lemma insert_parent_ok w u req sm oc ic :
  online (w_db w) = true -> pol_analyses (w_db w) = Allow ->
  text_ok sm = true -> text_ok oc = true -> count_ok ic = true ->
  NoDup (map a_id (analyses (w_db w))) ->
  uuid_of (next_uuid (w_db w)) ∉ map a_id (analyses (w_db w)) ->
  insert_parent (analysis_payload u req sm oc ic) w =
    (Ret (Some (PStr (uuid_of (next_uuid (w_db w))))),
     after_insert w (commit_analyses [saved_row (w_db w) u req sm oc ic] (w_db w)) TAnalyses).
Proof.
  intros. unfold insert_parent. apply ptry_run_ret.
  unfold pbind at 1. rewrite store_insert_run.
  rewrite insert_analysis_payload_ok by done. reflexivity.
Qed.

(** The part of the store the history query reads. *)
Definition analyses_frame (X : list analyses_row) (o : bool) (p : policy) (s : db) : Prop :=
  analyses s = X /\ online s = o /\ pol_analyses s = p.

Lemma insert_results_frame X o p payload :
  preserves (analyses_frame X o p) (insert_stmt TAnalysisResults payload).
Proof.
  intros s Hs. unfold insert_stmt. destruct (online s); simpl; [|done].
  destruct (pol_results s); simpl; try done;
  destruct (payload_dicts payload) as [ps|]; simpl; try done;
  lazymatch goal with
  | |- context [insert_rows ?c ?b ?i ?e ?n ps] => destruct (insert_rows c b i e n ps)
  end; done.
Qed.

#[export] Hint Extern 1 (preserves _ (pzoom _ _ (insert_stmt TAnalysisResults _))) =>
  apply preserves_db_pzoom, insert_results_frame : pyinv.

(** Writing the issue rows never touches [analyses]. *)
Lemma insert_issues_frame X o p data aid :
  preserves (fun w => analyses_frame X o p (w_db w)) (insert_issues data aid).
Proof. repeat preserves_step. Qed.

(** ** Round trip: a saved analysis is the newest entry of the history *)

Definition summary_of (d : pydict) : pyval := default PNone (dict_lookup d "summary").
Definition optimized_of (d : pydict) : pyval := default PNone (dict_lookup d "optimized_code").
Definition count_of (d : pydict) : pyval := default (PInt 0) (dict_lookup d "issues_count").

(** When the parent INSERT can succeed: the store is reachable and lets
    the row through, the model's [summary], [optimized_code] and
    [issues_count] fit their columns, the next uuid is fresh and every
    existing row is older than the clock. *)
Definition save_ready (s : db) (d : pydict) : Prop :=
  online s = true /\ pol_analyses s = Allow /\
  text_ok (summary_of d) = true /\ text_ok (optimized_of d) = true /\
  count_ok (count_of d) = true /\
  NoDup (map a_id (analyses s)) /\ (uuid_of (next_uuid s) ∉ map a_id (analyses s)) /\
  Forall (fun a => (a_created_at a < clock s)%Z) (analyses s).

Lemma save_analysis_analyses svc u req d w :
  save_ready (w_db w) d ->
  analyses_frame
    (analyses (w_db w) ++ [saved_row (w_db w) u req (summary_of d) (optimized_of d) (count_of d)])
    true Allow (w_db (snd (save_analysis svc u req (PDict d) w))).
Proof.
  intros (Hon & Hpol & Hsm & Hoc & Hic & Hnd & Hfr & _).
  unfold save_analysis, py_get. cbn [py_get_o]. rewrite !pbind_plift_Ret. cbv beta.
  erewrite pbind_run_ret; [|apply insert_parent_ok; done].
  cbv beta iota. unfold pbind.
  match goal with
  | |- context [insert_issues ?dt ?aid ?w1] =>
      pose proof (insert_issues_frame
        (analyses (w_db w) ++ [saved_row (w_db w) u req (summary_of d) (optimized_of d) (count_of d)])
        true Allow dt aid w1) as Hf;
      destruct (insert_issues dt aid w1) as [[] w2]
  end; apply Hf; repeat split; simpl; congruence.
Qed.

(** What [get_history] returns, on every store. *)
Lemma get_history_result svc u w :
  fst (get_history svc u w) =
    Ret (PList (if online (w_db w) then
                  match pol_analyses (w_db w) with
                  | Allow => map analyses_row_to_py (sort_desc (rows_of_user u (analyses (w_db w))))
                  | _ => []
                  end
                else [])).
Proof.
  unfold get_history, store_select, ptry, pbind, pzoom, emit, pmodify, select_history. simpl.
  destruct (online (w_db w)); simpl; [|done].
  destruct (pol_analyses (w_db w)); simpl; [by destruct (map analyses_row_to_py _) | done | done].
Qed.


(** C11: [get_history] never raises: an unreachable store or a policy that
    hides the rows gives the empty list. *)
Theorem get_history_total svc u w :
  fst (get_history svc u w) =
    Ret (PList (if online (w_db w) then
                  match pol_analyses (w_db w) with
                  | Allow => map analyses_row_to_py (sort_desc (rows_of_user u (analyses (w_db w))))
                  | _ => []
                  end
                else [])).
Proof. by apply get_history_result. Qed.
Lemma rows_of_user_snoc u l r :
  a_user_id r = u -> rows_of_user u (l ++ [r])%list = (rows_of_user u l ++ [r])%list.
Proof.
  intros Hu. unfold rows_of_user. rewrite List.filter_app. simpl.
  by rewrite Hu, String.eqb_refl.
Qed.

Lemma rows_of_user_Forall (P : analyses_row -> Prop) u l :
  Forall P l -> Forall P (rows_of_user u l).
Proof.
  intros H. apply Forall_forall. intros x Hx.
  apply list_elem_of_In, filter_In in Hx as [Hx _].
  apply list_elem_of_In in Hx. by eapply Forall_forall in H.
Qed.

(** C5: Saving an analysis and then reading the history of the same user
    gives the saved row first, followed by the earlier rows in their
    previous order; the row carries the request's code and language and
    the [issues_count] the model reported. *)
Theorem save_then_history svc u req d w :
  save_ready (w_db w) d ->
  fst (get_history svc u (snd (save_analysis svc u req (PDict d) w))) =
    Ret (PList (analyses_row_to_py (saved_row (w_db w) u req (summary_of d) (optimized_of d) (count_of d))
                :: map analyses_row_to_py (sort_desc (rows_of_user u (analyses (w_db w)))))).
Proof.
  intros Hr. pose proof (save_analysis_analyses svc u req d w Hr) as (Ha & Ho & Hp).
  destruct Hr as (_ & _ & _ & _ & _ & _ & _ & Hts).
  rewrite get_history_result, Ho, Hp, Ha, rows_of_user_snoc by done.
  rewrite sort_desc_snoc_max; [done|].
  by apply rows_of_user_Forall.
Qed.

(** ** Bounds: a self-reported count beyond 32 bits *)

(** C15: The model's [issues_count] goes to an INTEGER column: beyond the
    32-bit range the parent INSERT fails, [save_analysis] re-raises and
    nothing is written. *)
Theorem save_analysis_count_overflow svc u req d w z :
  dict_lookup d "issues_count" = Some (PInt z) -> in_int4 z = false ->
  (exists e, fst (save_analysis svc u req (PDict d) w) = Raise e) /\
  w_db (snd (save_analysis svc u req (PDict d) w)) = w_db w.
Proof.
  intros Hz Hover.
  set (payload := analysis_payload u req (summary_of d) (optimized_of d) (PInt z)).
  assert (He : exists e, insert_stmt TAnalyses payload (w_db w) = (Raise e, w_db w))
    by (apply insert_stmt_count_overflow with z; [reflexivity | exact Hover]).
  destruct He as [e He].
  assert (H1 : exists w2, insert_parent payload w = (Raise e, w2) /\ w_db w2 = w_db w).
  { unfold insert_parent.
    rewrite (ptry_run_raise _ _ _ e (after_insert w (w_db w) TAnalyses));
      [by eexists | apply pbind_run_raise; rewrite store_insert_run; by rewrite He]. }
  destruct H1 as (w2 & H1 & Hw2).
  unfold save_analysis, py_get. cbn [py_get_o]. rewrite !pbind_plift_Ret. cbv beta.
  rewrite Hz. simpl default. fold (summary_of d) (optimized_of d).
  rewrite (pbind_run_raise _ _ _ _ _ H1). split; [by eexists | exact Hw2].
Qed.

(** ** A stored row that the store does not hand back *)

(** The parent INSERT goes through but the policy returns no
    representation: the warning is printed and [insert_parent] answers
    [None] with the row committed. *)
Lemma insert_parent_no_data w u req sm oc ic :
  online (w_db w) = true -> pol_analyses (w_db w) = NoReturn ->
  text_ok sm = true -> text_ok oc = true -> count_ok ic = true ->
  NoDup (map a_id (analyses (w_db w))) ->
  uuid_of (next_uuid (w_db w)) ∉ map a_id (analyses (w_db w)) ->
  insert_parent (analysis_payload u req sm oc ic) w =
    (Ret None,
     snd (print LogNoDataReturned
       (after_insert w (commit_analyses [saved_row (w_db w) u req sm oc ic] (w_db w)) TAnalyses))).
Proof.
  intros Hon Hpol. intros. unfold insert_parent. apply ptry_run_ret.
  unfold pbind at 1. rewrite store_insert_run.
  rewrite insert_analysis_payload_commit by (done || congruence).
  by rewrite Hpol.
Qed.

(** C19: When the store keeps the parent row but returns no data (a
    policy without SELECT on [analyses]), [save_analysis] does not raise:
    it returns the string ["error-saving-db"], the [analyses] row stays
    committed, no issue row is written and the warning is logged. *)
Theorem save_analysis_no_data_returned svc u req d w :
  online (w_db w) = true -> pol_analyses (w_db w) = NoReturn ->
  text_ok (summary_of d) = true -> text_ok (optimized_of d) = true ->
  count_ok (count_of d) = true ->
  NoDup (map a_id (analyses (w_db w))) ->
  uuid_of (next_uuid (w_db w)) ∉ map a_id (analyses (w_db w)) ->
  fst (save_analysis svc u req (PDict d) w) = Ret (PStr "error-saving-db") /\
  analyses (w_db (snd (save_analysis svc u req (PDict d) w))) =
    (analyses (w_db w) ++ [saved_row (w_db w) u req (summary_of d) (optimized_of d) (count_of d)])%list /\
  analysis_results (w_db (snd (save_analysis svc u req (PDict d) w))) = analysis_results (w_db w) /\
  EvPrint LogNoDataReturned ∈ w_log (snd (save_analysis svc u req (PDict d) w)).
Proof.
  intros.
  unfold save_analysis, py_get. cbn [py_get_o]. rewrite !pbind_plift_Ret. cbv beta.
  erewrite pbind_run_ret; [|apply insert_parent_no_data; done].
  cbv beta iota. simpl. split_and!; try done.
  rewrite elem_of_app, list_elem_of_singleton. by right.
Qed.

(** ** A failed issue INSERT leaves the parent row behind *)

(** [result_item] on a dict issue copies its [title] ([None] when absent). *)
Lemma result_item_dict aid di w :
  exists dd, result_item aid (PDict di) w = (Ret (PDict dd), w) /\
    dict_lookup dd "title" = Some (default PNone (dict_lookup di "title")).
Proof. eexists. split; reflexivity. Qed.

Lemma pmapM_result_items aid dis w :
  exists dds, pmapM (result_item aid) (map PDict dis) w = (Ret (map PDict dds), w) /\
    Forall2 (fun di dd => dict_lookup dd "title" = Some (default PNone (dict_lookup di "title")))
      dis dds.
Proof.
  induction dis as [|di dis IH]; [by exists []|].
  destruct (result_item_dict aid di w) as (dd & Hr & Ht). destruct IH as (dds & Hm & Hf).
  exists (dd :: dds). split; [|by constructor].
  cbn [pmapM map]. unfold pbind. rewrite Hr, Hm. reflexivity.
Qed.

Lemma Forall2_title_missing dis dds :
  Exists (fun di => default PNone (dict_lookup di "title") = PNone) dis ->
  Forall2 (fun di dd => dict_lookup dd "title" = Some (default PNone (dict_lookup di "title")))
    dis dds ->
  Exists (fun dd => dict_lookup dd "title" = Some PNone) dds.
Proof.
  intros Hex Hf. induction Hf as [|di dd dis dds Hd _ IH]; inversion Hex; subst;
    [left; congruence | right; auto].
Qed.

(** When an issue of the reply has no title, the bulk INSERT of the issue
    rows fails; [insert_issues] prints the error and returns normally,
    and the store is unchanged. *)
Lemma insert_issues_title_missing d aid w dis :
  dict_lookup d "issues" = Some (PList (map PDict dis)) ->
  Exists (fun di => default PNone (dict_lookup di "title") = PNone) dis ->
  fst (insert_issues (PDict d) aid w) = Ret tt /\
  w_db (snd (insert_issues (PDict d) aid w)) = w_db w.
Proof.
  intros Hi Hex. destruct (pmapM_result_items aid dis w) as (dds & Hm & Hf).
  destruct (insert_results_null_title (w_db w) dds (Forall2_title_missing _ _ Hex Hf)) as [e He].
  assert (Htr : py_truthy (PList (map PDict dis)) = true)
    by (destruct dis; [inversion Hex | reflexivity]).
  unfold insert_issues, py_get. cbn [py_get_o]. rewrite pbind_plift_Ret, Hi.
  change (default (PList []) (Some (PList (map PDict dis)))) with (PList (map PDict dis)).
  rewrite Htr. unfold py_iter_m. cbn [py_iter_o py_iter]. rewrite pbind_plift_Ret.
  unfold ptry, pbind. rewrite Hm, store_insert_run, He.
  split; reflexivity.
Qed.

(** C21: [save_analysis] is not atomic.  When an issue of the reply has no
    title, the parent row is committed, the issue rows are rejected as a
    whole (NOT NULL on [title]), and the call still returns the new id:
    the stored analysis has no results. *)
Theorem save_analysis_keeps_orphan_parent svc u req d w dis :
  save_ready (w_db w) d ->
  dict_lookup d "issues" = Some (PList (map PDict dis)) ->
  Exists (fun di => default PNone (dict_lookup di "title") = PNone) dis ->
  fst (save_analysis svc u req (PDict d) w) = Ret (PStr (uuid_of (next_uuid (w_db w)))) /\
  analyses (w_db (snd (save_analysis svc u req (PDict d) w))) =
    (analyses (w_db w) ++ [saved_row (w_db w) u req (summary_of d) (optimized_of d) (count_of d)])%list /\
  analysis_results (w_db (snd (save_analysis svc u req (PDict d) w))) = analysis_results (w_db w).
Proof.
  intros (Hon & Hpol & Hsm & Hoc & Hic & Hnd & Hfr & _) Hi Hex.
  unfold save_analysis, py_get. cbn [py_get_o]. rewrite !pbind_plift_Ret. cbv beta.
  erewrite pbind_run_ret; [|apply insert_parent_ok; done].
  cbv beta iota. unfold pbind.
  match goal with
  | |- context [insert_issues ?dt ?aid ?w1] =>
      destruct (insert_issues_title_missing d aid w1 dis Hi Hex) as [H1 H2];
      destruct (insert_issues dt aid w1) as [o w2]; simpl in H1, H2; subst o
  end.
  simpl. rewrite H2. split_and!; reflexivity.
Qed.

(** ** Concrete runs *)

Definition sample_service : SupabaseService := mk_service "https://project.supabase.co" "key".

Definition sample_request : Main.CodeAnalysisRequest := Main.mk_request "x = 1" "python" None.

Definition sample_world : world :=
  mk_world (mk_env (Some "https://project.supabase.co") (Some "eyJhbGciOiJIUzI1NiJ9.eyJyb2xlIjoic2VydmljZV9yb2xlIn0.c2ln") None) sample_db
           (fun _ => Completion []) [].

Definition overflow_data : pydict :=
  [("issues", PList []); ("summary", PStr "ok"); ("issues_count", PInt 4294967296%Z)].

Lemma save_analysis_count_overflow_witness :
  dict_lookup overflow_data "issues_count" = Some (PInt 4294967296%Z) /\
  in_int4 4294967296%Z = false /\
  (exists e, fst (save_analysis sample_service "u1" sample_request (PDict overflow_data) sample_world) = Raise e) /\
  w_db (snd (save_analysis sample_service "u1" sample_request (PDict overflow_data) sample_world)) =
    w_db sample_world.
Proof.
  split; [reflexivity|]. split; [reflexivity|].
  apply save_analysis_count_overflow with (z := 4294967296%Z); reflexivity.
Defined.


Definition no_return_world : world :=
  mk_world (w_env sample_world)
    (mk_db (analyses sample_db) (analysis_results sample_db) (next_uuid sample_db)
       (clock sample_db) true NoReturn Allow)
    (w_provider sample_world) [].

Definition two_issue_data : pydict :=
  [("issues", PList [PDict [("title", PStr "a")]; PDict [("title", PStr "b")]]);
   ("summary", PStr "ok"); ("issues_count", PInt 2%Z)].

Lemma save_analysis_no_data_returned_witness :
  fst (save_analysis sample_service "u1" sample_request (PDict two_issue_data) no_return_world) =
    Ret (PStr "error-saving-db") /\
  analyses (w_db (snd (save_analysis sample_service "u1" sample_request (PDict two_issue_data)
                         no_return_world))) =
    (analyses (w_db no_return_world) ++
     [saved_row (w_db no_return_world) "u1" sample_request (summary_of two_issue_data)
        (optimized_of two_issue_data) (count_of two_issue_data)])%list /\
  analysis_results (w_db (snd (save_analysis sample_service "u1" sample_request
                                 (PDict two_issue_data) no_return_world))) =
    analysis_results (w_db no_return_world) /\
  EvPrint LogNoDataReturned ∈
    w_log (snd (save_analysis sample_service "u1" sample_request (PDict two_issue_data) no_return_world)).
Proof.
  apply save_analysis_no_data_returned; try reflexivity.
  - apply NoDup_singleton.
  - simpl. rewrite list_elem_of_singleton. vm_compute. discriminate.
Defined.

Definition untitled_issue : pydict := [("description", PStr "d"); ("severity", PStr "low")].

Definition untitled_data : pydict :=
  [("issues", PList [PDict untitled_issue]); ("summary", PStr "ok")].

Lemma save_analysis_keeps_orphan_parent_witness :
  save_ready (w_db sample_world) untitled_data /\
  fst (save_analysis sample_service "u1" sample_request (PDict untitled_data) sample_world) =
    Ret (PStr (uuid_of (next_uuid (w_db sample_world)))) /\
  analyses (w_db (snd (save_analysis sample_service "u1" sample_request (PDict untitled_data)
                         sample_world))) =
    (analyses (w_db sample_world) ++
     [saved_row (w_db sample_world) "u1" sample_request (summary_of untitled_data)
        (optimized_of untitled_data) (count_of untitled_data)])%list /\
  analysis_results (w_db (snd (save_analysis sample_service "u1" sample_request
                                 (PDict untitled_data) sample_world))) =
    analysis_results (w_db sample_world).
Proof.
  assert (H : save_ready (w_db sample_world) untitled_data).
  { repeat split; try reflexivity.
    - apply NoDup_singleton.
    - simpl. rewrite list_elem_of_singleton. vm_compute. discriminate.
    - repeat constructor. }
  split; [exact H|].
  apply (save_analysis_keeps_orphan_parent _ _ _ _ _ [untitled_issue] H);
    [reflexivity | by apply Exists_cons_hd].
Defined.
