(* ===== verification/Startup.v ===== *)
(** * Process start-up: main.py lines 15-45

    Importing [main] runs, in order: [load_dotenv()], which copies the
    variables of the [.env] file into [os.environ] without overriding
    variables already set; two [os.getenv] calls and a warning for each of
    GROQ_API_KEY and SUPABASE_URL that is unset or empty; the FastAPI
    application with its CORS middleware; and [Groq(api_key=GROQ_API_KEY)].
    The Groq constructor falls back to the GROQ_API_KEY variable when
    [api_key] is [None] and raises [GroqError] when that is unset too, so
    the import fails after the warning.

    The process is a record: [os.environ] and the [.env] file (both as
    association lists; the file is taken already parsed, as
    [dotenv_values] returns it), and the printed lines.  The result of a
    successful start is the application's configuration and the [env]
    record ([Services]) that the request handlers read. *)

From S2P Require Import Prelude PyValue Services.
From stdpp Require Import base list strings sets.
From Stdlib Require Import String.

Open Scope string_scope.
Open Scope py_scope.

Record process : Type := mk_process {
  environ : list (string * string);
  dotenv_file : list (string * string);
  out : list string
}.

Inductive startup_exc : Type := GroqError (msg : string).

Abbreviation StM := (PyM startup_exc process).

Fixpoint assoc (l : list (string * string)) (k : string) : option string :=
  match l with
  | [] => None
  | (k', v) :: l' => if String.eqb k k' then Some v else assoc l' k
  end.

(** [dotenv_values]: a dict, so the last assignment of a key wins. *)
Definition dotenv_lookup (file : list (string * string)) (k : string) : option string :=
  assoc (rev file) k.

(** [os.getenv(k)] *)
Definition os_getenv (k : string) : StM (option string) :=
  fun p => (Ret (assoc (environ p) k), p).

Definition st_print (s : string) : StM unit :=
  pmodify (fun p => mk_process (environ p) (dotenv_file p) (out p ++ [s])%list).

(** The variables [load_dotenv()] adds: each key of the file that
    [os.environ] lacks, with the file's value ([override=False]). *)
Definition dotenv_added (p : process) : list (string * string) :=
  omap (fun k => (fun v => (k, v)) <$>
                 match assoc (environ p) k with
                 | Some _ => None
                 | None => dotenv_lookup (dotenv_file p) k
                 end)
       (remove_dups (map fst (dotenv_file p))).

(** [load_dotenv()] *)
Definition load_dotenv : StM unit :=
  pmodify (fun p => mk_process (environ p ++ dotenv_added p)%list (dotenv_file p) (out p)).

(** [if not X:] on the value of [os.getenv]: unset or empty. *)
Definition falsy_var (o : option string) : bool :=
  match o with None => true | Some s => String.eqb s "" end.

Record cors_config : Type := mk_cors {
  allow_origins : list string;
  allow_credentials : bool;
  allow_methods : list string;
  allow_headers : list string
}.

Record app_config : Type := mk_app {
  app_title : string;
  cors : cors_config;
  groq_api_key : string;
  handler_env : env
}.

Definition origins : list string := ["http://localhost:3000"; "http://127.0.0.1:3000"].

Definition cors_middleware : cors_config := mk_cors origins true ["*"] ["*"].

Definition groq_missing_key : string :=
  "The api_key client option must be set either by passing api_key to the client or by setting the GROQ_API_KEY environment variable".

(** [Groq(api_key=key)] *)
Definition groq_client (key : option string) : StM string :=
  match key with
  | Some k => pret k
  | None =>
      let* fallback := os_getenv "GROQ_API_KEY" in
      match fallback with
      | Some k => pret k
      | None => praise (GroqError groq_missing_key)
      end
  end.

(** Lines 15-45 of main.py, then the [env] the handlers see through
    [os.environ]. *)
Definition startup : StM app_config :=
  load_dotenv ;;;
  let* groq := os_getenv "GROQ_API_KEY" in
  let* supabase_url := os_getenv "SUPABASE_URL" in
  (if falsy_var groq then st_print "WARNING: GROQ_API_KEY not found in .env file." else pret tt) ;;;
  (if falsy_var supabase_url then st_print "WARNING: SUPABASE_URL not found in .env file." else pret tt) ;;;
  let* key := groq_client groq in
  let* url := os_getenv "SUPABASE_URL" in
  let* skey := os_getenv "SUPABASE_KEY" in
  let* gkey := os_getenv "GROQ_API_KEY" in
  pret (mk_app "AI Code Review Agent" cors_middleware key (mk_env url skey gkey)).

(** ** What the handlers see *)

(** The value of a variable after [load_dotenv()]: the process's own, or
    else the file's last assignment. *)
Definition effective (p : process) (k : string) : option string :=
  match assoc (environ p) k with
  | Some v => Some v
  | None => dotenv_lookup (dotenv_file p) k
  end.

Lemma assoc_app l1 l2 k :
  assoc (l1 ++ l2)%list k = match assoc l1 k with Some v => Some v | None => assoc l2 k end.
Proof. induction l1 as [|[k' v] l1 IH]; simpl; [done|]. by destruct (String.eqb k k'). Qed.

Lemma assoc_not_key l k : k ∉ map fst l -> assoc l k = None.
Proof.
  induction l as [|[k' v] l IH]; simpl; [done|].
  intros Hk. apply not_elem_of_cons in Hk as [Hne Hk].
  destruct (String.eqb_spec k k'); [congruence | by apply IH].
Qed.

Lemma assoc_omap_keys (ks : list string) (g : string -> option string) k :
  NoDup ks ->
  assoc (omap (fun k' => (fun v => (k', v)) <$> g k') ks) k =
    if bool_decide (k ∈ ks) then g k else None.
Proof.
  induction 1 as [|k' ks Hk' _ IH]; simpl; [done|].
  destruct (g k') as [v|] eqn:Hg; simpl;
    destruct (String.eqb_spec k k') as [->|Hne];
    try (rewrite bool_decide_true by set_solver; by rewrite Hg);
    (etransitivity; [exact IH|]); repeat case_bool_decide; try done; set_solver.
Qed.

(** After [load_dotenv()], [os.getenv] sees the effective value. *)
Lemma load_dotenv_assoc p k :
  assoc (environ p ++ dotenv_added p)%list k = effective p k.
Proof.
  unfold effective, dotenv_added. rewrite assoc_app.
  destruct (assoc (environ p) k) as [v|] eqn:He; [done|].
  rewrite assoc_omap_keys by apply NoDup_remove_dups. rewrite He.
  case_bool_decide as Hin; [done|].
  unfold dotenv_lookup. symmetry. apply assoc_not_key.
  rewrite elem_of_remove_dups in Hin. rewrite map_rev, list_elem_of_In, <- in_rev.
  by rewrite <- list_elem_of_In.
Qed.

Ltac startup_step :=
  cbn -[assoc dotenv_added falsy_var]; rewrite ?load_dotenv_assoc.

(** C28: Start-up, against the effective environment ([os.environ], else
    the [.env] file): a warning is printed for GROQ_API_KEY and for
    SUPABASE_URL exactly when the variable is unset or empty, in that
    order.  The import then fails with [GroqError] exactly when
    GROQ_API_KEY is unset (an empty key passes).  Otherwise the
    application is configured with the key, and the handlers see the
    effective SUPABASE_URL, SUPABASE_KEY and GROQ_API_KEY. *)
Theorem startup_spec p :
  out (snd (startup p)) =
    (out p ++
     (if falsy_var (effective p "GROQ_API_KEY")
      then ["WARNING: GROQ_API_KEY not found in .env file."] else []) ++
     (if falsy_var (effective p "SUPABASE_URL")
      then ["WARNING: SUPABASE_URL not found in .env file."] else []))%list /\
  fst (startup p) =
    match effective p "GROQ_API_KEY" with
    | Some k => Ret (mk_app "AI Code Review Agent" cors_middleware k
                      (mk_env (effective p "SUPABASE_URL") (effective p "SUPABASE_KEY") (Some k)))
    | None => Raise (GroqError groq_missing_key)
    end.
Proof.
  unfold startup, pbind, load_dotenv, pmodify, os_getenv, pret, st_print, groq_client, praise.
  startup_step.
  destruct (falsy_var (effective p "GROQ_API_KEY")), (falsy_var (effective p "SUPABASE_URL"));
    startup_step; destruct (effective p "GROQ_API_KEY") eqn:Hg; startup_step; rewrite ?Hg;
    rewrite ?app_nil_r, <- ?app_assoc; split; reflexivity.
Qed.
