(* ===== verification/Analyze.v ===== *)
(** * The review orchestrator: [analyze_code] (main.py)

    The POST /api/v1/analyze handler, statement by statement: the blank
    check ([if not request.code.strip()], 400), the fixed system prompt
    and the user prompt, the call to the provider (the world's
    [w_provider]) with the model name, temperature and JSON response
    format of the source, [choices[0].message.content], [json.loads]
    (a parameter [json_loads] of the section, so that the theorems hold
    for any decoder: [None] is a [JSONDecodeError]; the concrete runs use
    the decoder of [Json]), the best-effort save through [SupabaseService]
    whose every exception is printed and swallowed, the assembly of the
    [APIResponse] (defaults for [optimized_code] and [summary],
    [issues_count = len(issues)], pydantic validation of [AnalysisData]),
    and the two [except] clauses that map a [JSONDecodeError] and any
    other exception to HTTP 500. *)

From S2P Require Import Prelude PyString PyValue Json Schema Store Services.
From stdpp Require Import base list strings sets.
From Stdlib Require Import ZArith QArith String Ascii.

Open Scope string_scope.

(** ** Prompts *)

Definition dq : string := String (ascii_of_nat 34) EmptyString.
Definition nl : string := String (ascii_of_nat 10) EmptyString.

Fixpoint join_lines (ls : list string) : string :=
  match ls with
  | [] => ""
  | [l] => l
  | l :: ls' => l ++ nl ++ join_lines ls'
  end.

(** The triple-quoted [system_prompt], line by line (the indentation is
    part of the string). *)
Definition system_prompt : string :=
  join_lines [
     "";
     "    You are an expert code reviewer and senior software engineer.";
     "    Analyze the provided code for bugs, security vulnerabilities, performance issues, and best practices.";
     "    ";
     "    You MUST output your response in valid JSON format exactly matching this structure:";
     "    {";
     "        " ++ dq ++ "issues" ++ dq ++ ": [";
     "            {";
     "                " ++ dq ++ "issue_type" ++ dq ++ ": " ++ dq ++ "bug" ++ dq ++ " | " ++ dq ++ "security" ++ dq ++ " | " ++ dq ++ "performance" ++ dq ++ " | " ++ dq ++ "style" ++ dq ++ ",";
     "                " ++ dq ++ "severity" ++ dq ++ ": " ++ dq ++ "critical" ++ dq ++ " | " ++ dq ++ "high" ++ dq ++ " | " ++ dq ++ "medium" ++ dq ++ " | " ++ dq ++ "low" ++ dq ++ ",";
     "                " ++ dq ++ "title" ++ dq ++ ": " ++ dq ++ "Short title of the issue" ++ dq ++ ",";
     "                " ++ dq ++ "description" ++ dq ++ ": " ++ dq ++ "Detailed explanation" ++ dq ++ ",";
     "                " ++ dq ++ "line_number" ++ dq ++ ": <integer or null>,";
     "                " ++ dq ++ "suggestion" ++ dq ++ ": " ++ dq ++ "How to fix it" ++ dq;
     "            }";
     "        ],";
     "        " ++ dq ++ "optimized_code" ++ dq ++ ": " ++ dq ++ "<The FULL fixed code. Do not truncate.>" ++ dq ++ ",";
     "        " ++ dq ++ "summary" ++ dq ++ ": " ++ dq ++ "A brief 2-sentence summary of the code quality." ++ dq ++ ",";
     "        " ++ dq ++ "issues_count" ++ dq ++ ": <integer>";
     "    }";
     "    ";
     "    Do not include any markdown formatting (like ```json). Return ONLY the raw JSON string.";
     "    "].

(** [f"Language: {request.language}\n\nCode:\n{request.code}"] *)
Definition user_prompt (request : Main.CodeAnalysisRequest) : string :=
  "Language: " ++ Main.language request ++ nl ++ nl ++ "Code:" ++ nl ++ Main.code request.

Definition completion_args (request : Main.CodeAnalysisRequest) : completion_request :=
  mk_completion_request
    [mk_message "system" system_prompt; mk_message "user" (user_prompt request)]
    "llama-3.3-70b-versatile" (1 # 10) "json_object".

(** [client.chat.completions.create(...)]: one provider call. *)
Definition call_provider (r : completion_request) : M provider_reply :=
  let* w := pget in
  emit (EvProvider r) ;;; pret (w_provider w r).

(** [chat_completion.choices[0].message.content] *)
Definition first_content_o (reply : provider_reply) : outcome py_exc (option string) :=
  match reply with
  | ProviderFailure e => Raise e
  | Completion [] => Raise IndexError
  | Completion (c :: _) => Ret c
  end.

(** [if not request.code.strip()] *)
Definition is_blank (code : string) : bool := negb (py_truthy (PStr (py_strip code))).

(** The two [except] clauses of [analyze_code]. *)
Definition except_outcome (e : py_exc) : py_exc :=
  match e with
  | JSONDecodeError => HTTPException 500 (DetailText "AI returned invalid JSON format.")
  | _ => HTTPException 500 (DetailAnalysisFailed e)
  end.

Definition analyze_except {A} (e : py_exc) : M A :=
  match e with
  | JSONDecodeError => praise (except_outcome e)
  | _ => print (LogAnalysisError e) ;;; praise (except_outcome e)
  end.

Section Analyze.
(** [json.loads]: [None] when the text is not JSON. *)
Context (json_loads : string -> option pyval).

Definition json_loads_o (content : option string) : outcome py_exc pyval :=
  match content with
  | None => Raise (TypeError "the JSON object must be str, bytes or bytearray, not NoneType")
  | Some s =>
      match json_loads s with
      | Some v => Ret v
      | None => Raise JSONDecodeError
      end
  end.

(** The inner [try]: construct the service and save; any exception is
    printed and the response goes on. *)
Definition save_best_effort (x_user_id : string) (request : Main.CodeAnalysisRequest)
    (data : pyval) : M unit :=
  ptry (let* svc := SupabaseService_init in
        save_analysis svc x_user_id request data ;;;
        print (LogSaved x_user_id))
       (fun db_error => print (LogSaveFailed db_error)).

(** [APIResponse(analysis=AnalysisData(...), code_snippet=request.code)]:
    the keyword arguments are evaluated in order, then validated. *)
Definition assemble_response (request : Main.CodeAnalysisRequest) (data : pyval)
    : outcome py_exc Main.APIResponse :=
  let? issues_v := py_get_o data "issues" (PList []) in
  let? optimized_v := py_get_o data "optimized_code" (PStr (Main.code request)) in
  let? summary_v := py_get_o data "summary" (PStr "Analysis complete.") in
  let? issues_again := py_get_o data "issues" (PList []) in
  let? n := py_len_o issues_again in
  let? analysis := vres_to_outcome "AnalysisData"
                     (Main.validate_analysis_data issues_v optimized_v summary_v (Z.of_nat n)) in
  Ret (Main.mk_api_response analysis (Some (Main.code request))).

Definition analyze_code (request : Main.CodeAnalysisRequest) (x_user_id : string)
    : M Main.APIResponse :=
  if is_blank (Main.code request) then
    praise (HTTPException 400 (DetailText "Code cannot be empty"))
  else
    ptry (let* chat_completion := call_provider (completion_args request) in
          let* response_content := plift (first_content_o chat_completion) in
          let* data := plift (json_loads_o response_content) in
          save_best_effort x_user_id request data ;;;
          plift (assemble_response request data))
         analyze_except.

(** ** The contract of the endpoint

    The answer is a function of the request and of the provider's reply
    alone: the store, its configuration and the outcome of the save do
    not appear. *)
Definition analyze_spec (request : Main.CodeAnalysisRequest) (reply : provider_reply)
    : outcome py_exc Main.APIResponse :=
  if is_blank (Main.code request) then
    Raise (HTTPException 400 (DetailText "Code cannot be empty"))
  else
    match (let? content := first_content_o reply in
           let? data := json_loads_o content in
           assemble_response request data) with
    | Ret r => Ret r
    | Raise e => Raise (except_outcome e)
    end.
End Analyze.

(** ** Running the handler *)

Lemma call_provider_run r w :
  call_provider r w =
    (Ret (w_provider w r), mk_world (w_env w) (w_db w) (w_provider w) (w_log w ++ [EvProvider r])).
Proof. reflexivity. Qed.

Lemma analyze_except_fst {A} e w : fst (analyze_except (A:=A) e w) = Raise (except_outcome e).
Proof. destruct e; reflexivity. Qed.

Lemma save_best_effort_ret u req data w : fst (save_best_effort u req data w) = Ret tt.
Proof.
  unfold save_best_effort, ptry.
  match goal with |- context [match ?m with _ => _ end] => destruct m as [[[]|e] w'] end;
  reflexivity.
Qed.

(** [is_blank] is the all-whitespace test. *)
Lemma is_blank_spec code :
  is_blank code = true <-> all_space (list_ascii_of_string code).
Proof.
  rewrite <- py_strip_empty_iff. unfold is_blank. simpl.
  rewrite negb_involutive. apply String.eqb_eq.
Qed.


(** The blank check of analyze_code holds exactly when every character of the code is whitespace. *)
Lemma is_blank_iff code :
  is_blank code = true <-> all_space (list_ascii_of_string code).
Proof. by apply is_blank_spec. Qed.
Section AnalyzeFacts.
Context (json_loads : string -> option pyval).

(** The handler computes its contract. *)
Lemma analyze_code_contract req u w :
  fst (analyze_code json_loads req u w) =
    analyze_spec json_loads req (w_provider w (completion_args req)).
Proof.
  unfold analyze_code, analyze_spec.
  destruct (is_blank (Main.code req)); [reflexivity|].
  unfold ptry. rewrite (pbind_run_ret _ _ _ _ _ (call_provider_run _ _)).
  destruct (first_content_o _) as [c|e]; simpl obind;
    [rewrite pbind_plift_Ret | rewrite pbind_plift_Raise; apply analyze_except_fst].
  destruct (json_loads_o json_loads c) as [data|e]; simpl obind;
    [rewrite pbind_plift_Ret | rewrite pbind_plift_Raise; apply analyze_except_fst].
  unfold pbind at 1.
  match goal with |- context [save_best_effort ?x ?r ?d ?w1] =>
    pose proof (save_best_effort_ret x r d w1) as Hs;
    destruct (save_best_effort x r d w1) as [o w2]; simpl in Hs; subst o
  end.
  destruct (assemble_response req data) as [resp|e];
    [reflexivity | apply analyze_except_fst].
Qed.


(** C2: The answer of the handler is the contract's answer for the reply
    the provider gives: whatever the store does, and whatever its
    configuration, the caller sees the same response. *)
Theorem analyze_code_refines req u w :
  fst (analyze_code json_loads req u w) =
    analyze_spec json_loads req (w_provider w (completion_args req)).
Proof. by apply analyze_code_contract. Qed.
Lemma assemble_response_count req data resp :
  assemble_response req data = Ret resp ->
  Main.issues_count (Main.analysis resp) =
    Z.of_nat (List.length (Main.issues (Main.analysis resp))).
Proof.
  unfold assemble_response. intros H.
  destruct data as [| | | | | |d]; simpl in H; try discriminate.
  apply obind_Ret_inv in H as (n & Hn & H).
  apply obind_Ret_inv in H as (a & Ha & H). injection H as <-. simpl.
  apply MainFacts.vres_to_outcome_Ret, MainFacts.validate_analysis_data_Valid in Ha
    as [Hl ->].
  apply v_list_len in Hl. unfold py_len_o in Hn. rewrite Hl in Hn. by simplify_eq.
Qed.

(** Every answer of the contract reports as [issues_count] the number
    of issues it carries, whatever count the model wrote. *)
Lemma analyze_spec_count req reply resp :
  analyze_spec json_loads req reply = Ret resp ->
  Main.issues_count (Main.analysis resp) =
    Z.of_nat (List.length (Main.issues (Main.analysis resp))).
Proof.
  unfold analyze_spec. destruct (is_blank _); [discriminate|].
  destruct (first_content_o reply) as [c|]; simpl; [|discriminate].
  destruct (json_loads_o json_loads c) as [data|]; simpl; [|discriminate].
  destruct (assemble_response req data) eqn:Ha; [|discriminate].
  intros [= <-]. by eapply assemble_response_count.
Qed.

(** C1: A successful analysis answers with [issues_count = len(issues)],
    whatever count the model reported. *)
Theorem analyze_code_issues_count req u w resp w' :
  analyze_code json_loads req u w = (Ret resp, w') ->
  Main.issues_count (Main.analysis resp) =
    Z.of_nat (List.length (Main.issues (Main.analysis resp))).
Proof.
  intros H. apply (analyze_spec_count req (w_provider w (completion_args req))).
  by rewrite <- (analyze_code_contract req u w), H.
Qed.

(** The 400 branch of the handler. *)
Lemma analyze_code_blank_run req u w :
  all_space (list_ascii_of_string (Main.code req)) ->
  analyze_code json_loads req u w =
    (Raise (HTTPException 400 (DetailText "Code cannot be empty")), w).
Proof. intros H. apply is_blank_spec in H. unfold analyze_code. by rewrite H. Qed.

(** C4: A reply that is not JSON gives 500 with the invalid-JSON detail;
    the only effect is the provider call: nothing is written. *)
Theorem analyze_code_invalid_json req u w txt rest :
  is_blank (Main.code req) = false ->
  w_provider w (completion_args req) = Completion (Some txt :: rest) ->
  json_loads txt = None ->
  analyze_code json_loads req u w =
    (Raise (HTTPException 500 (DetailText "AI returned invalid JSON format.")),
     mk_world (w_env w) (w_db w) (w_provider w) (w_log w ++ [EvProvider (completion_args req)])).
Proof.
  intros Hb Hp Hj. unfold analyze_code. rewrite Hb.
  unfold ptry. rewrite (pbind_run_ret _ _ _ _ _ (call_provider_run _ _)). simpl.
  rewrite Hp. simpl. rewrite pbind_plift_Ret. unfold json_loads_o. rewrite Hj.
  rewrite pbind_plift_Raise. reflexivity.
Qed.


(** C3: A blank submission is answered 400 before anything else happens:
    the world, and with it the log of provider and store calls, is
    unchanged. *)
Theorem analyze_code_blank req u w :
  all_space (list_ascii_of_string (Main.code req)) ->
  analyze_code json_loads req u w =
    (Raise (HTTPException 400 (DetailText "Code cannot be empty")), w).
Proof. by apply analyze_code_blank_run. Qed.
(** An explicit [null] for [optimized_code] is not replaced by the
    default of [data.get("optimized_code", request.code)]: the [None]
    reaches [AnalysisData], which rejects it. *)
Lemma assemble_response_optimized_null req d :
  dict_lookup d "optimized_code" = Some PNone ->
  is_Some (py_len (default (PList []) (dict_lookup d "issues"))) ->
  exists errs, assemble_response req (PDict d) = Raise (ValidationError "AnalysisData" errs) /\
    mk_verr [LocKey "optimized_code"] StringType ∈ errs.
Proof.
  intros Hopt [n Hn]. unfold assemble_response. cbn [obind py_get_o].
  rewrite Hopt. unfold py_len_o. rewrite Hn. cbn [obind default].
  pose proof (MainFacts.validate_analysis_data_optimized_not_str
    (default (PList []) (dict_lookup d "issues")) PNone
    (default (PStr "Analysis complete.") (dict_lookup d "summary")) (Z.of_nat n)) as Hr.
  change (id PNone) with PNone.
  specialize (Hr ltac:(discriminate)).
  destruct (Main.validate_analysis_data _ _ _ _); simpl in *; [done | by eexists].
Qed.

(** C20: When the model answers ["optimized_code": null] (with [issues] a
    list or absent), the caller gets 500 "Analysis failed" carrying the
    validation error on [optimized_code]: the fallback to the submitted
    code applies only to a missing key. *)
Theorem analyze_code_null_optimized req u w txt rest d :
  is_blank (Main.code req) = false ->
  w_provider w (completion_args req) = Completion (Some txt :: rest) ->
  json_loads txt = Some (PDict d) ->
  dict_lookup d "optimized_code" = Some PNone ->
  is_Some (py_len (default (PList []) (dict_lookup d "issues"))) ->
  exists errs,
    fst (analyze_code json_loads req u w) =
      Raise (HTTPException 500 (DetailAnalysisFailed (ValidationError "AnalysisData" errs))) /\
    mk_verr [LocKey "optimized_code"] StringType ∈ errs.
Proof.
  intros Hb Hp Hj Hopt Hlen. rewrite analyze_code_contract. unfold analyze_spec.
  rewrite Hb, Hp. cbn [first_content_o obind]. unfold json_loads_o. rewrite Hj.
  cbn [obind]. destruct (assemble_response_optimized_null req d Hopt Hlen) as (errs & -> & Hin).
  by exists errs.
Qed.

(** The best-effort save on a configured service and a store ready for
    the parent row: the [analyses] row is committed, whatever happens
    to the issue rows. *)
Lemma save_best_effort_analyses u req d w :
  env_ready (w_env w) -> save_ready (w_db w) d ->
  analyses (w_db (snd (save_best_effort u req (PDict d) w))) =
    (analyses (w_db w) ++ [saved_row (w_db w) u req (summary_of d) (optimized_of d) (count_of d)])%list.
Proof.
  intros He Hr. destruct (SupabaseService_init_ok w He) as [svc Hs].
  pose proof (proj1 (save_analysis_analyses svc u req d w Hr)) as Ha.
  unfold save_best_effort, ptry. rewrite (pbind_run_ret _ _ _ _ _ Hs).
  unfold pbind at 1. destruct (save_analysis svc u req (PDict d) w) as [[[]|e] w2]; exact Ha.
Qed.

(** C6: The analysis is persisted before the reply is validated: on a
    configured service and a store that accepts the row, the [analyses]
    row (with the model's [summary], [optimized_code] and its own
    [issues_count]) is committed, and the caller gets whatever the
    assembly of the reply gives, a 500 when [AnalysisData] rejects it
    included.  The specification persists only on success. *)
Theorem analyze_code_saves_before_validation req u w txt rest d :
  is_blank (Main.code req) = false -> env_ready (w_env w) ->
  w_provider w (completion_args req) = Completion (Some txt :: rest) ->
  json_loads txt = Some (PDict d) -> save_ready (w_db w) d ->
  analyses (w_db (snd (analyze_code json_loads req u w))) =
    (analyses (w_db w) ++ [saved_row (w_db w) u req (summary_of d) (optimized_of d) (count_of d)])%list /\
  fst (analyze_code json_loads req u w) =
    match assemble_response req (PDict d) with Ret r => Ret r | Raise e => Raise (except_outcome e) end.
Proof.
  intros Hb He Hp Hj Hr. split.
  - unfold analyze_code. rewrite Hb. unfold ptry.
    rewrite (pbind_run_ret _ _ _ _ _ (call_provider_run _ _)). rewrite Hp. cbn [first_content_o].
    rewrite pbind_plift_Ret. unfold json_loads_o. rewrite Hj, pbind_plift_Ret.
    unfold pbind at 1.
    match goal with |- context [save_best_effort ?x ?r ?dt ?w1] =>
      pose proof (save_best_effort_ret x r dt w1) as Hs;
      pose proof (save_best_effort_analyses x r d w1 He Hr) as Ha;
      destruct (save_best_effort x r dt w1) as [o w2]; simpl in Hs; subst o
    end.
    destruct (assemble_response req (PDict d)) as [resp|e]; [exact Ha|].
    destruct e; exact Ha.
  - rewrite analyze_code_contract. unfold analyze_spec. rewrite Hb, Hp.
    cbn [first_content_o obind]. unfold json_loads_o. by rewrite Hj.
Qed.
End AnalyzeFacts.

(** ** The scenario of the specification

    Request [{code: "def f(): pass", language: "python"}] from user
    ["u1"], and a provider whose reply is the JSON text
    [{"issues": [{"issue_type": "style", "severity": "low", "title": "t",
    "description": "d"}], "optimized_code": "def f():\n    pass",
    "summary": "ok"}]: the reply has no [issues_count].  The runs use
    the decoder of [Json], which reads that text as the corresponding
    dict. *)

Definition scenario_request : Main.CodeAnalysisRequest :=
  Main.mk_request "def f(): pass" "python" None.

Definition scenario_text : string :=
  "{" ++ dq ++ "issues" ++ dq ++ ": [{" ++ dq ++ "issue_type" ++ dq ++ ":" ++ dq ++ "style" ++ dq ++
  "," ++ dq ++ "severity" ++ dq ++ ":" ++ dq ++ "low" ++ dq ++ "," ++ dq ++ "title" ++ dq ++ ":" ++
  dq ++ "t" ++ dq ++ "," ++ dq ++ "description" ++ dq ++ ":" ++ dq ++ "d" ++ dq ++ "}], " ++
  dq ++ "optimized_code" ++ dq ++ ":" ++ dq ++ "def f():\n    pass" ++ dq ++ ", " ++
  dq ++ "summary" ++ dq ++ ":" ++ dq ++ "ok" ++ dq ++ "}".

Definition scenario_data : pyval :=
  PDict [("issues", PList [PDict [("issue_type", PStr "style"); ("severity", PStr "low");
                                  ("title", PStr "t"); ("description", PStr "d")]]);
         ("optimized_code", PStr ("def f():" ++ nl ++ "    pass"));
         ("summary", PStr "ok")].

Definition scenario_world : world :=
  mk_world (mk_env (Some "https://project.supabase.co") (Some "eyJhbGciOiJIUzI1NiJ9.eyJyb2xlIjoic2VydmljZV9yb2xlIn0.c2ln") (Some "groq-key"))
           (mk_db [] [] 0%N 0%Z true Allow Allow)
           (fun _ => Completion [Some scenario_text])
           [].

Definition scenario_run : outcome py_exc Main.APIResponse * world :=
  analyze_code json_loads scenario_request "u1" scenario_world.

(** ** Concrete runs *)

Definition scenario_dict : pydict :=
  match scenario_data with PDict d => d | _ => [] end.

Definition scenario_service : SupabaseService :=
  mk_service "https://project.supabase.co" "eyJhbGciOiJIUzI1NiJ9.eyJyb2xlIjoic2VydmljZV9yb2xlIn0.c2ln".

(** A provider whose reply is not JSON. *)
Definition garbled_world : world :=
  mk_world (w_env scenario_world) (w_db scenario_world)
           (fun _ => Completion [Some "Sure! Here is the review:"]) [].

Definition blank_request : Main.CodeAnalysisRequest :=
  Main.mk_request (" " ++ nl ++ "   ") "python" None.

Lemma analyze_code_issues_count_witness :
  exists resp w', scenario_run = (Ret resp, w') /\
    Main.issues_count (Main.analysis resp) =
      Z.of_nat (List.length (Main.issues (Main.analysis resp))).
Proof.
  destruct scenario_run as [[resp|e] w'] eqn:E.
  - exists resp, w'. split; [reflexivity|].
    exact (analyze_code_issues_count json_loads _ _ _ _ _ E).
  - vm_compute in E. discriminate.
Defined.

Lemma analyze_code_blank_witness :
  all_space (list_ascii_of_string (Main.code blank_request)) /\
  analyze_code json_loads blank_request "u1" scenario_world =
    (Raise (HTTPException 400 (DetailText "Code cannot be empty")), scenario_world).
Proof.
  assert (H : all_space (list_ascii_of_string (Main.code blank_request)))
    by (vm_compute; repeat constructor).
  split; [exact H | exact (analyze_code_blank json_loads _ _ _ H)].
Defined.

Lemma analyze_code_invalid_json_witness :
  is_blank (Main.code scenario_request) = false /\
  w_provider garbled_world (completion_args scenario_request) =
    Completion [Some "Sure! Here is the review:"] /\
  json_loads "Sure! Here is the review:" = None /\
  analyze_code json_loads scenario_request "u1" garbled_world =
    (Raise (HTTPException 500 (DetailText "AI returned invalid JSON format.")),
     mk_world (w_env garbled_world) (w_db garbled_world) (w_provider garbled_world)
       (w_log garbled_world ++ [EvProvider (completion_args scenario_request)])).
Proof.
  split; [reflexivity|]. split; [reflexivity|]. split; [vm_compute; reflexivity|].
  apply analyze_code_invalid_json with (txt := "Sure! Here is the review:") (rest := []);
    [reflexivity|reflexivity|vm_compute; reflexivity].
Defined.

Lemma save_then_history_witness :
  save_ready (w_db scenario_world) scenario_dict /\
  fst (get_history scenario_service "u1"
         (snd (save_analysis scenario_service "u1" scenario_request (PDict scenario_dict) scenario_world))) =
  Ret (PList (analyses_row_to_py (saved_row (w_db scenario_world) "u1" scenario_request
                (summary_of scenario_dict) (optimized_of scenario_dict) (count_of scenario_dict))
              :: map analyses_row_to_py (sort_desc (rows_of_user "u1" (analyses (w_db scenario_world)))))).
Proof.
  assert (H : save_ready (w_db scenario_world) scenario_dict).
  { repeat split; try reflexivity; try constructor. simpl. intros Hin. inversion Hin. }
  split; [exact H | exact (save_then_history _ _ _ _ _ H)].
Defined.

(** ** Persisting before validating *)

(** The scenario's reply with an [issue_type] outside the [Literal]. *)
Definition typo_data : pyval :=
  PDict [("issues", PList [PDict [("issue_type", PStr "typo"); ("severity", PStr "low");
                                  ("title", PStr "t"); ("description", PStr "d")]]);
         ("summary", PStr "ok")].

(** ** An explicit null in the reply *)

Definition null_optimized_dict : pydict :=
  [("issues", PList []); ("optimized_code", PNone); ("summary", PStr "ok")].

Lemma analyze_code_null_optimized_witness :
  exists errs,
    fst (analyze_code (fun _ => Some (PDict null_optimized_dict)) scenario_request "u1"
           scenario_world) =
      Raise (HTTPException 500 (DetailAnalysisFailed (ValidationError "AnalysisData" errs))) /\
    mk_verr [LocKey "optimized_code"] StringType ∈ errs.
Proof.
  apply (analyze_code_null_optimized (fun _ => Some (PDict null_optimized_dict))
           scenario_request "u1" scenario_world scenario_text [] null_optimized_dict);
    [vm_compute; reflexivity | reflexivity | reflexivity | reflexivity | by eexists].
Defined.

Lemma scenario_env_ready : env_ready (w_env scenario_world).
Proof. do 2 eexists. split_and!; reflexivity || discriminate. Qed.

Definition typo_dict : pydict :=
  match typo_data with PDict d => d | _ => [] end.

Lemma analyze_code_saves_before_validation_witness :
  is_blank (Main.code scenario_request) = false /\ env_ready (w_env scenario_world) /\
  save_ready (w_db scenario_world) typo_dict /\
  analyses (w_db (snd (analyze_code (fun _ => Some typo_data) scenario_request "u1" scenario_world))) =
    (analyses (w_db scenario_world) ++
     [saved_row (w_db scenario_world) "u1" scenario_request (summary_of typo_dict)
        (optimized_of typo_dict) (count_of typo_dict)])%list /\
  fst (analyze_code (fun _ => Some typo_data) scenario_request "u1" scenario_world) =
    match assemble_response scenario_request (PDict typo_dict) with
    | Ret r => Ret r
    | Raise e => Raise (except_outcome e)
    end.
Proof.
  assert (Hb : is_blank (Main.code scenario_request) = false) by reflexivity.
  assert (Hr : save_ready (w_db scenario_world) typo_dict).
  { repeat split; try reflexivity; try constructor. simpl. intros Hin. inversion Hin. }
  split_and!; [exact Hb | exact scenario_env_ready | exact Hr|..];
    exact (proj1 (analyze_code_saves_before_validation (fun _ => Some typo_data) _ _ _
             scenario_text [] typo_dict Hb scenario_env_ready eq_refl eq_refl Hr))
    || exact (proj2 (analyze_code_saves_before_validation (fun _ => Some typo_data) _ _ _
             scenario_text [] typo_dict Hb scenario_env_ready eq_refl eq_refl Hr)).
Defined.
