(* ===== verification/Http.v ===== *)
(** * The HTTP surface (main.py)

    The three routes of the FastAPI application: [read_root] (GET /),
    [analyze_code] (POST /api/v1/analyze) and [get_history] (GET
    /api/v1/history), with what FastAPI does around a handler: the JSON
    body is validated against [CodeAnalysisRequest] (422 on failure), the
    [X-User-ID] header is read case-insensitively with the default
    ["demo-user"], an [HTTPException] becomes its status and detail, any
    other escaping exception a 500, and the value a handler returns is
    validated against the route's [response_model] and written as JSON.
    Unknown paths are 404, a known path with another method 405. *)

From S2P Require Import Prelude PyString PyValue Json Schema Store Services Analyze.
From stdpp Require Import base list strings.
From Stdlib Require Import ZArith String Ascii.

Open Scope string_scope.

Inductive http_method : Type := GET | POST.

Record http_request : Type := mk_http_request {
  method : http_method;
  path : string;
  headers : list (string * string);
  body : option pyval
}.

Inductive http_response : Type :=
| JsonResponse (status : Z) (content : pyval)
| ErrorResponse (status : Z) (detail : http_detail)
| ValidationErrorResponse (errs : list verr).

(** ** The [X-User-ID] header *)

Definition ascii_lower (c : ascii) : ascii :=
  let n := nat_of_ascii c in
  if ((65 <=? n) && (n <=? 90))%nat then ascii_of_nat (n + 32) else c.

Definition string_lower (s : string) : string :=
  string_of_list_ascii (map ascii_lower (list_ascii_of_string s)).

Fixpoint header_lookup (hs : list (string * string)) (name : string) : option string :=
  match hs with
  | [] => None
  | (k, v) :: hs' =>
      if String.eqb (string_lower k) (string_lower name) then Some v else header_lookup hs' name
  end.

(** [x_user_id: str = Header("demo-user", alias="X-User-ID")] *)
Definition x_user_id (hs : list (string * string)) : string :=
  default "demo-user" (header_lookup hs "X-User-ID").

(** ** Handlers *)

(** [read_root] *)
Definition read_root : pyval :=
  PDict [("status", PStr "Backend is running"); ("service", PStr "Code Analysis Agent")].

(** What FastAPI answers for an exception that escapes a handler. *)
Definition exception_response (e : py_exc) : http_response :=
  match e with
  | HTTPException st d => ErrorResponse st d
  | _ => ErrorResponse 500 (DetailText "Internal Server Error")
  end.

(** [get_history] of main.py: construct the service and read; an
    exception becomes [HTTPException(500, str(e))]. *)
Definition get_history_route (x_user : string) : M pyval :=
  ptry (let* svc := SupabaseService_init in get_history svc x_user)
       (fun e => praise (HTTPException 500 (DetailExcStr e))).

Section Routes.
Context (json_loads : string -> option pyval).

Definition validate_body (b : option pyval) : vres Main.CodeAnalysisRequest :=
  match b with
  | None => verror [LocKey "body"] Missing
  | Some v => Main.validate_request v
  end.

Definition analyze_route (hs : list (string * string)) (b : option pyval) : M http_response :=
  match validate_body b with
  | Invalid errs => pret (ValidationErrorResponse errs)
  | Valid request =>
      fun w =>
        match analyze_code json_loads request (x_user_id hs) w with
        | (Ret resp, w') => (Ret (JsonResponse 200 (Main.dump_api_response resp)), w')
        | (Raise e, w') => (Ret (exception_response e), w')
        end
  end.

(** [response_model=List[DBAnalysisRecord]]: the rows are validated
    before they are written; a row that does not fit is a server error. *)
Definition history_route (hs : list (string * string)) : M http_response :=
  fun w =>
    match get_history_route (x_user_id hs) w with
    | (Ret rows, w') =>
        match Models.validate_records rows with
        | Valid recs => (Ret (JsonResponse 200 (PList (map Models.dump_record recs))), w')
        | Invalid _ => (Ret (ErrorResponse 500 (DetailText "Internal Server Error")), w')
        end
    | (Raise e, w') => (Ret (exception_response e), w')
    end.

Definition handle (req : http_request) : M http_response :=
  let p := path req in
  if String.eqb p "/" then
    match method req with
    | GET => pret (JsonResponse 200 read_root)
    | POST => pret (ErrorResponse 405 (DetailText "Method Not Allowed"))
    end
  else if String.eqb p "/api/v1/analyze" then
    match method req with
    | POST => analyze_route (headers req) (body req)
    | GET => pret (ErrorResponse 405 (DetailText "Method Not Allowed"))
    end
  else if String.eqb p "/api/v1/history" then
    match method req with
    | GET => history_route (headers req)
    | POST => pret (ErrorResponse 405 (DetailText "Method Not Allowed"))
    end
  else pret (ErrorResponse 404 (DetailText "Not Found")).
End Routes.

(** ** Properties of the routes *)

(** The record the response model makes of a stored row. *)
Definition record_of_row (r : analyses_row) : Models.DBAnalysisRecord :=
  Models.mk_record (a_id r) (a_user_id r) (a_code_snippet r) (a_language r) (a_file_name r)
    (a_summary r) (a_optimized_code r) (a_issues_count r) (py_str_of_int (a_created_at r)).

(** Every row the store hands back passes [DBAnalysisRecord]. *)
Lemma validate_row loc r :
  Models.validate_record loc (analyses_row_to_py r) = Valid (record_of_row r).
Proof.
  destruct r as [i u c l fn sm oc ic ca].
  by destruct fn, sm, oc, ic.
Qed.

(** Validation of the rows the store returns. *)
Lemma validate_rows_valid rows :
  Models.validate_records (PList (map analyses_row_to_py rows)) = Valid (map record_of_row rows).
Proof.
  unfold Models.validate_records, v_list. generalize 0%nat.
  induction rows as [|r rows IH]; intros i; cbn [map v_items]; [done|].
  by rewrite validate_row, IH.
Qed.


(** C18: Every row the store returns passes the DBAnalysisRecord response model. *)
Lemma validate_rows rows :
  Models.validate_records (PList (map analyses_row_to_py rows)) = Valid (map record_of_row rows).
Proof. by apply validate_rows_valid. Qed.
Section RouteFacts.
Context (json_loads : string -> option pyval).

(** The history route on a configured world. *)
Lemma history_route_result hs w :
  env_ready (w_env w) ->
  fst (history_route hs w) =
    Ret (JsonResponse 200 (PList (map Models.dump_record (map record_of_row
      (if online (w_db w) then
         match pol_analyses (w_db w) with
         | Allow => sort_desc (rows_of_user (x_user_id hs) (analyses (w_db w)))
         | _ => []
         end
       else []))))).
Proof.
  intros He. destruct (SupabaseService_init_ok w He) as [svc Hs].
  unfold history_route, get_history_route, ptry.
  rewrite (pbind_run_ret _ _ _ _ _ Hs).
  pose proof (get_history_result svc (x_user_id hs) w) as Hg.
  destruct (get_history svc (x_user_id hs) w) as [o w'] eqn:E. simpl in Hg. subst o.
  simpl. destruct (online (w_db w)); [destruct (pol_analyses (w_db w))|]; try reflexivity.
  pose proof (validate_rows_valid (sort_desc (rows_of_user (x_user_id hs) (analyses (w_db w))))) as Hv.
  unfold Models.validate_records, v_list in Hv. by rewrite Hv.
Qed.


(** C10: The history route answers 200 with the caller's rows, newest first,
    as soon as the service is configured; an unreachable store or a
    restrictive policy gives 200 with an empty list. *)
Theorem history_route_ok hs w :
  env_ready (w_env w) ->
  fst (history_route hs w) =
    Ret (JsonResponse 200 (PList (map Models.dump_record (map record_of_row
      (if online (w_db w) then
         match pol_analyses (w_db w) with
         | Allow => sort_desc (rows_of_user (x_user_id hs) (analyses (w_db w)))
         | _ => []
         end
       else []))))).
Proof. by apply history_route_result. Qed.
(** C8: Without SUPABASE_URL the history route is a 500 carrying the
    [ValueError] of [SupabaseService.__init__]. *)
Theorem history_route_unconfigured hs w :
  SUPABASE_URL (w_env w) = None ->
  history_route hs w =
    (Ret (ErrorResponse 500 (DetailExcStr
       (ValueError "SUPABASE_URL and SUPABASE_KEY must be set in environment variables"))), w).
Proof.
  intros Hu. unfold history_route, get_history_route, SupabaseService_init, ptry, pbind, pget.
  by rewrite Hu.
Qed.

(** C7: A SUPABASE_URL that is set but is not an http(s) URL makes the
    history route a 500 carrying the [SupabaseException] of
    [create_client], raised inside the route's [try]; nothing is read. *)
Theorem history_route_invalid_url hs w url key :
  SUPABASE_URL (w_env w) = Some url -> SUPABASE_KEY (w_env w) = Some key ->
  url <> "" -> key <> "" -> url_ok url = false ->
  history_route hs w =
    (Ret (ErrorResponse 500 (DetailExcStr (SupabaseException "Invalid URL"))), w).
Proof.
  intros Hu Hk Hu' Hk' Hurl.
  unfold history_route, get_history_route, SupabaseService_init, ptry, pbind, pget.
  rewrite Hu, Hk. apply String.eqb_neq in Hu', Hk'. rewrite Hu', Hk'. simpl.
  unfold create_client. by rewrite Hu', Hk', Hurl.
Qed.

(** C9: A blank submission is a 400 at the HTTP level too, with nothing
    called and nothing written. *)
Theorem handle_blank_code hs code lang w :
  all_space (list_ascii_of_string code) ->
  handle json_loads (mk_http_request POST "/api/v1/analyze" hs
                       (Some (PDict [("code", PStr code); ("language", PStr lang)]))) w =
    (Ret (ErrorResponse 400 (DetailText "Code cannot be empty")), w).
Proof.
  intros Hb. unfold handle. simpl. unfold analyze_route. simpl.
  by rewrite analyze_code_blank_run.
Qed.
End RouteFacts.

(** ** Concrete requests *)

Definition unconfigured_world : world :=
  mk_world (mk_env None None None) (w_db scenario_world) (w_provider scenario_world) [].



Lemma history_route_ok_witness :
  env_ready (w_env scenario_world) /\
  fst (history_route [("x-user-id", "u1")] scenario_world) =
    Ret (JsonResponse 200 (PList (map Models.dump_record (map record_of_row
      (if online (w_db scenario_world) then
         match pol_analyses (w_db scenario_world) with
         | Allow => sort_desc (rows_of_user (x_user_id [("x-user-id", "u1")]) (analyses (w_db scenario_world)))
         | _ => []
         end
       else []))))).
Proof.
  split; [exact scenario_env_ready | exact (history_route_ok _ _ scenario_env_ready)].
Defined.

Lemma history_route_unconfigured_witness :
  SUPABASE_URL (w_env unconfigured_world) = None /\
  history_route [] unconfigured_world =
    (Ret (ErrorResponse 500 (DetailExcStr
       (ValueError "SUPABASE_URL and SUPABASE_KEY must be set in environment variables"))),
     unconfigured_world).
Proof. split; [reflexivity | exact (history_route_unconfigured [] unconfigured_world eq_refl)]. Defined.

Lemma handle_blank_code_witness :
  all_space (list_ascii_of_string "   ") /\
  handle json_loads
    (mk_http_request POST "/api/v1/analyze" []
       (Some (PDict [("code", PStr "   "); ("language", PStr "python")]))) scenario_world =
  (Ret (ErrorResponse 400 (DetailText "Code cannot be empty")), scenario_world).
Proof.
  assert (H : all_space (list_ascii_of_string "   ")) by repeat constructor.
  split; [exact H | exact (handle_blank_code _ _ _ _ _ H)].
Defined.

Definition bad_url_world : world :=
  mk_world (mk_env (Some "project.supabase.co") (SUPABASE_KEY (w_env scenario_world)) None)
           (w_db scenario_world) (w_provider scenario_world) [].

Lemma history_route_invalid_url_witness :
  SUPABASE_URL (w_env bad_url_world) = Some "project.supabase.co" /\
  history_route [] bad_url_world =
    (Ret (ErrorResponse 500 (DetailExcStr (SupabaseException "Invalid URL"))), bad_url_world).
Proof.
  split; [reflexivity|].
  exact (history_route_invalid_url [] bad_url_world "project.supabase.co"
           "eyJhbGciOiJIUzI1NiJ9.eyJyb2xlIjoic2VydmljZV9yb2xlIn0.c2ln"
           eq_refl eq_refl ltac:(discriminate) ltac:(discriminate) eq_refl).
Defined.
